(** * HiAgent provider: transport client and chat facade

    A shallow embedding of
    [graphrag/language_model/providers/hiagent/client.py] (class
    [HiAgentLLMClient]) and
    [graphrag/language_model/providers/hiagent/chat_model.py] (class
    [HiAgentChatLLM]).

    Python values are an inductive type, byte strings are lists of bytes,
    text is a list of code points.  Methods are computations in a monad
    that threads the attributes of the two objects and the outside world,
    records what the method does (requests sent, log records, callback
    invocations, yielded values) and carries exceptions.  The two external
    libraries the code calls, [json] and [requests], are an interface
    ([Runtime]) that every statement is generic in. *)

From Stdlib Require Import List Bool NArith ZArith Lia Ascii String.
From Stdlib.Strings Require Import Byte.
From Stdlib Require Import SpecFloat.
Import ListNotations.

Set Implicit Arguments.
Set Warnings "-register-all".

(** ** Bytes and text *)

(** A [bytes] object. *)
Definition bytes := list byte.

(** A [str] object: its code points. *)
Definition pystr := list N.

(** An ASCII literal of the source as a [str]. *)
Definition lit (s : string) : pystr :=
  map N_of_ascii (list_ascii_of_string s).

(** The byte [b"\n"]. *)
Definition newline : byte := x0a.

(** [buffer.split(b"\n", 1)] when [b"\n" in buffer]: the bytes before the
    first newline and the bytes after it; [None] when the buffer holds no
    newline. *)
Fixpoint split_newline (buffer : bytes) : option (bytes * bytes) :=
  match buffer with
  | [] => None
  | b :: rest =>
      if Byte.eqb b newline then Some ([], rest)
      else match split_newline rest with
           | Some (line, rest') => Some (b :: line, rest')
           | None => None
           end
  end.

(** A continuation byte, 10xxxxxx. *)
Definition is_cont (n : N) : bool := ((128 <=? n) && (n <=? 191))%N.

(** The six payload bits of a continuation byte. *)
Definition cont_bits (n : N) : N := (n - 128)%N.

(** [bytes.decode("utf-8")] with the default strict error handler: [None]
    stands for [UnicodeDecodeError].  Overlong forms, surrogates, code
    points above U+10FFFF, stray continuation bytes and truncated sequences
    are rejected. *)
Fixpoint utf8_decode (bs : bytes) : option pystr :=
  match bs with
  | [] => Some []
  | b0 :: t0 =>
      let n0 := Byte.to_N b0 in
      if (n0 <? 128)%N then option_map (cons n0) (utf8_decode t0)
      else if ((194 <=? n0) && (n0 <=? 223))%N then
        match t0 with
        | b1 :: t1 =>
            let n1 := Byte.to_N b1 in
            if is_cont n1
            then option_map (cons ((n0 - 192) * 64 + cont_bits n1)%N)
                   (utf8_decode t1)
            else None
        | _ => None
        end
      else if ((224 <=? n0) && (n0 <=? 239))%N then
        match t0 with
        | b1 :: b2 :: t2 =>
            let n1 := Byte.to_N b1 in
            let n2 := Byte.to_N b2 in
            let lo := if (n0 =? 224)%N then 160%N else 128%N in
            let hi := if (n0 =? 237)%N then 159%N else 191%N in
            if ((lo <=? n1) && (n1 <=? hi) && is_cont n2)%N
            then option_map
                   (cons ((n0 - 224) * 4096 + cont_bits n1 * 64
                          + cont_bits n2)%N)
                   (utf8_decode t2)
            else None
        | _ => None
        end
      else if ((240 <=? n0) && (n0 <=? 244))%N then
        match t0 with
        | b1 :: b2 :: b3 :: t3 =>
            let n1 := Byte.to_N b1 in
            let n2 := Byte.to_N b2 in
            let n3 := Byte.to_N b3 in
            let lo := if (n0 =? 240)%N then 144%N else 128%N in
            let hi := if (n0 =? 244)%N then 143%N else 191%N in
            if ((lo <=? n1) && (n1 <=? hi) && is_cont n2 && is_cont n3)%N
            then option_map
                   (cons ((n0 - 240) * 262144 + cont_bits n1 * 4096
                          + cont_bits n2 * 64 + cont_bits n3)%N)
                   (utf8_decode t3)
            else None
        | _ => None
        end
      else None
  end.

(** The characters [str.strip()] removes: those for which [str.isspace]
    holds. *)
Definition isspace (c : N) : bool :=
  (((9 <=? c) && (c <=? 13)) || ((28 <=? c) && (c <=? 32))
   || (c =? 133) || (c =? 160) || (c =? 5760)
   || ((8192 <=? c) && (c <=? 8202))
   || (c =? 8232) || (c =? 8233) || (c =? 8239) || (c =? 8287)
   || (c =? 12288))%N.

Fixpoint lstrip (s : pystr) : pystr :=
  match s with
  | [] => []
  | c :: rest => if isspace c then lstrip rest else s
  end.

Definition rstrip (s : pystr) : pystr := rev (lstrip (rev s)).

(** [s.strip()] *)
Definition strip (s : pystr) : pystr := rstrip (lstrip s).

(** [s.startswith(prefix)] *)
Fixpoint startswith (prefix s : pystr) : bool :=
  match prefix, s with
  | [], _ => true
  | _ :: _, [] => false
  | p :: prefix', c :: s' => (p =? c)%N && startswith prefix' s'
  end.

(** [a == b] on [str]. *)
Fixpoint str_eqb (a b : pystr) : bool :=
  match a, b with
  | [], [] => true
  | x :: a', y :: b' => (x =? y)%N && str_eqb a' b'
  | _, _ => false
  end.

(** ** Values and exceptions *)

(** The Python values the two classes handle: what [json.loads] and
    [Response.json()] return, and [None]. *)
Inductive value : Type :=
| VNone
| VBool (b : bool)
| VInt (n : Z)
| VFloat (f : spec_float)
| VStr (s : pystr)
| VList (items : list value)
| VDict (entries : list (pystr * value)).

(** Lookup in a [dict]; keys of a dict are distinct, so the first entry
    with the key is the entry. *)
Fixpoint dict_lookup (entries : list (pystr * value)) (key : pystr)
  : option value :=
  match entries with
  | [] => None
  | (k, v) :: rest => if str_eqb k key then Some v else dict_lookup rest key
  end.

(** Truth value of an object, as tested by [if x:] and [x or y]. *)
Definition truthy (v : value) : bool :=
  match v with
  | VNone => false
  | VBool b => b
  | VInt n => negb (n =? 0)%Z
  | VFloat (S754_zero _) => false
  | VFloat _ => true
  | VStr s => match s with [] => false | _ => true end
  | VList l => match l with [] => false | _ => true end
  | VDict d => match d with [] => false | _ => true end
  end.

(** [v == "literal"]: a [str] equals only an equal [str]. *)
Definition eq_str (v : value) (s : pystr) : bool :=
  match v with
  | VStr s' => str_eqb s' s
  | _ => false
  end.

(** [a or b] *)
Definition py_or (a b : value) : value := if truthy a then a else b.

(** The exceptions that occur.  [RequestsJSONDecodeError] is
    [requests.exceptions.JSONDecodeError], raised by [Response.json()] on a
    body that is not JSON: it derives from both [requests.RequestException]
    and [json.JSONDecodeError].  [ValueError] and [RecursionError] are what
    [json.loads] raises on an integer with too many digits and on a text
    nested too deep; [ValueError] stands for the class itself, its
    subclasses [json.JSONDecodeError], [UnicodeDecodeError] and
    [UnicodeEncodeError] have constructors of their own. *)
Inductive exn : Type :=
| JSONDecodeError
| UnicodeDecodeError
| UnicodeEncodeError
| ValueError
| RecursionError
| StopIteration
| RuntimeError
| AttributeError
| TypeError
| HTTPError (status : N)
| RequestsJSONDecodeError
| RequestError (kind : N)
| OtherError (kind : N).

(** [isinstance(e, json.JSONDecodeError)] *)
Definition is_JSONDecodeError (e : exn) : bool :=
  match e with
  | JSONDecodeError | RequestsJSONDecodeError => true
  | _ => false
  end.

(** [isinstance(e, UnicodeDecodeError)] *)
Definition is_UnicodeDecodeError (e : exn) : bool :=
  match e with
  | UnicodeDecodeError => true
  | _ => false
  end.

(** [isinstance(e, requests.RequestException)] *)
Definition is_RequestException (e : exn) : bool :=
  match e with
  | HTTPError _ | RequestsJSONDecodeError | RequestError _ => true
  | _ => false
  end.

(** [isinstance(e, StopIteration)] *)
Definition is_StopIteration (e : exn) : bool :=
  match e with
  | StopIteration => true
  | _ => false
  end.

(** The exception the caller of a generator sees when [e] is raised in
    its body and no handler there catches it: a [StopIteration] is replaced
    by a [RuntimeError] when it leaves the frame (PEP 479), every other
    exception travels unchanged. *)
Definition escaping (e : exn) : exn :=
  if is_StopIteration e then RuntimeError else e.

(** ** The outside world: [requests] and [json] *)

(** What [Session.post] is called with. *)
Record request : Type := {
  req_url : pystr;
  req_json : value;
  req_stream : bool;
  req_timeout : option N;
  req_headers : list (pystr * pystr)
}.

(** A [requests.Response]: [json_body] is what [Response.json()] returns
    ([None]: the body is not JSON), [iter_content k] the chunks that
    [Response.iter_content(chunk_size=k, decode_unicode=False)] delivers,
    [iter_failure] the exception the chunk iterator raises after them when
    the connection breaks. *)
Record response : Type := {
  status_code : N;
  json_body : option value;
  iter_content : N -> list bytes;
  iter_failure : option exn
}.

(** [Session.post] returns a response or raises. *)
Inductive http_result : Type :=
| Responded (r : response)
| Failed (e : exn).

(** What the code calls outside itself.  [json_loads s] is
    [json.loads(s)] on a [str]: the value it returns, or the exception it
    raises, which is a [json.JSONDecodeError] on a text that is not a JSON
    document, and may be a [RecursionError] or a [ValueError] on one that
    nests too deep or holds an integer of too many digits.  [session_post]
    is [Session.post] acting on the state of the outside world.
    [stdout_encodes vs] tells whether [sys.stdout] can encode the text
    [print] is given when the values [vs] are formatted into it with
    [str()], the rest of the text being ASCII: [print] raises
    [UnicodeEncodeError] when it cannot. *)
Class Runtime : Type := {
  world : Type;
  json_loads : pystr -> value + exn;
  session_post : request -> world -> http_result * world;
  stdout_encodes : list value -> bool
}.

(** What a run does, in order. *)
Inductive action : Type :=
| APost (r : request)
| ALog (message : pystr) (e : exn)
| ACall (data : value) (outcome : value + exn)
| AYield (v : value).

(** How a frame ends: it returns, an exception travels up through its
    handlers, or (a generator frame) it is left suspended at a [yield]
    because the loop body consuming it raised [e]. *)
Inductive result (A : Type) : Type :=
| Normal (a : A)
| Raised (e : exn)
| Abandoned (e : exn).

Arguments Raised {A} e.
Arguments Abandoned {A} e.

Section Model.

Context {RT : Runtime}.

(** What calling an [on_message] object does: called with the event, it
    acts on the world and returns, leaving the event object with the
    contents [inl d], or raises, [inr e]. *)
Definition callback : Type := value -> world -> (value + exn) * world.

(** An object passed as [on_message]: its truth value, which
    [if on_message:] tests, and what calling it does.  A function is
    true; an object of a class with [__call__] may be false (an empty
    container, say). *)
Record handler : Type := {
  handler_truth : bool;
  handler_call : callback
}.

(** A function passed as [on_message]. *)
Definition function (cb : callback) : handler :=
  {| handler_truth := true; handler_call := cb |}.

(** The callback that [if on_message:] lets through: none when the
    argument is [None], and none when it is an object that is false. *)
Definition enabled (on_message : option handler) : option callback :=
  match on_message with
  | Some h => if handler_truth h then Some (handler_call h) else None
  | None => None
  end.

(** A [HiAgentChatLLM] with the [HiAgentLLMClient] it owns, and the
    world.  [api_url], [api_key], [user_agent], [app_conversation_id] and
    [user_id] are the attributes of the client; [facade_user_id] (the
    [user_id] of the facade), [conversation_inputs] and
    [_conversation_created] those of the facade.  An attribute that
    [__init__] does not assign is [None] until it is set: reading it
    before raises [AttributeError]. *)
Record state : Type := {
  api_url : pystr;
  api_key : value;
  user_agent : pystr;
  app_conversation_id : option value;
  user_id : option pystr;
  facade_user_id : pystr;
  conversation_inputs : value;
  _conversation_created : bool;
  outside : world
}.

Definition set_app_conversation_id (v : value) (s : state) : state :=
  {| api_url := api_url s; api_key := api_key s; user_agent := user_agent s;
     app_conversation_id := Some v; user_id := user_id s;
     facade_user_id := facade_user_id s;
     conversation_inputs := conversation_inputs s;
     _conversation_created := _conversation_created s;
     outside := outside s |}.

Definition set_user_id (u : pystr) (s : state) : state :=
  {| api_url := api_url s; api_key := api_key s; user_agent := user_agent s;
     app_conversation_id := app_conversation_id s; user_id := Some u;
     facade_user_id := facade_user_id s;
     conversation_inputs := conversation_inputs s;
     _conversation_created := _conversation_created s;
     outside := outside s |}.

Definition set_conversation_created (b : bool) (s : state) : state :=
  {| api_url := api_url s; api_key := api_key s; user_agent := user_agent s;
     app_conversation_id := app_conversation_id s; user_id := user_id s;
     facade_user_id := facade_user_id s;
     conversation_inputs := conversation_inputs s;
     _conversation_created := b;
     outside := outside s |}.

Definition set_outside (w : world) (s : state) : state :=
  {| api_url := api_url s; api_key := api_key s; user_agent := user_agent s;
     app_conversation_id := app_conversation_id s; user_id := user_id s;
     facade_user_id := facade_user_id s;
     conversation_inputs := conversation_inputs s;
     _conversation_created := _conversation_created s;
     outside := w |}.

(** ** The monad of methods *)

Definition M (A : Type) : Type := state -> list action * result A * state.

Definition ret {A : Type} (a : A) : M A := fun s => ([], Normal a, s).

Definition bind {A B : Type} (m : M A) (k : A -> M B) : M B :=
  fun s =>
    match m s with
    | (t1, Normal a, s1) => let '(t2, r, s2) := k a s1 in (t1 ++ t2, r, s2)
    | (t1, Raised e, s1) => (t1, Raised e, s1)
    | (t1, Abandoned e, s1) => (t1, Abandoned e, s1)
    end.

(** [raise e] *)
Definition raise {A : Type} (e : exn) : M A := fun s => ([], Raised e, s).

(** [try: m except E as e: handler(e)], [catches] being [isinstance(_, E)]. *)
Definition try_except {A : Type} (m : M A) (catches : exn -> bool)
  (handler : exn -> M A) : M A :=
  fun s =>
    match m s with
    | (t1, Raised e, s1) =>
        if catches e
        then let '(t2, r, s2) := handler e s1 in (t1 ++ t2, r, s2)
        else (t1, Raised e, s1)
    | other => other
    end.

Definition get : M state := fun s => ([], Normal s, s).

Definition modify (f : state -> state) : M unit :=
  fun s => ([], Normal tt, f s).

Definition emit (a : action) : M unit := fun s => ([a], Normal tt, s).

End Model.

Declare Scope monad_scope.
Delimit Scope monad_scope with monad.
Notation "x <- m ;; k" := (bind m (fun x => k))
  (at level 100, m at next level, right associativity) : monad_scope.
Notation "m ;; k" := (bind m (fun _ => k))
  (at level 100, right associativity) : monad_scope.
Open Scope monad_scope.

Section Client.

Context {RT : Runtime}.

(** ** Generators *)

(** What a generator does with a value it yields: the body of the loop
    that consumes it. *)
Definition sink : Type := value -> M unit.

(** [yield v] in a generator consumed by [consumer]: when the consumer
    raises, the generator stays suspended; none of its handlers sees the
    exception. *)
Definition yield_ (consumer : sink) (v : value) : M unit :=
  fun s =>
    match consumer v s with
    | (t, Raised e, s') => (t, Abandoned e, s')
    | other => other
    end.

(** [for x in gen: body(x)]: an exception of the body leaves the loop. *)
Definition for_each (gen : sink -> M unit) (body : value -> M unit)
  : M unit :=
  fun s =>
    match gen body s with
    | (t, Abandoned e, s') => (t, Raised e, s')
    | other => other
    end.

(** The consumer that takes every value and goes on: the yielded values
    are then part of the run. *)
Definition observe : sink := fun v => emit (AYield v).

(** ** Operations on values *)

(** [obj.get(key, default)]: only a [dict] has the method. *)
Definition py_get (obj : value) (key : pystr) (default : value) : M value :=
  match obj with
  | VDict d =>
      ret (match dict_lookup d key with Some v => v | None => default end)
  | _ => raise AttributeError
  end.

(** [len(obj)], for the exception it may raise. *)
Definition py_len (obj : value) : M unit :=
  match obj with
  | VStr _ | VList _ | VDict _ => ret tt
  | _ => raise TypeError
  end.

(** [self.app_conversation_id] *)
Definition read_app_conversation_id : M value :=
  self <- get ;;
  match app_conversation_id self with
  | Some v => ret v
  | None => raise AttributeError
  end.

(** [self.user_id] of the client *)
Definition read_user_id : M value :=
  self <- get ;;
  match user_id self with
  | Some u => ret (VStr u)
  | None => raise AttributeError
  end.

(** ** requests *)

(** [self.session.post(...)] *)
Definition post (r : request) : M response :=
  fun s =>
    let '(h, w) := session_post r (outside s) in
    ([APost r],
     match h with Responded resp => Normal resp | Failed e => Raised e end,
     set_outside w s).

(** [response.raise_for_status()] *)
Definition raise_for_status (resp : response) : M unit :=
  if ((400 <=? status_code resp) && (status_code resp <? 600))%N
  then raise (HTTPError (status_code resp))
  else ret tt.

(** [response.json()] *)
Definition response_json (resp : response) : M value :=
  match json_body resp with
  | Some v => ret v
  | None => raise RequestsJSONDecodeError
  end.

(** [logging.error(f"{message}: {e}")] *)
Definition log_error (message : string) (e : exn) : M unit :=
  emit (ALog (lit message) e).

(** The handler every method of the client ends with:
    [except requests.RequestException as e: logging.error(...); raise]. *)
Definition logged {A : Type} (message : string) (m : M A) : M A :=
  try_except m is_RequestException
    (fun e => log_error message e ;; raise e).

(** ** HiAgentLLMClient *)

Definition create_conversation_url (base : pystr) : pystr :=
  base ++ lit "/api/proxy/api/v1/create_conversation".

Definition chat_query_url (base : pystr) : pystr :=
  base ++ lit "/api/proxy/api/v1/chat_query_v2".

Definition create_conversation_request (base : pystr) (key : value)
  (uid : pystr) (inputs : value) : request :=
  {| req_url := create_conversation_url base;
     req_json := VDict [(lit "AppKey", key);
                        (lit "Inputs", py_or inputs (VDict []));
                        (lit "UserID", VStr uid)];
     req_stream := false;
     req_timeout := Some 10%N;
     req_headers := [] |}.

(** [HiAgentLLMClient.create_conversation] *)
Definition create_conversation (uid : pystr) (inputs : value) : M value :=
  self <- get ;;
  let r := create_conversation_request (api_url self) (api_key self)
             uid inputs in
  logged "Error creating conversation"
    (resp <- post r ;;
     raise_for_status resp ;;
     body <- response_json resp ;;
     conversation <- py_get body (lit "Conversation") VNone ;;
     cid <- py_get conversation (lit "AppConversationID") VNone ;;
     modify (set_app_conversation_id cid) ;;
     modify (set_user_id uid) ;;
     response_json resp).

Definition chat_query_payload (mode : string) (query : pystr)
  (cid key uid query_extends : value) : value :=
  VDict [(lit "Query", VStr query);
         (lit "AppConversationID", cid);
         (lit "AppKey", key);
         (lit "ResponseMode", VStr (lit mode));
         (lit "UserID", uid);
         (lit "QueryExtends", query_extends)].

Definition blocking_request (base : pystr) (key : value) (query : pystr)
  (cid uid query_extends : value) : request :=
  {| req_url := chat_query_url base;
     req_json := chat_query_payload "blocking" query cid key uid
                   query_extends;
     req_stream := false;
     req_timeout := None;
     req_headers := [] |}.

(** [HiAgentLLMClient.chat_query_blocking] *)
Definition chat_query_blocking (query : pystr) (query_extends : value)
  : M value :=
  self <- get ;;
  cid <- read_app_conversation_id ;;
  uid <- read_user_id ;;
  let r := blocking_request (api_url self) (api_key self) query cid uid
             query_extends in
  logged "Error during chat query"
    (resp <- post r ;;
     raise_for_status resp ;;
     response_json resp).

(** ** The streaming decoder *)

(** [json.loads(x)]: a [str] is parsed, anything that is not text is a
    [TypeError]. *)
Definition loads (x : value) : M value :=
  match x with
  | VStr text =>
      match json_loads text with
      | inl v => ret v
      | inr e => raise e
      end
  | _ => raise TypeError
  end.

(** [print(...)] of a text that holds the [str()] of [vs] among ASCII
    characters. *)
Definition debug_print (vs : list value) : M unit :=
  if stdout_encodes vs then ret tt else raise UnicodeEncodeError.

(** The prefix of an event line. *)
Definition data_prefix : pystr := lit "data:".

(** [if on_message: on_message(data)]; the result is the contents of the
    event object after the call.  An exception of the callback is raised
    in the body of the generator: no handler there names [StopIteration]
    or [RuntimeError], so what PEP 479 does to it when it leaves the frame
    is applied here, where it is raised ([escaping]); the call is recorded
    with the exception the callback raised. *)
Definition call_on_message (on_message : option handler) (data : value)
  : M value :=
  match enabled on_message with
  | None => ret data
  | Some cb =>
      fun s =>
        let '(o, w) := cb data (outside s) in
        ([ACall data o],
         match o with inl d => Normal d | inr e => Raised (escaping e) end,
         set_outside w s)
  end.

(** The [if debug:] block after an event is parsed, lines 149-156: the
    answer of the event is read with [.get], the empty text standing for a
    missing one; the text to print takes the event tag, read with [.get],
    and [len(answer)]; then [print] writes the tag and the answer.  What
    is printed is not part of a run; the exception [print] may raise is.
    The other texts printed with [debug] on (lines 122, 137, 181) are ASCII
    and numbers. *)
Definition debug_event (debug : bool) (data : value) : M unit :=
  if debug then
    answer <- py_get data (lit "answer") (VStr []) ;;
    event <- py_get data (lit "event") VNone ;;
    py_len answer ;;
    debug_print [event; answer]
  else ret tt.

(** One turn of the [while b"\n" in buffer] loop after the split, lines
    133-165. *)
Definition process_line (consumer : sink) (on_message : option handler)
  (debug : bool) (line_bytes : bytes) : M unit :=
  match utf8_decode line_bytes with
  | None => ret tt
  | Some text =>
      let line := strip text in
      match line with
      | [] => ret tt
      | _ :: _ =>
          if startswith data_prefix line then
            let data_str := strip (skipn 5 line) in
            try_except
              (data <- loads (VStr data_str) ;;
               debug_event debug data ;;
               data' <- call_on_message on_message data ;;
               yield_ consumer data')
              is_JSONDecodeError
              (fun _ =>
                 if debug then debug_print [VStr (firstn 100 data_str)]
                 else ret tt)
          else ret tt
      end
  end.

(** The [while b"\n" in buffer] loop, lines 130-165; the result is the
    buffer it leaves.  Every turn removes a byte of the buffer, so
    [length buffer] turns are enough ([drain_lines] below). *)
Fixpoint drain (fuel : nat) (consumer : sink) (on_message : option handler)
  (debug : bool) (buffer : bytes) : M bytes :=
  match fuel with
  | O => ret buffer
  | S fuel' =>
      match split_newline buffer with
      | None => ret buffer
      | Some (line_bytes, rest) =>
          process_line consumer on_message debug line_bytes ;;
          drain fuel' consumer on_message debug rest
      end
  end.

Definition drain_lines (consumer : sink) (on_message : option handler)
  (debug : bool) (buffer : bytes) : M bytes :=
  drain (List.length buffer) consumer on_message debug buffer.

(** The [for chunk in response.iter_content(...)] loop, lines 113-165;
    an empty chunk is skipped.  The [if debug:] block of lines 119-126
    only prints. *)
Fixpoint feed_chunks (consumer : sink) (on_message : option handler)
  (debug : bool) (chunks : list bytes) (buffer : bytes) : M bytes :=
  match chunks with
  | [] => ret buffer
  | chunk :: chunks' =>
      match chunk with
      | [] => feed_chunks consumer on_message debug chunks' buffer
      | _ :: _ =>
          buffer' <- drain_lines consumer on_message debug (buffer ++ chunk) ;;
          feed_chunks consumer on_message debug chunks' buffer'
      end
  end.

(** The end of the chunk iterator: it stops, or raises. *)
Definition iter_end (failure : option exn) : M unit :=
  match failure with
  | None => ret tt
  | Some e => raise e
  end.

(** [if buffer:] after the loop, lines 167-177. *)
Definition process_tail (consumer : sink) (on_message : option handler)
  (buffer : bytes) : M unit :=
  match buffer with
  | [] => ret tt
  | _ :: _ =>
      try_except
        (match utf8_decode buffer with
         | None => raise UnicodeDecodeError
         | Some text =>
             let line := strip text in
             if startswith data_prefix line then
               let data_str := strip (skipn 5 line) in
               data <- loads (VStr data_str) ;;
               data' <- call_on_message on_message data ;;
               yield_ consumer data'
             else ret tt
         end)
        (fun e => is_UnicodeDecodeError e || is_JSONDecodeError e)
        (fun _ => ret tt)
  end.

(** The decoder, lines 109-177, over the chunks the response delivers. *)
Definition decode_stream (consumer : sink) (on_message : option handler)
  (debug : bool) (chunks : list bytes) (failure : option exn) : M unit :=
  buffer <- feed_chunks consumer on_message debug chunks [] ;;
  iter_end failure ;;
  process_tail consumer on_message buffer.

(** The framing of the stream: an event is a line [data: <json>] ended
    by a newline byte. *)
Definition data_frame (payload : bytes) : bytes :=
  list_byte_of_string "data: " ++ payload.

Definition framed (payloads : list bytes) : bytes :=
  List.concat (map (fun p => data_frame p ++ [newline]) payloads).

Definition streaming_headers : list (pystr * pystr) :=
  [(lit "Connection", lit "keep-alive");
   (lit "Accept", lit "text/event-stream");
   (lit "Cache-Control", lit "no-cache")].

Definition streaming_request (base : pystr) (key : value) (query : pystr)
  (cid uid query_extends : value) : request :=
  {| req_url := chat_query_url base;
     req_json := chat_query_payload "streaming" query cid key uid
                   query_extends;
     req_stream := true;
     req_timeout := Some 30%N;
     req_headers := streaming_headers |}.

(** [HiAgentLLMClient.chat_query_streaming], a generator consumed by
    [consumer]. *)
Definition chat_query_streaming (consumer : sink) (query : pystr)
  (query_extends : value) (on_message : option handler) (chunk_size : N)
  (debug : bool) : M unit :=
  self <- get ;;
  cid <- read_app_conversation_id ;;
  uid <- read_user_id ;;
  let r := streaming_request (api_url self) (api_key self) query cid uid
             query_extends in
  logged "Error during streaming chat query"
    (resp <- post r ;;
     raise_for_status resp ;;
     decode_stream consumer on_message debug
       (iter_content resp chunk_size) (iter_failure resp)).

End Client.

Section Facade.

Context {RT : Runtime}.

(** ** HiAgentChatLLM *)

(** The keyword arguments the facade reads: [kwargs.get("query_extends")],
    [kwargs.get("json", False)] and [kwargs.get("chunk_size", 1)]. *)
Record kwargs : Type := {
  kw_query_extends : value;
  kw_json : bool;
  kw_chunk_size : N
}.

(** Modelled from the spec: [BaseModelOutput], of
    [graphrag.language_model.response.base], is the output of a response,
    holding the answer text. *)
Record BaseModelOutput : Type := { content : value }.

(** Modelled from the spec: [BaseModelResponse], of the same module, is
    the response object of the host framework, exposing the output and an
    optional parsed structured value, [None] when there is none.  The
    record holds what [chat] passes to the two constructors; the
    properties below are about results whose content is a text and whose
    structured value is [None], and say nothing of what the constructors,
    which are not in this repository, make of other arguments. *)
Record BaseModelResponse : Type := {
  output : BaseModelOutput;
  parsed_response : value
}.

(** [HiAgentChatLLM.__init__]: [hiagent_apikey] is
    [os.getenv("HIAGENT_APIKEY")], a [str] or [None]. *)
Definition HiAgentChatLLM_init (inputs : value) (hiagent_apikey : value)
  (w : world) : state :=
  {| api_url := lit "https://agent.hust.edu.cn";
     api_key := hiagent_apikey;
     user_agent := lit "GraphRAG/1.0";
     app_conversation_id := None;
     user_id := None;
     facade_user_id := lit "graphrag_user";
     conversation_inputs := py_or inputs (VDict []);
     _conversation_created := false;
     outside := w |}.

(** [HiAgentChatLLM._ensure_conversation] *)
Definition _ensure_conversation : M unit :=
  self <- get ;;
  if negb (_conversation_created self) then
    _ <- create_conversation (facade_user_id self)
           (conversation_inputs self) ;;
    modify (set_conversation_created true)
  else ret tt.

(** The end of [chat], lines 128-142: from the body of the response to
    the result. *)
Definition build_response (kw : kwargs) (resp : value)
  : M BaseModelResponse :=
  answer <- py_get resp (lit "answer") (VStr []) ;;
  parsed_json <-
    (if kw_json kw
     then try_except (loads answer) is_JSONDecodeError (fun _ => ret VNone)
     else ret VNone) ;;
  ret {| output := {| content := answer |};
         parsed_response := parsed_json |}.

(** [HiAgentChatLLM.chat] *)
Definition chat (prompt : pystr) (history : value) (kw : kwargs)
  : M BaseModelResponse :=
  _ensure_conversation ;;
  let query_extends := kw_query_extends kw in
  resp <- chat_query_blocking prompt query_extends ;;
  build_response kw resp.

(** The body of the loop over the events, lines 169-172 (and 95-98). *)
Definition reyield_answer (data : value) : M unit :=
  event <- py_get data (lit "event") VNone ;;
  if eq_str event (lit "message") then
    answer <- py_get data (lit "answer") (VStr []) ;;
    if truthy answer then emit (AYield answer) else ret tt
  else ret tt.

(** [HiAgentChatLLM.chat_stream], consumed to its end. *)
Definition chat_stream (prompt : pystr) (history : value) (kw : kwargs)
  : M unit :=
  _ensure_conversation ;;
  let query_extends := kw_query_extends kw in
  for_each
    (fun consumer =>
       chat_query_streaming consumer prompt query_extends None
         (kw_chunk_size kw) false)
    reyield_answer.



(** The values a run yields. *)
Definition yields (t : list action) : list value :=
  flat_map (fun a => match a with AYield v => [v] | _ => [] end) t.

(** What a run does apart from yielding. *)
Definition effects (t : list action) : list action :=
  filter (fun a => match a with AYield _ => false | _ => true end) t.


(** [for x in l: body(x)] over a list. *)
Fixpoint for_list {A : Type} (l : list A) (body : A -> M unit) : M unit :=
  match l with
  | [] => ret tt
  | x :: l' => body x ;; for_list l' body
  end.



(** ** Sequences of calls *)

(** A call of one of the two synchronous entry points. *)
Inductive call : Type :=
| Chat (prompt : pystr) (history : value) (kw : kwargs)
| ChatStream (prompt : pystr) (history : value) (kw : kwargs).

Definition run_call (c : call) : M unit :=
  match c with
  | Chat prompt history kw => _ <- chat prompt history kw ;; ret tt
  | ChatStream prompt history kw => chat_stream prompt history kw
  end.

(** The calls made one after the other on one instance, each stream
    consumed to its end before the next call; a call that raised does not
    stop the caller from making the next one.  For every call: what it
    did, how it ended, and the state it left. *)
Fixpoint run_calls (calls : list call) (s : state)
  : list (list action * result unit * state) :=
  match calls with
  | [] => []
  | c :: calls' =>
      let '(t, r, s') := run_call c s in
      (t, r, s') :: run_calls calls' s'
  end.

(** The requests to the create-conversation endpoint in a run. *)
Definition is_create_post (base : pystr) (a : action) : bool :=
  match a with
  | APost r => str_eqb (req_url r) (create_conversation_url base)
  | _ => false
  end.

Definition create_posts (base : pystr) (t : list action) : nat :=
  List.length (filter (is_create_post base) t).

End Facade.

(** ** The decoder without a callback *)

Section Events.

Context {RT : Runtime}.

(** The facade gives the decoder no callback and leaves [debug] off.  A
    line then carries an event, or nothing, or makes [json.loads] raise an
    exception that no handler of the decoder catches; the decoder hands
    the events of the stream to its consumer one after the other, up to
    the first line that raises. *)
Definition option_list {A : Type} (o : option A) : list A :=
  match o with
  | Some a => [a]
  | None => []
  end.

(** The event of a line, lines 133-146. *)
Definition parse_line (line_bytes : bytes) : option value :=
  match utf8_decode line_bytes with
  | None => None
  | Some text =>
      let line := strip text in
      match line with
      | [] => None
      | _ :: _ =>
          if startswith data_prefix line
          then match json_loads (strip (skipn 5 line)) with
               | inl data => Some data
               | inr _ => None
               end
          else None
      end
  end.

(** The exception that leaves the handling of a line: what [json.loads]
    raises on its payload when the handler of line 162 does not catch
    it. *)
Definition line_error (line_bytes : bytes) : option exn :=
  match utf8_decode line_bytes with
  | None => None
  | Some text =>
      let line := strip text in
      match line with
      | [] => None
      | _ :: _ =>
          if startswith data_prefix line
          then match json_loads (strip (skipn 5 line)) with
               | inl _ => None
               | inr e => if is_JSONDecodeError e then None else Some e
               end
          else None
      end
  end.

(** The event of the trailing fragment, lines 167-172. *)
Definition parse_tail (buffer : bytes) : option value :=
  match buffer with
  | [] => None
  | _ :: _ =>
      match utf8_decode buffer with
      | None => None
      | Some text =>
          let line := strip text in
          if startswith data_prefix line
          then match json_loads (strip (skipn 5 line)) with
               | inl data => Some data
               | inr _ => None
               end
          else None
      end
  end.

(** The exception that leaves the handling of the trailing fragment:
    what [json.loads] raises on its payload when the handler of line 176
    does not catch it. *)
Definition tail_error (buffer : bytes) : option exn :=
  match buffer with
  | [] => None
  | _ :: _ =>
      match utf8_decode buffer with
      | None => None
      | Some text =>
          let line := strip text in
          if startswith data_prefix line
          then match json_loads (strip (skipn 5 line)) with
               | inl _ => None
               | inr e =>
                   if is_UnicodeDecodeError e || is_JSONDecodeError e
                   then None else Some e
               end
          else None
      end
  end.

(** The events of the lines the [while] loop takes from the buffer, and
    how the loop stops: with the buffer it leaves, or with the exception
    of the first line that raises one. *)
Fixpoint drain_events (fuel : nat) (buffer : bytes)
  : list value * (bytes + exn) :=
  match fuel with
  | O => ([], inl buffer)
  | S fuel' =>
      match split_newline buffer with
      | None => ([], inl buffer)
      | Some (line_bytes, rest) =>
          match line_error line_bytes with
          | Some e => ([], inr e)
          | None =>
              let '(events, stop) := drain_events fuel' rest in
              (option_list (parse_line line_bytes) ++ events, stop)
          end
      end
  end.

(** The same for the loop over the chunks. *)
Fixpoint feed_events (chunks : list bytes) (buffer : bytes)
  : list value * (bytes + exn) :=
  match chunks with
  | [] => ([], inl buffer)
  | chunk :: chunks' =>
      match chunk with
      | [] => feed_events chunks' buffer
      | _ :: _ =>
          let '(events, stop) :=
            drain_events (List.length (buffer ++ chunk)) (buffer ++ chunk) in
          match stop with
          | inl buffer' =>
              let '(events', stop') := feed_events chunks' buffer' in
              (events ++ events', stop')
          | inr e => (events, inr e)
          end
      end
  end.

(** The events of a stream: those of its lines up to the first that
    raises and, when none does and the chunk iterator ends without
    raising, that of the trailing fragment. *)
Definition stream_events (chunks : list bytes) (failure : option exn)
  : list value :=
  let '(events, stop) := feed_events chunks [] in
  match stop, failure with
  | inl buffer, None => events ++ option_list (parse_tail buffer)
  | _, _ => events
  end.

(** The exception a stream without a callback ends with, when its
    consumer does not stop it: that of the first line that raises one,
    else that of the chunk iterator, else that of the trailing
    fragment. *)
Definition stream_end (chunks : list bytes) (failure : option exn)
  : option exn :=
  match snd (feed_events chunks []), failure with
  | inr e, _ => Some e
  | inl _, Some e => Some e
  | inl buffer, None => tail_error buffer
  end.

(** [raise e] when there is an exception. *)
Definition raise_if (o : option exn) : M unit :=
  match o with
  | Some e => raise e
  | None => ret tt
  end.

(** How a loop of the decoder stops. *)
Definition stop_with (stop : bytes + exn) : M bytes :=
  match stop with
  | inl buffer => ret buffer
  | inr e => raise e
  end.

(** Handing events to the consumer one after the other. *)
Definition deliver (consumer : sink) (events : list value) : M unit :=
  for_list events (yield_ consumer).

(** The log record the handler of a client method leaves when the body
    of its [try] ended with [r]. *)
Definition error_log (message : string) {A : Type} (r : result A)
  : list action :=
  match r with
  | Raised e => if is_RequestException e then [ALog (lit message) e] else []
  | _ => []
  end.

(** ** What [chat_stream] is specified to yield *)

(** A streaming event is a JSON object. *)
Definition is_object (v : value) : bool :=
  match v with
  | VDict _ => true
  | _ => false
  end.

(** A field of an event, [default] when the event has no such field. *)
Definition field (event : value) (key : pystr) (default : value) : value :=
  match event with
  | VDict entries =>
      match dict_lookup entries key with
      | Some v => v
      | None => default
      end
  | _ => default
  end.

(** The event is tagged as a message event. *)
Definition is_message (event : value) : bool :=
  eq_str (field event (lit "event") VNone) (lit "message").

(** The answer of an event, the empty text when it has none. *)
Definition answer_of (event : value) : value :=
  field event (lit "answer") (VStr []).

(** The answers of the message events whose answer is not empty, in
    order. *)
Definition message_fragments (events : list value) : list value :=
  map answer_of
    (filter (fun event => is_message event && truthy (answer_of event))
       events).

End Events.

(** ** Runs of the streaming call with a callback *)

Section Discipline.

Context {RT : Runtime}.







Definition caught_in_tail (e : exn) : bool :=
  is_UnicodeDecodeError e || is_JSONDecodeError e.



(** C2 as the specification words it, for one stream: the trailing
    fragment adds the event it holds, or nothing when it is not well
    formed, and then no error is raised. *)
Definition trailing_fragment_as_worded (on_message : option handler)
  (debug : bool) (chunks : list bytes) (s : state) : Prop :=
  forall t fragment s1,
    feed_chunks observe on_message debug chunks [] s
    = (t, Normal fragment, s1) ->
    fragment <> [] ->
    exists t2 r s2,
      decode_stream observe on_message debug chunks None s = (t ++ t2, r, s2)
      /\ yields t2 = option_list (parse_tail fragment)
      /\ (parse_tail fragment = None -> r = Normal tt).

(** C6 as the specification words it, for one call: when the answer is
    a text for which [json.loads] returns no value, [chat] returns the text
    alone. *)
Definition unparsable_answer_as_worded (prompt : pystr) (history : value)
  (kw : kwargs) (s : state) : Prop :=
  forall t1 s1 cid uid resp w entries text,
    _ensure_conversation s = (t1, Normal tt, s1) ->
    app_conversation_id s1 = Some cid ->
    user_id s1 = Some uid ->
    kw_json kw = true ->
    session_post
      (blocking_request (api_url s1) (api_key s1) prompt cid (VStr uid)
         (kw_query_extends kw))
      (outside s1) = (Responded resp, w) ->
    (200 <= status_code resp < 300)%N ->
    json_body resp = Some (VDict entries) ->
    dict_lookup entries (lit "answer") = Some (VStr text) ->
    (forall v, json_loads text <> inl v) ->
    exists t s',
      chat prompt history kw s
      = (t,
         Normal {| output := {| content := VStr text |};
                   parsed_response := VNone |},
         s').

End Discipline.

(** ** Runs of the facade *)

Section Runs.

Context {RT : Runtime}.

Definition trace_of {A : Type} (run : list action * result A * state)
  : list action :=
  fst (fst run).

Definition result_of {A : Type} (run : list action * result A * state)
  : result A :=
  snd (fst run).

Definition state_of {A : Type} (run : list action * result A * state)
  : state :=
  snd run.

(** The attributes [__init__] sets once and for all are the same in
    both states. *)
Definition same_config (s s' : state) : Prop :=
  api_url s' = api_url s
  /\ api_key s' = api_key s
  /\ facade_user_id s' = facade_user_id s
  /\ conversation_inputs s' = conversation_inputs s.


End Runs.

(** ** The other methods of the client *)

Section OtherMethods.

Context {RT : Runtime}.

(** What [get_conversation_messages], [get_message_info],
    [run_app_workflow] and [query_run_app_process] do once the payload is
    built, as [chat_query_blocking] does: the request is sent, a status of
    error raises, the JSON body is returned; a
    [requests.RequestException] is logged and raised again. *)
Definition post_for_json (message : string) (r : request) : M value :=
  logged message
    (resp <- post r ;;
     raise_for_status resp ;;
     response_json resp).

Definition get_conversation_messages_request (base : pystr) (key : value)
  (uid cid : value) (limit : Z) : request :=
  {| req_url := base ++ lit "/api/proxy/api/v1/get_conversation_messages";
     req_json := VDict [(lit "AppKey", key);
                        (lit "UserID", uid);
                        (lit "AppConversationID", cid);
                        (lit "Limit", VInt limit)];
     req_stream := false;
     req_timeout := Some 10%N;
     req_headers := [] |}.

(** [HiAgentLLMClient.get_conversation_messages] *)
Definition get_conversation_messages (limit : Z) : M value :=
  self <- get ;;
  uid <- read_user_id ;;
  cid <- read_app_conversation_id ;;
  post_for_json "Error getting conversation messages"
    (get_conversation_messages_request (api_url self) (api_key self) uid cid
       limit).

Definition get_message_info_request (base : pystr) (key : value)
  (uid : value) (message_id : pystr) : request :=
  {| req_url := base ++ lit "/api/proxy/api/v1/get_message_info";
     req_json := VDict [(lit "AppKey", key);
                        (lit "UserID", uid);
                        (lit "MessageID", VStr message_id)];
     req_stream := false;
     req_timeout := Some 10%N;
     req_headers := [] |}.

(** [HiAgentLLMClient.get_message_info] *)
Definition get_message_info (message_id : pystr) : M value :=
  self <- get ;;
  uid <- read_user_id ;;
  post_for_json "Error getting message info"
    (get_message_info_request (api_url self) (api_key self) uid message_id).

(** The payload [run_app_workflow] and [query_run_app_process] share. *)
Definition app_payload (key uid input : value) (app_id : pystr) : value :=
  VDict [(lit "AppKey", key);
         (lit "UserID", uid);
         (lit "Input", input);
         (lit "AppID", VStr app_id)].

Definition run_app_workflow_request (base : pystr) (key : value)
  (uid input : value) (app_id : pystr) : request :=
  {| req_url := base ++ lit "/api/proxy/api/v1/run_app_workflow";
     req_json := app_payload key uid input app_id;
     req_stream := false;
     req_timeout := Some 10%N;
     req_headers := [] |}.

(** [HiAgentLLMClient.run_app_workflow] *)
Definition run_app_workflow (input : value) (app_id : pystr) : M value :=
  self <- get ;;
  uid <- read_user_id ;;
  post_for_json "Error running app workflow"
    (run_app_workflow_request (api_url self) (api_key self) uid input
       app_id).

Definition query_run_app_process_request (base : pystr) (key : value)
  (uid input : value) (app_id : pystr) : request :=
  {| req_url := base ++ lit "/api/proxy/api/v1/query_run_app_process";
     req_json := app_payload key uid input app_id;
     req_stream := false;
     req_timeout := Some 10%N;
     req_headers := [] |}.

(** [HiAgentLLMClient.query_run_app_process]; the message it logs is that
    of [run_app_workflow], line 256. *)
Definition query_run_app_process (input : value) (app_id : pystr)
  : M value :=
  self <- get ;;
  uid <- read_user_id ;;
  post_for_json "Error running app workflow"
    (query_run_app_process_request (api_url self) (api_key self) uid input
       app_id).

(** A call of one of the methods of the client that return a value. *)
Inductive client_call : Type :=
| CreateConversation (uid : pystr) (inputs : value)
| ChatQueryBlocking (query : pystr) (query_extends : value)
| GetConversationMessages (limit : Z)
| GetMessageInfo (message_id : pystr)
| RunAppWorkflow (input : value) (app_id : pystr)
| QueryRunAppProcess (input : value) (app_id : pystr).

Definition run_client_call (c : client_call) : M value :=
  match c with
  | CreateConversation uid inputs => create_conversation uid inputs
  | ChatQueryBlocking query query_extends =>
      chat_query_blocking query query_extends
  | GetConversationMessages limit => get_conversation_messages limit
  | GetMessageInfo message_id => get_message_info message_id
  | RunAppWorkflow input app_id => run_app_workflow input app_id
  | QueryRunAppProcess input app_id => query_run_app_process input app_id
  end.

Definition is_create (c : client_call) : bool :=
  match c with
  | CreateConversation _ _ => true
  | _ => false
  end.

(** The method reads [self.app_conversation_id]. *)
Definition reads_conversation (c : client_call) : bool :=
  match c with
  | ChatQueryBlocking _ _ | GetConversationMessages _ => true
  | _ => false
  end.

(** The requests sent and the records logged in a run. *)
Definition posts (t : list action) : nat :=
  List.length
    (filter (fun a => match a with APost _ => true | _ => false end) t).

Definition logs (t : list action) : nat :=
  List.length
    (filter (fun a => match a with ALog _ _ => true | _ => false end) t).

(** A computation that sends no request and writes no log record, is
    not ended by its consumer, and leaves the attributes as they were. *)
Definition quiet {A : Type} (m : M A) : Prop :=
  forall s t r s',
    m s = (t, r, s') ->
    posts t = 0
    /\ logs t = 0
    /\ (forall e, r <> Abandoned e)
    /\ s' = set_outside (outside s') s.

(** [len(v)] is defined: [v] is a [str], a [list] or a [dict]. *)
Definition has_len (v : value) : bool :=
  match v with
  | VStr _ | VList _ | VDict _ => true
  | _ => false
  end.

(** [v] is a [str]. *)
Definition is_text (v : value) : bool :=
  match v with
  | VStr _ => true
  | _ => false
  end.

(** The request a call of the facade sends once the conversation
    exists. *)
Definition query_request (c : call) (base : pystr) (key cid uid : value)
  : request :=
  match c with
  | Chat prompt _ kw =>
      blocking_request base key prompt cid uid (kw_query_extends kw)
  | ChatStream prompt _ kw =>
      streaming_request base key prompt cid uid (kw_query_extends kw)
  end.

(** The complete lines of a buffer: what [buffer.split(b"\n", 1)] takes
    from it, turn after turn. *)
Fixpoint lines_of (fuel : nat) (buffer : bytes) : list bytes :=
  match fuel with
  | O => []
  | S fuel' =>
      match split_newline buffer with
      | None => []
      | Some (line_bytes, rest) => line_bytes :: lines_of fuel' rest
      end
  end.

Definition complete_lines (buffer : bytes) : list bytes :=
  lines_of (List.length buffer) buffer.

(** What the [if debug:] blocks of lines 149-156 and 163-164 need of a
    complete line for the run to go on as it does with [debug] off.  Of a
    line that starts with [data:]: that [print] can write the first
    hundred characters of its payload, which the handler of line 162
    prints when [json.loads], or the callback, raises a
    [json.JSONDecodeError]; and, when the line carries an event, that the
    event is an object whose answer has a length and that [print] can
    write its tag and its answer.  Of another line: nothing. *)
Definition debug_safe (line_bytes : bytes) : bool :=
  match utf8_decode line_bytes with
  | None => true
  | Some text =>
      let line := strip text in
      match line with
      | [] => true
      | _ :: _ =>
          if startswith data_prefix line then
            let data_str := strip (skipn 5 line) in
            stdout_encodes [VStr (firstn 100 data_str)]
            && match json_loads data_str with
               | inl data =>
                   is_object data && has_len (answer_of data)
                   && stdout_encodes [field data (lit "event") VNone;
                                      answer_of data]
               | inr _ => true
               end
          else true
      end
  end.

(** The newline bytes of a byte string. *)
Definition newlines (buffer : bytes) : nat :=
  List.length (filter (fun c => Byte.eqb c newline) buffer).

(** The byte [b"\r"]. *)
Definition carriage_return : byte := x0d.

End OtherMethods.

(** ** A runtime for the worked examples *)

(** The examples below run the model on a reference [json.loads] for the
    part of JSON they use (objects, arrays, strings with the single-letter
    escapes, integers, [true], [false], [null]; a text with a fraction, an
    exponent or a [\u] escape is outside it and is not used), with the
    two limits of CPython on the length of an integer and on the depth of
    nesting, and on a server that answers the requests with a prepared
    list of results.  No statement about the code depends on them: the
    theorems hold for every [Runtime]. *)
Module Example.

Definition is_json_space (c : N) : bool :=
  ((c =? 32) || (c =? 9) || (c =? 10) || (c =? 13))%N.

Fixpoint skip_space (s : pystr) : pystr :=
  match s with
  | c :: rest => if is_json_space c then skip_space rest else s
  | [] => []
  end.

Fixpoint expect (word s : pystr) : option pystr :=
  match word, s with
  | [], _ => Some s
  | w :: word', c :: s' => if (w =? c)%N then expect word' s' else None
  | _ :: _, [] => None
  end.

(** After the opening quote: the characters up to the closing quote. *)
Fixpoint scan_string (s acc : pystr) : option (pystr * pystr) :=
  match s with
  | [] => None
  | c :: rest =>
      if (c =? 34)%N then Some (rev acc, rest)
      else if (c =? 92)%N then
        match rest with
        | e :: rest' =>
            let unescaped :=
              if (e =? 34)%N then Some 34%N
              else if (e =? 92)%N then Some 92%N
              else if (e =? 47)%N then Some 47%N
              else if (e =? 98)%N then Some 8%N
              else if (e =? 102)%N then Some 12%N
              else if (e =? 110)%N then Some 10%N
              else if (e =? 114)%N then Some 13%N
              else if (e =? 116)%N then Some 9%N
              else None in
            match unescaped with
            | Some u => scan_string rest' (u :: acc)
            | None => None
            end
        | [] => None
        end
      else if (c <? 32)%N then None
      else scan_string rest (c :: acc)
  end.

Definition is_digit (c : N) : bool := ((48 <=? c) && (c <=? 57))%N.

Fixpoint scan_digits (s : pystr) (acc : Z) : Z * pystr :=
  match s with
  | c :: rest =>
      if is_digit c then scan_digits rest (acc * 10 + Z.of_N (c - 48))%Z
      else (acc, s)
  | [] => (acc, [])
  end.

Definition ends_integer (s : pystr) : bool :=
  match s with
  | c :: _ => negb ((c =? 46) || (c =? 101) || (c =? 69))%N
  | [] => true
  end.

(** The longest integer [int()] converts, in digits
    ([sys.get_int_max_str_digits()]), and the depth of nesting past which
    the parser raises [RecursionError] ([sys.getrecursionlimit()], less
    the frames already on the stack). *)
Definition int_max_str_digits : nat := 4300.

Definition recursion_limit : nat := 1000.

(** A step of the parser: the value and the rest of the text, or the
    exception. *)
Definition parse_result : Type := (value * pystr) + exn.

Definition syntax_error : parse_result := inr JSONDecodeError.

(** An integer: [0], or a nonzero digit and more digits, after an
    optional minus sign. *)
Definition scan_integer (s : pystr) : parse_result :=
  let '(negative, digits) :=
    match s with
    | c :: rest => if (c =? 45)%N then (true, rest) else (false, s)
    | [] => (false, [])
    end in
  match digits with
  | d :: rest =>
      if (d =? 48)%N then
        if ends_integer rest then inl (VInt 0, rest) else syntax_error
      else if is_digit d then
        let '(n, rest') := scan_digits digits 0%Z in
        if ends_integer rest' then
          if int_max_str_digits <? List.length digits - List.length rest'
          then inr ValueError
          else inl (VInt (if negative then (- n)%Z else n), rest')
        else syntax_error
      else syntax_error
  | [] => syntax_error
  end.

(** [d[key] = v] *)
Fixpoint dict_set (entries : list (pystr * value)) (key : pystr) (v : value)
  : list (pystr * value) :=
  match entries with
  | [] => [(key, v)]
  | (k, old) :: rest =>
      if str_eqb k key then (k, v) :: rest
      else (k, old) :: dict_set rest key v
  end.

(** [depth] is the nesting the parser may still enter. *)
Fixpoint parse_value (fuel depth : nat) (s : pystr) : parse_result :=
  match fuel with
  | O => syntax_error
  | S fuel' =>
      match skip_space s with
      | [] => syntax_error
      | c :: rest =>
          if (c =? 34)%N then
            match scan_string rest [] with
            | Some (text, rest') => inl (VStr text, rest')
            | None => syntax_error
            end
          else if (c =? 91)%N then
            match depth with
            | O => inr RecursionError
            | S depth' =>
                match skip_space rest with
                | 93%N :: rest' => inl (VList [], rest')
                | _ => parse_items fuel' depth' rest []
                end
            end
          else if (c =? 123)%N then
            match depth with
            | O => inr RecursionError
            | S depth' =>
                match skip_space rest with
                | 125%N :: rest' => inl (VDict [], rest')
                | _ => parse_members fuel' depth' rest []
                end
            end
          else
            match expect (lit "null") (c :: rest) with
            | Some rest' => inl (VNone, rest')
            | None =>
            match expect (lit "true") (c :: rest) with
            | Some rest' => inl (VBool true, rest')
            | None =>
            match expect (lit "false") (c :: rest) with
            | Some rest' => inl (VBool false, rest')
            | None => scan_integer (c :: rest)
            end end end
      end
  end
with parse_items (fuel depth : nat) (s : pystr) (acc : list value)
  : parse_result :=
  match fuel with
  | O => syntax_error
  | S fuel' =>
      match parse_value fuel' depth s with
      | inl (v, rest) =>
          match skip_space rest with
          | c :: rest' =>
              if (c =? 44)%N then parse_items fuel' depth rest' (acc ++ [v])
              else if (c =? 93)%N then inl (VList (acc ++ [v]), rest')
              else syntax_error
          | [] => syntax_error
          end
      | inr e => inr e
      end
  end
with parse_members (fuel depth : nat) (s : pystr)
  (acc : list (pystr * value)) : parse_result :=
  match fuel with
  | O => syntax_error
  | S fuel' =>
      match skip_space s with
      | q :: after_quote =>
          if (q =? 34)%N then
            match scan_string after_quote [] with
            | Some (key, rest) =>
                match skip_space rest with
                | colon :: rest' =>
                    if (colon =? 58)%N then
                      match parse_value fuel' depth rest' with
                      | inl (v, rest'') =>
                          match skip_space rest'' with
                          | c :: rest''' =>
                              if (c =? 44)%N
                              then parse_members fuel' depth rest'''
                                     (dict_set acc key v)
                              else if (c =? 125)%N
                              then inl (VDict (dict_set acc key v), rest''')
                              else syntax_error
                          | [] => syntax_error
                          end
                      | inr e => inr e
                      end
                    else syntax_error
                | [] => syntax_error
                end
            | None => syntax_error
            end
          else syntax_error
      | [] => syntax_error
      end
  end.

(** [json.loads] on the fragment. *)
Definition loads (s : pystr) : value + exn :=
  match parse_value (2 * List.length s + 2) recursion_limit s with
  | inl (v, rest) =>
      match skip_space rest with
      | [] => inl v
      | _ :: _ => inr JSONDecodeError
      end
  | inr e => inr e
  end.

(** A [sys.stdout] in UTF-8: it encodes every text but one that holds a
    lone surrogate.  The [str()] of a list or of an object writes the
    texts inside it escaped, so only a value that is itself a text can
    bring one. *)
Definition is_surrogate (c : N) : bool := ((55296 <=? c) && (c <=? 57343))%N.

Definition utf8_stdout (vs : list value) : bool :=
  forallb (fun v => match v with
                    | VStr text => negb (existsb is_surrogate text)
                    | _ => true
                    end) vs.

(** A server that answers the requests, in order, with the results it
    holds, and refuses the connection once it has none left. *)
Definition connection_refused : exn := RequestError 0.

Definition scripted_post (r : request) (script : list http_result)
  : http_result * list http_result :=
  match script with
  | h :: script' => (h, script')
  | [] => (Failed connection_refused, [])
  end.

#[export] Instance runtime : Runtime := {|
  world := list http_result;
  json_loads := loads;
  session_post := scripted_post;
  stdout_encodes := utf8_stdout
|}.

(** A byte string written as text, with ['] standing for the double
    quote. *)
Definition b (s : string) : bytes :=
  map (fun c => if Byte.eqb c x27 then x22 else c) (list_byte_of_string s).

(** The same as text. *)
Definition u (s : string) : pystr := map Byte.to_N (b s).

(** A line of the stream: the text and a newline byte. *)
Definition ln (s : string) : bytes := b s ++ [newline].

(** The bytes of a body as one-byte chunks. *)
Definition one_byte_chunks (body : bytes) : list bytes :=
  map (fun c => [c]) body.

(** A callback that tries to parse something of its own in the first
    event and lets the [json.JSONDecodeError] out; it accepts every other
    event. *)
Definition parsing_callback : @callback runtime := fun data w =>
  match data with
  | VInt 1 => (inr JSONDecodeError, w)
  | _ => (inl data, w)
  end.

(** A callback that decodes bytes of its own and lets the
    [UnicodeDecodeError] out. *)
Definition decoding_callback : @callback runtime := fun data w =>
  (inr UnicodeDecodeError, w).

(** A callback that fails on the second event with an exception of
    another class. *)
Definition failing_callback : @callback runtime := fun data w =>
  match data with
  | VInt 2 => (inr (OtherError 7), w)
  | _ => (inl data, w)
  end.

(** An object of a class that derives from [list] and defines
    [__call__], empty: it can be called, it is not [None], and it is
    false. *)
Definition empty_callable : @handler runtime :=
  {| handler_truth := false;
     handler_call := fun data w => (inl data, w) |}.

(** A trailing fragment whose payload opens two thousand arrays and
    closes none, and a text of 4301 digits. *)
Definition deep_text : pystr := repeat 91%N 2000.

Definition deep_fragment : bytes :=
  list_byte_of_string "data: " ++ repeat x5b 2000.

Definition long_integer : bytes := repeat x31 4301.

(** A response with a JSON body. *)
Definition json_response (status : N) (body : value) : response :=
  {| status_code := status; json_body := Some body;
     iter_content := fun _ => []; iter_failure := None |}.

(** The body cut into chunks of [size] bytes, the last one possibly
    shorter. *)
Fixpoint chunks_of (fuel size : nat) (body : bytes) : list bytes :=
  match fuel, body with
  | S fuel', _ :: _ =>
      firstn size body :: chunks_of fuel' size (skipn size body)
  | _, _ => []
  end.

(** A streaming response with the given body, delivered in chunks of the
    size asked for; [failure] is the exception that ends the delivery when
    the connection breaks after the body. *)
Definition stream_response (body : bytes) (failure : option exn)
  : response :=
  {| status_code := 200; json_body := None;
     iter_content :=
       fun size =>
         chunks_of (List.length body) (Nat.max 1 (N.to_nat size)) body;
     iter_failure := failure |}.

(** The answer of the server to a successful [create_conversation]. *)
Definition conversation_body : value :=
  VDict [(u "Conversation",
          VDict [(u "AppConversationID", VStr (u "c-1"))])].

Definition created : http_result :=
  Responded (json_response 200 conversation_body).

(** The answer of the server to a blocking query. *)
Definition answered (text : string) : http_result :=
  Responded (json_response 200 (VDict [(u "answer", VStr (u text))])).

(** A call without keyword arguments, and one asking for structured
    output. *)
Definition no_kwargs : kwargs :=
  {| kw_query_extends := VNone; kw_json := false; kw_chunk_size := 1 |}.

Definition json_kwargs : kwargs :=
  {| kw_query_extends := VNone; kw_json := true; kw_chunk_size := 1 |}.

(** A stream of four events: the second has an empty answer and the
    third is not a message. *)
Definition four_events : bytes :=
  ln "data: {'event': 'message', 'answer': 'hi'}"
  ++ ln "data: {'event': 'message', 'answer': ''}"
  ++ ln "data: {'event': 'message_end'}"
  ++ ln "data: {'event': 'message', 'answer': ' there'}".

(** A stream whose connection breaks after the first event. *)
Definition connection_broken : exn := RequestError 1.


(** A new [HiAgentChatLLM()] facing a server with the given script. *)
Definition fresh (script : list http_result) : state :=
  HiAgentChatLLM_init VNone (VStr (lit "secret")) script.

(** An instance whose conversation exists, facing a server that is
    about to answer with the given results. *)
Definition connected (script : list http_result) : state :=
  state_of (_ensure_conversation (fresh (created :: script))).

End Example.

(** * Properties *)

Unset Implicit Arguments.

Section Proofs.

Context {RT : Runtime}.

(** ** The monad *)

Lemma bind_ret_l (A B : Type) (a : A) (k : A -> M B) (s : state) :
  bind (ret a) k s = k a s.
Proof.
  unfold bind, ret. destruct (k a s) as [[t r] s']. reflexivity.
Qed.

Lemma bind_ret_r (A : Type) (m : M A) (s : state) :
  bind m ret s = m s.
Proof.
  unfold bind, ret.
  destruct (m s) as [[t [a|e|e]] s']; rewrite ?app_nil_r; reflexivity.
Qed.

Lemma bind_assoc (A B C : Type) (m : M A) (k : A -> M B) (h : B -> M C)
  (s : state) :
  bind (bind m k) h s = bind m (fun x => bind (k x) h) s.
Proof.
  unfold bind.
  destruct (m s) as [[t1 [a|e|e]] s1]; try reflexivity.
  destruct (k a s1) as [[t2 [b|e|e]] s2]; try reflexivity.
  destruct (h b s2) as [[t3 r3] s3].
  rewrite app_assoc. reflexivity.
Qed.

Lemma bind_ext (A B : Type) (m : M A) (k1 k2 : A -> M B) (s : state) :
  (forall a s', k1 a s' = k2 a s') -> bind m k1 s = bind m k2 s.
Proof.
  intros H. unfold bind.
  destruct (m s) as [[t1 [a|e|e]] s1]; try reflexivity.
  rewrite H. reflexivity.
Qed.

Lemma bind_cong_l (A B : Type) (m1 m2 : M A) (k : A -> M B) (s : state) :
  m1 s = m2 s -> bind m1 k s = bind m2 k s.
Proof.
  intros H. unfold bind. rewrite H. reflexivity.
Qed.

Lemma bind_normal_inv (A B : Type) (m : M A) (k : A -> M B) (s s' : state)
  (t : list action) (b : B) :
  bind m k s = (t, Normal b, s') ->
  exists t1 a s1 t2,
    m s = (t1, Normal a, s1) /\ k a s1 = (t2, Normal b, s') /\ t = t1 ++ t2.
Proof.
  unfold bind. intros H.
  destruct (m s) as [[t1 [a|e|e]] s1]; try discriminate.
  destruct (k a s1) as [[t2 r2] s2] eqn:E.
  inversion H; subst.
  exists t1, a, s1, t2. repeat split; assumption.
Qed.

(** ** Splitting at the newline *)

Lemma split_newline_app (b1 b2 line rest : bytes) :
  split_newline b1 = Some (line, rest) ->
  split_newline (b1 ++ b2) = Some (line, rest ++ b2).
Proof.
  revert line rest.
  induction b1 as [|c b1 IH]; intros line rest H; simpl in *.
  - discriminate.
  - destruct (Byte.eqb c newline).
    + inversion H; subst. reflexivity.
    + destruct (split_newline b1) as [[l r]|]; [|discriminate].
      inversion H; subst. rewrite (IH _ _ eq_refl). reflexivity.
Qed.

Lemma split_newline_none_app (b1 b2 : bytes) :
  split_newline b1 = None ->
  split_newline (b1 ++ b2)
  = match split_newline b2 with
    | Some (line, rest) => Some (b1 ++ line, rest)
    | None => None
    end.
Proof.
  induction b1 as [|c b1 IH]; intros H; simpl in *.
  - destruct (split_newline b2) as [[l r]|]; reflexivity.
  - destruct (Byte.eqb c newline); [discriminate|].
    destruct (split_newline b1) as [[l r]|]; [discriminate|].
    rewrite (IH eq_refl).
    destruct (split_newline b2) as [[l r]|]; reflexivity.
Qed.

Lemma split_newline_shorter (buffer line rest : bytes) :
  split_newline buffer = Some (line, rest) ->
  List.length rest < List.length buffer.
Proof.
  revert line rest.
  induction buffer as [|c buffer IH]; intros line rest H; simpl in *.
  - discriminate.
  - destruct (Byte.eqb c newline).
    + inversion H; subst. lia.
    + destruct (split_newline buffer) as [[l r]|]; [|discriminate].
      inversion H; subst. specialize (IH _ _ eq_refl). lia.
Qed.

(** What [split(b"\n", 1)] returns, put back together, is the buffer. *)
Lemma split_newline_join (buffer line rest : bytes) :
  split_newline buffer = Some (line, rest) ->
  buffer = line ++ newline :: rest /\ split_newline line = None.
Proof.
  revert line rest.
  induction buffer as [|c buffer IH]; intros line rest H; simpl in *.
  - discriminate.
  - destruct (Byte.eqb c newline) eqn:E.
    + inversion H; subst.
      apply Byte.byte_dec_bl in E. subst c.
      split; reflexivity.
    + destruct (split_newline buffer) as [[l r]|]; [|discriminate].
      inversion H; subst. destruct (IH _ _ eq_refl) as [-> Hl].
      split; [reflexivity|]. simpl. rewrite E, Hl. reflexivity.
Qed.

(** ** The [while] loop needs no more turns than the buffer has bytes *)

Section Decoder.

Variable consumer : sink.
Variable on_message : option handler.
Variable debug : bool.

Lemma drain_enough (f1 f2 : nat) (buffer : bytes) (s : state) :
  List.length buffer <= f1 -> List.length buffer <= f2 ->
  drain f1 consumer on_message debug buffer s
  = drain f2 consumer on_message debug buffer s.
Proof.
  revert f2 buffer s.
  induction f1 as [|f1 IH]; intros f2 buffer s H1 H2.
  - destruct buffer; [|simpl in H1; lia].
    destruct f2; reflexivity.
  - destruct f2 as [|f2].
    + destruct buffer; [|simpl in H2; lia]. reflexivity.
    + simpl. destruct (split_newline buffer) as [[line rest]|] eqn:E;
        [|reflexivity].
      apply split_newline_shorter in E.
      apply bind_ext. intros _ s'. apply IH; lia.
Qed.

(** The loop, turn by turn. *)
Lemma drain_lines_step (buffer : bytes) (s : state) :
  drain_lines consumer on_message debug buffer s
  = match split_newline buffer with
    | None => ret buffer s
    | Some (line_bytes, rest) =>
        (process_line consumer on_message debug line_bytes ;;
         drain_lines consumer on_message debug rest) s
    end.
Proof.
  unfold drain_lines.
  destruct buffer as [|c buffer]; [reflexivity|].
  change (List.length (c :: buffer)) with (S (List.length buffer)).
  cbn [drain].
  destruct (split_newline (c :: buffer)) as [[line rest]|] eqn:E;
    [|reflexivity].
  apply split_newline_shorter in E. simpl in E.
  apply bind_ext. intros _ s'. apply drain_enough; lia.
Qed.

Lemma drain_lines_none (buffer : bytes) (s : state) :
  split_newline buffer = None ->
  drain_lines consumer on_message debug buffer s = ret buffer s.
Proof.
  intros E. rewrite drain_lines_step, E. reflexivity.
Qed.

Lemma drain_lines_some (buffer line_bytes rest : bytes) (s : state) :
  split_newline buffer = Some (line_bytes, rest) ->
  drain_lines consumer on_message debug buffer s
  = (process_line consumer on_message debug line_bytes ;;
     drain_lines consumer on_message debug rest) s.
Proof.
  intros E. rewrite drain_lines_step, E. reflexivity.
Qed.

(** Bytes that arrive later do not change what the lines already in the
    buffer do. *)
Lemma drain_lines_app (n : nat) (b1 b2 : bytes) (s : state) :
  List.length b1 <= n ->
  drain_lines consumer on_message debug (b1 ++ b2) s
  = (r <- drain_lines consumer on_message debug b1 ;;
     drain_lines consumer on_message debug (r ++ b2)) s.
Proof.
  revert b1 s.
  induction n as [|n IH]; intros b1 s Hn;
    destruct (split_newline b1) as [[line rest]|] eqn:E.
  - destruct b1; [discriminate|simpl in Hn; lia].
  - rewrite (bind_cong_l _ _ _ _ _ s (drain_lines_none b1 s E)).
    rewrite bind_ret_l. reflexivity.
  - rewrite (bind_cong_l _ _ _ _ _ s (drain_lines_some b1 line rest s E)).
    rewrite (drain_lines_some (b1 ++ b2) line (rest ++ b2) s
               (split_newline_app _ b2 _ _ E)).
    rewrite bind_assoc. apply bind_ext. intros _ s'.
    apply IH. apply split_newline_shorter in E. lia.
  - rewrite (bind_cong_l _ _ _ _ _ s (drain_lines_none b1 s E)).
    rewrite bind_ret_l. reflexivity.
Qed.

Lemma feed_chunks_concat (chunks : list bytes) (buffer : bytes) (s : state) :
  (b <- drain_lines consumer on_message debug buffer ;;
   feed_chunks consumer on_message debug chunks b) s
  = drain_lines consumer on_message debug (buffer ++ List.concat chunks) s.
Proof.
  revert buffer s.
  induction chunks as [|chunk chunks IH]; intros buffer s.
  - simpl. rewrite app_nil_r. apply bind_ret_r.
  - destruct chunk as [|c chunk].
    + simpl. apply IH.
    + cbn [feed_chunks List.concat].
      rewrite app_assoc. rewrite <- IH.
      rewrite <- bind_assoc.
      apply bind_cong_l. symmetry.
      apply (drain_lines_app (List.length buffer)). apply le_n.
Qed.

(** What the loop over the chunks does depends on the bytes they carry
    together, not on where they are cut. *)
Lemma feed_chunks_whole (chunks : list bytes) (s : state) :
  feed_chunks consumer on_message debug chunks [] s
  = drain_lines consumer on_message debug (List.concat chunks) s.
Proof.
  change (List.concat chunks) with ([] ++ List.concat chunks).
  rewrite <- (feed_chunks_concat chunks [] s).
  rewrite (bind_cong_l _ _ _ _ _ s (drain_lines_none [] s eq_refl)).
  rewrite bind_ret_l. reflexivity.
Qed.

Lemma decode_stream_chunking (chunks : list bytes) (failure : option exn)
  (s : state) :
  decode_stream consumer on_message debug chunks failure s
  = decode_stream consumer on_message debug [List.concat chunks] failure s.
Proof.
  unfold decode_stream.
  apply bind_cong_l.
  rewrite (feed_chunks_whole chunks s).
  rewrite (feed_chunks_whole [List.concat chunks] s).
  simpl List.concat. rewrite app_nil_r. reflexivity.
Qed.

(** The loop stops when the buffer holds no newline. *)
Lemma drain_leaves_no_newline (fuel : nat) (buffer rest : bytes)
  (s s' : state) (t : list action) :
  drain fuel consumer on_message debug buffer s = (t, Normal rest, s') ->
  List.length buffer <= fuel ->
  split_newline rest = None.
Proof.
  revert buffer s t.
  induction fuel as [|fuel IH]; intros buffer s t H Hlen.
  - destruct buffer; [|simpl in Hlen; lia].
    inversion H; subst. reflexivity.
  - simpl in H.
    destruct (split_newline buffer) as [[line tail]|] eqn:E.
    + apply bind_normal_inv in H.
      destruct H as (t1 & [] & s1 & t2 & _ & H2 & _).
      apply (IH _ _ _ H2).
      apply split_newline_shorter in E. lia.
    + inversion H; subst. exact E.
Qed.

Lemma feed_chunks_leaves_no_newline (chunks : list bytes)
  (buffer rest : bytes) (s s' : state) (t : list action) :
  feed_chunks consumer on_message debug chunks buffer s
  = (t, Normal rest, s') ->
  split_newline buffer = None ->
  split_newline rest = None.
Proof.
  revert buffer s t.
  induction chunks as [|chunk chunks IH]; intros buffer s t H Hb.
  - inversion H; subst. exact Hb.
  - destruct chunk as [|c chunk].
    + exact (IH _ _ _ H Hb).
    + cbn [feed_chunks] in H.
      apply bind_normal_inv in H.
      destruct H as (t1 & b1 & s1 & t2 & H1 & H2 & _).
      apply (IH _ _ _ H2).
      exact (drain_leaves_no_newline _ _ _ _ _ _ H1 (le_n _)).
Qed.

(** C7.  A fully assembled line which, decoded as UTF-8 and trimmed, is
    empty or does not start with [data:] produces no event: handling it
    yields nothing, invokes no callback and changes nothing, and the
    decoder goes on with the bytes after the line as if the line had not
    been there. *)
Theorem C7_lines_without_data_prefix_produce_nothing
  (line_bytes rest : bytes) (text : pystr) (s : state) :
  split_newline line_bytes = None ->
  utf8_decode line_bytes = Some text ->
  strip text = [] \/ startswith data_prefix (strip text) = false ->
  process_line consumer on_message debug line_bytes s = ([], Normal tt, s)
  /\ drain_lines consumer on_message debug (line_bytes ++ newline :: rest) s
     = drain_lines consumer on_message debug rest s.
Proof.
  intros Hline Hdec Hnot.
  assert (Hp : process_line consumer on_message debug line_bytes s
               = ret tt s).
  { unfold process_line. rewrite Hdec. cbv zeta.
    destruct Hnot as [Hnot|Hnot]; rewrite Hnot; [reflexivity|].
    destruct (strip text); reflexivity. }
  split; [exact Hp|].
  assert (Hs : split_newline (line_bytes ++ newline :: rest)
               = Some (line_bytes, rest)).
  { rewrite (split_newline_none_app _ _ Hline). simpl.
    rewrite app_nil_r. reflexivity. }
  rewrite (drain_lines_some _ _ _ s Hs).
  rewrite (bind_cong_l _ _ _ _ _ s Hp).
  apply bind_ret_l.
Qed.

(** ** A stream of framed events *)

Lemma split_newline_frame (payload rest : bytes) :
  split_newline payload = None ->
  split_newline ((data_frame payload ++ [newline]) ++ rest)
  = Some (data_frame payload, rest).
Proof.
  intros H. rewrite <- app_assoc.
  assert (Hf : split_newline (data_frame payload) = None).
  { unfold data_frame. simpl. rewrite H. reflexivity. }
  rewrite (split_newline_none_app _ _ Hf). simpl.
  rewrite app_nil_r. reflexivity.
Qed.

Lemma drain_lines_framed (payloads : list bytes) (s : state) :
  Forall (fun p => split_newline p = None) payloads ->
  drain_lines consumer on_message debug (framed payloads) s
  = (for_list payloads
       (fun p => process_line consumer on_message debug (data_frame p)) ;;
     ret []) s.
Proof.
  intros H. revert s.
  induction H as [|p payloads Hp _ IH]; intros s.
  - reflexivity.
  - unfold framed. cbn [map List.concat for_list]. fold (framed payloads).
    rewrite (drain_lines_some _ _ _ s (split_newline_frame p _ Hp)).
    rewrite bind_assoc. apply bind_ext. intros _ s'. apply IH.
Qed.

(** C1.  Take a body made of one or more lines [data: <json>], each ended
    by a newline byte, and any way of cutting it into non-empty chunks,
    one-byte chunks included.  Decoding the chunks does what decoding the
    whole body as one chunk does: the same callback invocations and the
    same values yielded to the consumer, in the same order, with the same
    outcome.  Both runs treat the lines one after the other, each once. *)
Theorem C1_chunking_does_not_matter
  (payloads : list bytes) (chunks : list bytes) (s : state) :
  payloads <> [] ->
  Forall (fun p => split_newline p = None) payloads ->
  Forall (fun c => c <> []) chunks ->
  List.concat chunks = framed payloads ->
  decode_stream consumer on_message debug chunks None s
  = decode_stream consumer on_message debug [framed payloads] None s
  /\ decode_stream consumer on_message debug [framed payloads] None s
     = for_list payloads
         (fun p => process_line consumer on_message debug (data_frame p)) s.
Proof.
  intros _ Hlines _ Hcut. split.
  - rewrite decode_stream_chunking, Hcut. reflexivity.
  - unfold decode_stream.
    rewrite (bind_cong_l _ _ _ _ _ s (feed_chunks_whole _ s)).
    simpl List.concat. rewrite app_nil_r.
    rewrite (bind_cong_l _ _ _ _ _ s (drain_lines_framed _ s Hlines)).
    rewrite bind_assoc.
    rewrite <- (bind_ret_r _
      (for_list payloads
         (fun p => process_line consumer on_message debug (data_frame p))) s).
    apply bind_ext. intros [] s'. reflexivity.
Qed.

End Decoder.

(** ** The callback *)








Section Shape.

Variable caught : exn -> bool.












End Shape.


Section WithCallback.

Variable on_message : option handler.
Variable cb : callback.
Hypothesis Hcb : enabled on_message = Some cb.
Variable debug : bool.








End WithCallback.



(** ** An object given as [on_message] that is false *)

Section Enabled.

Variable consumer : sink.
Variables on_message1 on_message2 : option handler.
Hypothesis Hsame : enabled on_message1 = enabled on_message2.
Variable debug : bool.







End Enabled.

(** ** The trailing fragment *)

(** Once the chunks are exhausted, the run ends with what the [if buffer:]
    block does on the buffer the loop left. *)
Lemma decode_stream_after_feed (consumer : sink)
  (on_message : option handler) (debug : bool) (chunks : list bytes)
  (s s1 : state) (t : list action) (buffer : bytes) :
  feed_chunks consumer on_message debug chunks [] s
  = (t, Normal buffer, s1) ->
  decode_stream consumer on_message debug chunks None s
  = let '(t2, r, s2) := process_tail consumer on_message buffer s1 in
    (t ++ t2, r, s2).
Proof.
  intros H. unfold decode_stream, bind. rewrite H. simpl.
  destruct (process_tail consumer on_message buffer s1) as [[t2 r] s2].
  reflexivity.
Qed.

(** C2, amended.  When the chunks are exhausted and the buffer holds a
    non-empty fragment (which then has no newline in it), the fragment is
    handled once.  If it decodes as UTF-8, starts with [data:] once
    trimmed, and [json.loads] returns a value for the trimmed remainder,
    then, when no callback is enabled, exactly one more event is yielded,
    the parsed value, and when the callback returns, exactly one more
    event is yielded, that value as the callback left it.  If it does not
    decode, does not start with [data:], or [json.loads] raises an
    exception the handler of line 176 catches, nothing more is yielded, no
    callback is invoked and the stream ends normally.  If [json.loads]
    raises another exception, nothing more is yielded and that exception
    leaves the generator.  In every case what was done before is
    unchanged. *)
Theorem C2_trailing_fragment
  (on_message : option handler) (debug : bool) (chunks : list bytes)
  (s s1 : state) (t : list action) (fragment : bytes) :
  feed_chunks observe on_message debug chunks [] s
  = (t, Normal fragment, s1) ->
  fragment <> [] ->
  split_newline fragment = None
  /\ (forall text data,
        utf8_decode fragment = Some text ->
        startswith data_prefix (strip text) = true ->
        json_loads (strip (skipn 5 (strip text))) = inl data ->
        (enabled on_message = None ->
         decode_stream observe on_message debug chunks None s
         = (t ++ [AYield data], Normal tt, s1))
        /\ (forall cb data' w,
              enabled on_message = Some cb ->
              cb data (outside s1) = (inl data', w) ->
              decode_stream observe on_message debug chunks None s
              = (t ++ [ACall data (inl data'); AYield data'], Normal tt,
                 set_outside w s1)))
  /\ (utf8_decode fragment = None
      \/ (exists text,
             utf8_decode fragment = Some text
             /\ (startswith data_prefix (strip text) = false
                 \/ exists e,
                      json_loads (strip (skipn 5 (strip text))) = inr e
                      /\ caught_in_tail e = true)) ->
      decode_stream observe on_message debug chunks None s
      = (t, Normal tt, s1))
  /\ (forall text e,
        utf8_decode fragment = Some text ->
        startswith data_prefix (strip text) = true ->
        json_loads (strip (skipn 5 (strip text))) = inr e ->
        caught_in_tail e = false ->
        decode_stream observe on_message debug chunks None s
        = (t, Raised e, s1)).
Proof.
  intros Hfeed Hne.
  pose proof (decode_stream_after_feed _ _ _ _ _ _ _ _ Hfeed) as Hrun.
  destruct fragment as [|c fragment]; [contradiction|].
  split; [|split; [|split]].
  - exact (feed_chunks_leaves_no_newline _ _ _ _ _ _ _ _ _ Hfeed eq_refl).
  - intros text data Hdec Hstart Hjson. split.
    + intros Hnone. rewrite Hrun.
      unfold process_tail, try_except. rewrite Hdec. cbv zeta.
      rewrite Hstart. unfold bind, loads, call_on_message.
      rewrite Hjson, Hnone. reflexivity.
    + intros cb data' w Hsome Hcb. rewrite Hrun.
      unfold process_tail, try_except. rewrite Hdec. cbv zeta.
      rewrite Hstart. unfold bind, loads, call_on_message.
      rewrite Hjson, Hsome.
      simpl. rewrite Hcb. reflexivity.
  - intros H. rewrite Hrun.
    unfold process_tail, try_except.
    destruct H as [Hdec|(text & Hdec & [Hstart|(e & Hjson & Hc)])];
      rewrite Hdec.
    + simpl. rewrite app_nil_r. reflexivity.
    + cbv zeta. rewrite Hstart. simpl. rewrite app_nil_r. reflexivity.
    + cbv zeta.
      destruct (startswith data_prefix (strip text)).
      * unfold bind, loads. rewrite Hjson.
        unfold caught_in_tail in Hc. cbn [raise]. rewrite Hc. simpl.
        rewrite app_nil_r. reflexivity.
      * simpl. rewrite app_nil_r. reflexivity.
  - intros text e Hdec Hstart Hjson Hc. rewrite Hrun.
    unfold process_tail, try_except. rewrite Hdec. cbv zeta.
    rewrite Hstart. unfold bind, loads. rewrite Hjson.
    unfold caught_in_tail in Hc. cbn [raise]. rewrite Hc.
    rewrite app_nil_r. reflexivity.
Qed.

(** ** Runs, step by step *)

Lemma bind_run_normal (A B : Type) (m : M A) (k : A -> M B) (s s1 : state)
  (t1 : list action) (a : A) :
  m s = (t1, Normal a, s1) ->
  bind m k s = let '(t2, r, s2) := k a s1 in (t1 ++ t2, r, s2).
Proof.
  intros H. unfold bind. rewrite H. reflexivity.
Qed.

Lemma bind_run_raised (A B : Type) (m : M A) (k : A -> M B) (s s1 : state)
  (t1 : list action) (e : exn) :
  m s = (t1, Raised e, s1) -> bind m k s = (t1, Raised e, s1).
Proof.
  intros H. unfold bind. rewrite H. reflexivity.
Qed.

Lemma bind_run_abandoned (A B : Type) (m : M A) (k : A -> M B)
  (s s1 : state) (t1 : list action) (e : exn) :
  m s = (t1, Abandoned e, s1) -> bind m k s = (t1, Abandoned e, s1).
Proof.
  intros H. unfold bind. rewrite H. reflexivity.
Qed.

Lemma yield_normal (consumer : sink) (v : value) (s s' : state)
  (t : list action) :
  consumer v s = (t, Normal tt, s') -> yield_ consumer v s = (t, Normal tt, s').
Proof.
  intros H. unfold yield_. rewrite H. reflexivity.
Qed.

Lemma yield_raised (consumer : sink) (v : value) (s s' : state)
  (t : list action) (e : exn) :
  consumer v s = (t, Raised e, s') ->
  yield_ consumer v s = (t, Abandoned e, s').
Proof.
  intros H. unfold yield_. rewrite H. reflexivity.
Qed.

(** ** The decoder without a callback *)

Lemma deliver_app (consumer : sink) (e1 e2 : list value) (s : state) :
  deliver consumer (e1 ++ e2) s
  = (deliver consumer e1 ;; deliver consumer e2) s.
Proof.
  revert s. induction e1 as [|ev e1 IH]; intros s.
  - unfold deliver. cbn [app for_list]. rewrite bind_ret_l. reflexivity.
  - unfold deliver in *. cbn [app for_list]. rewrite bind_assoc.
    apply bind_ext. intros _ s'. apply IH.
Qed.

Lemma bind_raise (A B : Type) (e : exn) (k : A -> M B) (s : state) :
  bind (raise e) k s = raise e s.
Proof. reflexivity. Qed.

(** A line that raises carries no event, and conversely. *)
Lemma line_error_no_event (line_bytes : bytes) (e : exn) :
  line_error line_bytes = Some e -> parse_line line_bytes = None.
Proof.
  unfold line_error, parse_line.
  destruct (utf8_decode line_bytes) as [text|]; [|reflexivity].
  cbv zeta. destruct (strip text) as [|c line]; [reflexivity|].
  destruct (startswith data_prefix (c :: line)); [|reflexivity].
  destruct (json_loads _); [discriminate|reflexivity].
Qed.

Lemma event_no_line_error (line_bytes : bytes) (data : value) :
  parse_line line_bytes = Some data -> line_error line_bytes = None.
Proof.
  destruct (line_error line_bytes) as [e|] eqn:E; [|reflexivity].
  rewrite (line_error_no_event _ _ E). discriminate.
Qed.

Lemma process_line_pure (consumer : sink) (line_bytes : bytes) (s : state) :
  process_line consumer None false line_bytes s
  = (deliver consumer (option_list (parse_line line_bytes)) ;;
     raise_if (line_error line_bytes)) s.
Proof.
  unfold process_line, parse_line, line_error.
  destruct (utf8_decode line_bytes) as [text|]; [|reflexivity].
  cbv zeta. destruct (strip text) as [|c line]; [reflexivity|].
  destruct (startswith data_prefix (c :: line)); [|reflexivity].
  destruct (json_loads (strip (skipn 5 (c :: line)))) as [data|e] eqn:E;
    cbv [try_except bind loads debug_event call_on_message enabled ret
         deliver for_list yield_ option_list raise raise_if];
    rewrite E.
  - destruct (consumer data s) as [[t [[]|e|e]] s']; cbn [app];
      rewrite ?app_nil_r; reflexivity.
  - destruct (is_JSONDecodeError e); reflexivity.
Qed.

Lemma drain_pure (consumer : sink) (fuel : nat) (buffer : bytes) (s : state) :
  drain fuel consumer None false buffer s
  = (deliver consumer (fst (drain_events fuel buffer)) ;;
     stop_with (snd (drain_events fuel buffer))) s.
Proof.
  revert buffer s. induction fuel as [|fuel IH]; intros buffer s.
  - reflexivity.
  - simpl. destruct (split_newline buffer) as [[line rest]|]; [|reflexivity].
    rewrite (bind_cong_l _ _ _ _ _ s (process_line_pure _ _ s)).
    destruct (line_error line) as [e|] eqn:El.
    + rewrite (line_error_no_event _ _ El). reflexivity.
    + destruct (drain_events fuel rest) as [events stop] eqn:E.
      simpl fst. simpl snd.
      rewrite (bind_cong_l _ _ _ _ _ s (deliver_app _ _ _ s)).
      rewrite !bind_assoc.
      apply bind_ext. intros _ s'.
      cbn [raise_if]. rewrite bind_ret_l, IH, E. reflexivity.
Qed.

Lemma feed_pure (consumer : sink) (chunks : list bytes) (buffer : bytes)
  (s : state) :
  feed_chunks consumer None false chunks buffer s
  = (deliver consumer (fst (feed_events chunks buffer)) ;;
     stop_with (snd (feed_events chunks buffer))) s.
Proof.
  revert buffer s. induction chunks as [|chunk chunks IH]; intros buffer s.
  - reflexivity.
  - destruct chunk as [|c chunk]; [apply IH|].
    cbn [feed_chunks feed_events].
    unfold drain_lines.
    rewrite (bind_cong_l _ _ _ _ _ s (drain_pure _ _ _ s)).
    destruct (drain_events _ (buffer ++ c :: chunk)) as [events stop] eqn:E.
    simpl fst. simpl snd.
    destruct stop as [buffer'|e].
    + destruct (feed_events chunks buffer') as [events' stop'] eqn:E'.
      simpl fst. simpl snd.
      rewrite (bind_cong_l _ _ _ _ _ s (deliver_app _ _ _ s)).
      rewrite !bind_assoc. apply bind_ext. intros _ s'.
      cbn [stop_with]. rewrite bind_ret_l, IH, E'. reflexivity.
    + simpl fst. simpl snd. rewrite bind_assoc.
      apply bind_ext. intros _ s'. reflexivity.
Qed.

Lemma process_tail_pure (consumer : sink) (buffer : bytes) (s : state) :
  process_tail consumer None buffer s
  = (deliver consumer (option_list (parse_tail buffer)) ;;
     raise_if (tail_error buffer)) s.
Proof.
  unfold process_tail, parse_tail, tail_error.
  destruct buffer as [|c buffer]; [reflexivity|].
  unfold try_except.
  destruct (utf8_decode (c :: buffer)) as [text|]; [|reflexivity].
  cbv zeta.
  destruct (startswith data_prefix (strip text)); [|reflexivity].
  destruct (json_loads (strip (skipn 5 (strip text)))) as [data|e] eqn:E;
    cbv [bind loads call_on_message enabled ret deliver for_list yield_
         option_list raise raise_if];
    rewrite E.
  - destruct (consumer data s) as [[t [[]|e|e]] s']; cbn [app];
      rewrite ?app_nil_r; reflexivity.
  - destruct (is_UnicodeDecodeError e || is_JSONDecodeError e); reflexivity.
Qed.

(** Without a callback the decoder is the delivery of the events of the
    stream, followed by the exception the stream ends with, if any. *)
Lemma decode_stream_pure (consumer : sink) (chunks : list bytes)
  (failure : option exn) (s : state) :
  decode_stream consumer None false chunks failure s
  = (deliver consumer (stream_events chunks failure) ;;
     raise_if (stream_end chunks failure)) s.
Proof.
  unfold decode_stream, stream_events, stream_end.
  rewrite (bind_cong_l _ _ _ _ _ s (feed_pure _ _ _ s)).
  destruct (feed_events chunks []) as [events [buffer|e]].
  - simpl fst. simpl snd. rewrite bind_assoc.
    destruct failure as [e|].
    + apply bind_ext. intros _ s'. reflexivity.
    + rewrite (bind_cong_l _ _ _ _ _ s (deliver_app _ _ _ s)).
      rewrite bind_assoc. apply bind_ext. intros _ s'.
      cbn [stop_with iter_end]. rewrite !bind_ret_l.
      apply process_tail_pure.
  - simpl fst. simpl snd. rewrite bind_assoc.
    apply bind_ext. intros _ s'. reflexivity.
Qed.

Lemma deliver_observe (events : list value) (s : state) :
  deliver observe events s = (map AYield events, Normal tt, s).
Proof.
  induction events as [|ev events IH]; [reflexivity|].
  unfold deliver in *. cbn [for_list].
  rewrite (bind_run_normal _ _ _ _ _ _ [AYield ev] tt
             (yield_normal observe ev s s _ eq_refl)).
  rewrite IH. reflexivity.
Qed.

(** A stream consumed to its end: the events are yielded, then the
    exception the stream ends with, if any, is raised. *)
Lemma decode_stream_observe (chunks : list bytes) (failure : option exn)
  (s : state) :
  decode_stream observe None false chunks failure s
  = (map AYield (stream_events chunks failure),
     match stream_end chunks failure with
     | Some e => Raised e
     | None => Normal tt
     end,
     s).
Proof.
  rewrite decode_stream_pure. unfold bind.
  rewrite deliver_observe.
  destruct (stream_end chunks failure); simpl; rewrite app_nil_r;
    reflexivity.
Qed.

(** ** The loop of [chat_stream] *)

Lemma reyield_answer_object (event : value) (s : state) :
  is_object event = true ->
  reyield_answer event s
  = (map AYield (message_fragments [event]), Normal tt, s).
Proof.
  destruct event; try discriminate. intros _.
  unfold reyield_answer, message_fragments, is_message, answer_of, field,
    py_get, bind, ret, emit.
  cbn [filter map].
  destruct (eq_str _ (lit "message")); [|reflexivity].
  cbn [andb]. destruct (truthy _); reflexivity.
Qed.

Lemma reyield_answer_other (event : value) (s : state) :
  is_object event = false ->
  reyield_answer event s = ([], Raised AttributeError, s).
Proof.
  destruct event; try discriminate; reflexivity.
Qed.

Lemma message_fragments_app (e1 e2 : list value) :
  message_fragments (e1 ++ e2) = message_fragments e1 ++ message_fragments e2.
Proof.
  unfold message_fragments. rewrite filter_app, map_app. reflexivity.
Qed.

Lemma deliver_reyield (events : list value) (s : state) :
  forallb is_object events = true ->
  deliver reyield_answer events s
  = (map AYield (message_fragments events), Normal tt, s).
Proof.
  induction events as [|ev events IH]; [reflexivity|].
  cbn [forallb]. intros H. apply andb_prop in H. destruct H as [Hev H].
  unfold deliver in *. cbn [for_list].
  rewrite (bind_run_normal _ _ _ _ _ _ _ _
             (yield_normal _ _ _ _ _ (reyield_answer_object _ _ Hev))).
  rewrite (IH H).
  change (ev :: events) with ([ev] ++ events).
  rewrite message_fragments_app, map_app. reflexivity.
Qed.

(** Whatever the events, the loop only yields and changes nothing. *)
Lemma deliver_reyield_any (events : list value) (s : state) :
  exists fragments r,
    deliver reyield_answer events s = (map AYield fragments, r, s).
Proof.
  induction events as [|ev events IH].
  - exists [], (Normal tt). reflexivity.
  - destruct IH as (fragments & r & IH).
    unfold deliver in *. cbn [for_list].
    destruct (is_object ev) eqn:Hev.
    + rewrite (bind_run_normal _ _ _ _ _ _ _ _
                 (yield_normal _ _ _ _ _ (reyield_answer_object _ _ Hev))).
      rewrite IH.
      exists (message_fragments [ev] ++ fragments), r.
      rewrite map_app. reflexivity.
    + rewrite (bind_run_abandoned _ _ _ _ _ _ _ _
                 (yield_raised _ _ _ _ _ _ (reyield_answer_other _ _ Hev))).
      exists [], (Abandoned AttributeError). reflexivity.
Qed.

Lemma decode_stream_reyield (chunks : list bytes) (failure : option exn)
  (s : state) :
  forallb is_object (stream_events chunks failure) = true ->
  decode_stream reyield_answer None false chunks failure s
  = (map AYield (message_fragments (stream_events chunks failure)),
     match stream_end chunks failure with
     | Some e => Raised e
     | None => Normal tt
     end,
     s).
Proof.
  intros H. rewrite decode_stream_pure. unfold bind.
  rewrite (deliver_reyield _ _ H).
  destruct (stream_end chunks failure); simpl; rewrite app_nil_r;
    reflexivity.
Qed.

Lemma decode_stream_reyield_any (chunks : list bytes) (failure : option exn)
  (s : state) :
  exists fragments r,
    decode_stream reyield_answer None false chunks failure s
    = (map AYield fragments, r, s).
Proof.
  rewrite decode_stream_pure. unfold bind.
  destruct (deliver_reyield_any (stream_events chunks failure) s)
    as (f1 & r1 & ->).
  destruct r1 as [[]|e|e]; try (exists f1; eexists; reflexivity).
  exists f1. destruct (stream_end chunks failure); eexists; simpl;
    rewrite app_nil_r; reflexivity.
Qed.

(** ** The methods of the client, step by step *)

Lemma chat_query_streaming_run (consumer : sink) (query : pystr)
  (query_extends : value) (on_message : option handler) (chunk_size : N)
  (debug : bool) (s : state) :
  chat_query_streaming consumer query query_extends on_message chunk_size
    debug s
  = match app_conversation_id s, user_id s with
    | Some cid, Some uid =>
        let r := streaming_request (api_url s) (api_key s) query cid
                   (VStr uid) query_extends in
        let '(h, w) := session_post r (outside s) in
        match h with
        | Failed e =>
            (APost r :: error_log "Error during streaming chat query"
                          (Raised (A:=unit) e),
             Raised e, set_outside w s)
        | Responded resp =>
            if ((400 <=? status_code resp) && (status_code resp <? 600))%N
            then
              ([APost r;
                ALog (lit "Error during streaming chat query")
                  (HTTPError (status_code resp))],
               Raised (HTTPError (status_code resp)), set_outside w s)
            else
              let '(t, res, s') :=
                decode_stream consumer on_message debug
                  (iter_content resp chunk_size) (iter_failure resp)
                  (set_outside w s) in
              (APost r :: t
                 ++ error_log "Error during streaming chat query" res,
               res, s')
        end
    | _, _ => ([], Raised AttributeError, s)
    end.
Proof.
  cbv [chat_query_streaming read_app_conversation_id read_user_id logged
       try_except bind get post raise_for_status error_log ret raise
       log_error emit].
  destruct (app_conversation_id s) as [cid|]; [|reflexivity].
  destruct (user_id s) as [uid|]; [|reflexivity].
  destruct (session_post _ (outside s)) as [[resp|e] w].
  - destruct ((400 <=? status_code resp)%N && (status_code resp <? 600)%N).
    + reflexivity.
    + destruct (decode_stream _ _ _ _ _ _) as [[t [[]|e|e]] s'];
        cbn [app]; rewrite ?app_nil_r; try reflexivity.
      destruct (is_RequestException e); cbn [app];
        rewrite ?app_nil_r; reflexivity.
  - destruct (is_RequestException e); reflexivity.
Qed.

Lemma chat_query_blocking_run (query : pystr) (query_extends : value)
  (s : state) :
  chat_query_blocking query query_extends s
  = match app_conversation_id s, user_id s with
    | Some cid, Some uid =>
        let r := blocking_request (api_url s) (api_key s) query cid
                   (VStr uid) query_extends in
        let '(h, w) := session_post r (outside s) in
        match h with
        | Failed e =>
            (APost r :: error_log "Error during chat query"
                          (Raised (A:=unit) e),
             Raised e, set_outside w s)
        | Responded resp =>
            if ((400 <=? status_code resp) && (status_code resp <? 600))%N
            then
              ([APost r;
                ALog (lit "Error during chat query")
                  (HTTPError (status_code resp))],
               Raised (HTTPError (status_code resp)), set_outside w s)
            else
              match json_body resp with
              | Some body => ([APost r], Normal body, set_outside w s)
              | None =>
                  ([APost r;
                    ALog (lit "Error during chat query")
                      RequestsJSONDecodeError],
                   Raised RequestsJSONDecodeError, set_outside w s)
              end
        end
    | _, _ => ([], Raised AttributeError, s)
    end.
Proof.
  cbv [chat_query_blocking read_app_conversation_id read_user_id logged
       try_except bind get post raise_for_status response_json error_log
       ret raise log_error emit].
  destruct (app_conversation_id s) as [cid|]; [|reflexivity].
  destruct (user_id s) as [uid|]; [|reflexivity].
  destruct (session_post _ (outside s)) as [[resp|e] w].
  - destruct ((400 <=? status_code resp)%N && (status_code resp <? 600)%N);
      [reflexivity|].
    destruct (json_body resp); reflexivity.
  - destruct (is_RequestException e); reflexivity.
Qed.

Lemma create_conversation_run (uid : pystr) (inputs : value) (s : state) :
  create_conversation uid inputs s
  = let r := create_conversation_request (api_url s) (api_key s) uid
               inputs in
    let '(h, w) := session_post r (outside s) in
    match h with
    | Failed e =>
        (APost r :: error_log "Error creating conversation"
                      (Raised (A:=unit) e),
         Raised e, set_outside w s)
    | Responded resp =>
        if ((400 <=? status_code resp) && (status_code resp <? 600))%N
        then
          ([APost r;
            ALog (lit "Error creating conversation")
              (HTTPError (status_code resp))],
           Raised (HTTPError (status_code resp)), set_outside w s)
        else
          match json_body resp with
          | None =>
              ([APost r;
                ALog (lit "Error creating conversation")
                  RequestsJSONDecodeError],
               Raised RequestsJSONDecodeError, set_outside w s)
          | Some body =>
              match body with
              | VDict _ =>
                  match field body (lit "Conversation") VNone with
                  | VDict _ as conversation =>
                      ([APost r], Normal body,
                       set_user_id uid
                         (set_app_conversation_id
                            (field conversation (lit "AppConversationID")
                               VNone)
                            (set_outside w s)))
                  | _ => ([APost r], Raised AttributeError, set_outside w s)
                  end
              | _ => ([APost r], Raised AttributeError, set_outside w s)
              end
          end
    end.
Proof.
  cbv [create_conversation logged try_except bind get post raise_for_status
       response_json error_log ret raise log_error emit modify py_get field].
  destruct (session_post _ (outside s)) as [[resp|e] w].
  - destruct ((400 <=? status_code resp)%N && (status_code resp <? 600)%N);
      [reflexivity|].
    destruct (json_body resp) as [body|]; [|reflexivity].
    destruct body; try reflexivity.
    destruct (dict_lookup entries (lit "Conversation")) as [[]|];
      reflexivity.
  - destruct (is_RequestException e); reflexivity.
Qed.

(** ** Counting the requests that create a conversation *)

Lemma str_eqb_refl (a : pystr) : str_eqb a a = true.
Proof.
  induction a as [|c a IH]; [reflexivity|].
  simpl. rewrite N.eqb_refl. exact IH.
Qed.

Lemma str_eqb_app (p a b : pystr) :
  str_eqb (p ++ a) (p ++ b) = str_eqb a b.
Proof.
  induction p as [|c p IH]; [reflexivity|].
  simpl. rewrite N.eqb_refl. exact IH.
Qed.

Lemma create_posts_app (base : pystr) (t1 t2 : list action) :
  create_posts base (t1 ++ t2) = create_posts base t1 + create_posts base t2.
Proof.
  unfold create_posts. rewrite filter_app, length_app. reflexivity.
Qed.

Lemma create_posts_yields (base : pystr) (l : list value) :
  create_posts base (map AYield l) = 0.
Proof.
  induction l as [|v l IH]; [reflexivity|exact IH].
Qed.

Lemma create_posts_error_log (base : pystr) (message : string) (A : Type)
  (r : result A) :
  create_posts base (error_log message r) = 0.
Proof.
  destruct r as [a|e|e]; try reflexivity.
  simpl. destruct (is_RequestException e); reflexivity.
Qed.

Lemma create_posts_create (base : pystr) (key : value) (uid : pystr)
  (inputs : value) (t : list action) :
  create_posts base
    (APost (create_conversation_request base key uid inputs) :: t)
  = S (create_posts base t).
Proof.
  unfold create_posts. simpl. unfold create_conversation_url.
  rewrite str_eqb_refl. reflexivity.
Qed.

Lemma create_posts_chat_query (base : pystr) (r : request)
  (t : list action) :
  req_url r = chat_query_url base ->
  create_posts base (APost r :: t) = create_posts base t.
Proof.
  intros H. unfold create_posts. simpl. rewrite H.
  unfold chat_query_url, create_conversation_url.
  rewrite str_eqb_app. reflexivity.
Qed.

(** ** [create_conversation] and [_ensure_conversation] *)

Lemma same_config_refl (s : state) : same_config s s.
Proof. repeat split. Qed.

Lemma same_config_trans (s1 s2 s3 : state) :
  same_config s1 s2 -> same_config s2 s3 -> same_config s1 s3.
Proof.
  unfold same_config. intros (a & b & c & d) (a' & b' & c' & d').
  repeat split; congruence.
Qed.

(** Every run of [create_conversation] starts with the request, sends
    no other, and leaves the flag and the configuration alone.  When it
    returns, both attributes of the client are set; when it raises,
    neither has changed. *)
Lemma create_conversation_facts (uid : pystr) (inputs : value)
  (s s1 : state) (t : list action) (r : result value) :
  create_conversation uid inputs s = (t, r, s1) ->
  (exists t',
     t = APost (create_conversation_request (api_url s) (api_key s) uid
                  inputs) :: t'
     /\ create_posts (api_url s) t' = 0)
  /\ same_config s s1
  /\ _conversation_created s1 = _conversation_created s
  /\ match r with
     | Normal _ =>
         (exists cid, app_conversation_id s1 = Some cid)
         /\ user_id s1 = Some uid
     | Raised _ =>
         app_conversation_id s1 = app_conversation_id s
         /\ user_id s1 = user_id s
     | Abandoned _ => False
     end.
Proof.
  rewrite create_conversation_run. cbv zeta.
  destruct (session_post _ (outside s)) as [[resp|e] w].
  - destruct ((400 <=? status_code resp)%N && (status_code resp <? 600)%N).
    { intros H; inversion H; subst.
      repeat split; eexists; split; reflexivity. }
    destruct (json_body resp) as [body|].
    2:{ intros H; inversion H; subst.
        repeat split; eexists; split; reflexivity. }
    destruct body;
      try (intros H; inversion H; subst;
           repeat split; eexists; split; reflexivity).
    destruct (field (VDict entries) (lit "Conversation") VNone);
      intros H; inversion H; subst;
      repeat split; eexists; split; reflexivity.
  - intros H; inversion H; subst.
    repeat split. eexists; split; [reflexivity|].
    destruct (is_RequestException e); reflexivity.
Qed.

Lemma ensure_conversation_created (s : state) :
  _conversation_created s = true ->
  _ensure_conversation s = ([], Normal tt, s).
Proof.
  intros H. cbv [_ensure_conversation bind get]. rewrite H. reflexivity.
Qed.

Lemma ensure_conversation_new (s : state) :
  _conversation_created s = false ->
  _ensure_conversation s
  = let '(t, r, s1) :=
      create_conversation (facade_user_id s) (conversation_inputs s) s in
    match r with
    | Normal _ => (t, Normal tt, set_conversation_created true s1)
    | Raised e => (t, Raised e, s1)
    | Abandoned e => (t, Abandoned e, s1)
    end.
Proof.
  intros H. cbv [_ensure_conversation bind get modify]. rewrite H.
  cbn [negb app].
  destruct (create_conversation _ _ s) as [[t [a|e|e]] s1];
    rewrite ?app_nil_r; reflexivity.
Qed.

(** ** A call on an instance whose conversation exists *)

Lemma build_response_pure (kw : kwargs) (resp : value) (s : state) :
  exists r, build_response kw resp s = ([], r, s).
Proof.
  cbv [build_response bind py_get ret raise].
  destruct resp; try (eexists; reflexivity).
  destruct (kw_json kw); [|eexists; reflexivity].
  cbv [try_except loads ret raise].
  destruct (match dict_lookup entries (lit "answer") with
            | Some v => v
            | None => VStr []
            end); try (eexists; reflexivity).
  destruct (json_loads s0) as [v|e]; [eexists; reflexivity|].
  destruct (is_JSONDecodeError e); eexists; reflexivity.
Qed.

Ltac created_goal Hc :=
  repeat split; try exact Hc; try reflexivity;
  cbn [app];
  rewrite ?create_posts_chat_query by reflexivity;
  rewrite ?create_posts_app, ?create_posts_yields, ?create_posts_error_log;
  try match goal with
      | |- context [is_RequestException ?e] =>
          destruct (is_RequestException e)
      end;
  reflexivity.

Lemma chat_created (prompt : pystr) (history : value) (kw : kwargs)
  (s s' : state) (t : list action) (r : result BaseModelResponse) :
  _conversation_created s = true ->
  chat prompt history kw s = (t, r, s') ->
  create_posts (api_url s) t = 0
  /\ _conversation_created s' = true
  /\ same_config s s'.
Proof.
  intros Hc. unfold chat.
  rewrite (bind_run_normal _ _ _ _ _ _ _ _ (ensure_conversation_created s Hc)).
  cbv zeta. unfold bind at 1. rewrite chat_query_blocking_run.
  destruct (app_conversation_id s) as [cid|];
    [|intros H; inversion H; subst; created_goal Hc].
  destruct (user_id s) as [uid|];
    [|intros H; inversion H; subst; created_goal Hc].
  cbv zeta.
  destruct (session_post _ (outside s)) as [[resp|e] w].
  - destruct ((400 <=? status_code resp)%N && (status_code resp <? 600)%N);
      [intros H; inversion H; subst; created_goal Hc|].
    destruct (json_body resp) as [body|];
      [|intros H; inversion H; subst; created_goal Hc].
    destruct (build_response_pure kw body (set_outside w s)) as [r' ->].
    intros H; inversion H; subst; created_goal Hc.
  - intros H; inversion H; subst; created_goal Hc.
Qed.

Lemma chat_stream_created (prompt : pystr) (history : value) (kw : kwargs)
  (s s' : state) (t : list action) (r : result unit) :
  _conversation_created s = true ->
  chat_stream prompt history kw s = (t, r, s') ->
  create_posts (api_url s) t = 0
  /\ _conversation_created s' = true
  /\ same_config s s'.
Proof.
  intros Hc. unfold chat_stream.
  rewrite (bind_run_normal _ _ _ _ _ _ _ _ (ensure_conversation_created s Hc)).
  cbv zeta. unfold for_each. rewrite chat_query_streaming_run.
  destruct (app_conversation_id s) as [cid|];
    [|intros H; inversion H; subst; created_goal Hc].
  destruct (user_id s) as [uid|];
    [|intros H; inversion H; subst; created_goal Hc].
  cbv zeta.
  destruct (session_post _ (outside s)) as [[resp|e] w].
  - destruct ((400 <=? status_code resp)%N && (status_code resp <? 600)%N);
      [intros H; inversion H; subst; created_goal Hc|].
    destruct (decode_stream_reyield_any
                (iter_content resp (kw_chunk_size kw)) (iter_failure resp)
                (set_outside w s)) as (fragments & r' & ->).
    destruct r' as [[]|e|e]; intros H; inversion H; subst;
      created_goal Hc.
  - intros H; inversion H; subst; created_goal Hc.
Qed.

Lemma run_call_created (c : call) (s s' : state) (t : list action)
  (r : result unit) :
  _conversation_created s = true ->
  run_call c s = (t, r, s') ->
  create_posts (api_url s) t = 0
  /\ _conversation_created s' = true
  /\ same_config s s'.
Proof.
  intros Hc. destruct c as [prompt history kw|prompt history kw]; simpl.
  - unfold bind.
    destruct (chat prompt history kw s) as [[t1 r1] s1] eqn:E.
    pose proof (chat_created _ _ _ _ _ _ _ Hc E) as H1.
    destruct r1 as [a|e|e]; intros H; inversion H; subst;
      rewrite ?app_nil_r; exact H1.
  - apply chat_stream_created. exact Hc.
Qed.

(** Once the conversation exists, no sequence of calls asks for another
    one, and the flag stays set. *)
Lemma run_calls_created (calls : list call) (s : state) :
  _conversation_created s = true ->
  Forall (fun run => create_posts (api_url s) (trace_of run) = 0
                     /\ _conversation_created (state_of run) = true)
    (run_calls calls s).
Proof.
  revert s. induction calls as [|c calls IH]; intros s Hc; simpl.
  - constructor.
  - destruct (run_call c s) as [[t r] s'] eqn:E.
    destruct (run_call_created _ _ _ _ _ Hc E) as (Hp & Hc' & Hcfg).
    constructor.
    + split; assumption.
    + destruct Hcfg as (Hurl & _). rewrite <- Hurl. apply IH. exact Hc'.
Qed.

(** ** The first call *)

Lemma trace_of_bind (A B : Type) (m : M A) (k : A -> M B) (s : state) :
  exists t2, trace_of (bind m k s) = trace_of (m s) ++ t2.
Proof.
  unfold bind, trace_of.
  destruct (m s) as [[t1 [a|e|e]] s1]; simpl.
  - destruct (k a s1) as [[t2 r2] s2]. exists t2. reflexivity.
  - exists []. rewrite app_nil_r. reflexivity.
  - exists []. rewrite app_nil_r. reflexivity.
Qed.

Lemma run_call_starts_with_ensure (c : call) (s : state) :
  exists t2,
    trace_of (run_call c s) = trace_of (_ensure_conversation s) ++ t2.
Proof.
  destruct c as [prompt history kw|prompt history kw]; simpl.
  - destruct (trace_of_bind _ _ (chat prompt history kw)
                (fun _ => ret tt) s) as [t2 ->].
    unfold chat.
    destruct (trace_of_bind _ _ _ensure_conversation
                (fun _ =>
                   resp <- chat_query_blocking prompt (kw_query_extends kw) ;;
                   build_response kw resp) s) as [t3 ->].
    exists (t3 ++ t2). rewrite app_assoc. reflexivity.
  - unfold chat_stream. apply trace_of_bind.
Qed.

Lemma run_call_after_ensure (c : call) (s s1 : state) (t0 : list action) :
  _ensure_conversation s = (t0, Normal tt, s1) ->
  _conversation_created s1 = true ->
  run_call c s
  = let '(t, r, s') := run_call c s1 in (t0 ++ t, r, s').
Proof.
  intros He Hc.
  pose proof (ensure_conversation_created s1 Hc) as He1.
  destruct c as [prompt history kw|prompt history kw]; simpl.
  - unfold chat. rewrite !bind_assoc.
    rewrite (bind_run_normal _ _ _ _ _ _ _ _ He).
    rewrite (bind_run_normal _ _ _ _ _ _ _ _ He1).
    destruct (bind _ _ s1) as [[t r] s']. reflexivity.
  - unfold chat_stream.
    rewrite (bind_run_normal _ _ _ _ _ _ _ _ He).
    rewrite (bind_run_normal _ _ _ _ _ _ _ _ He1).
    destruct (for_each _ _ s1) as [[t r] s']. reflexivity.
Qed.

Lemma run_call_ensure_raised (c : call) (s s1 : state) (t0 : list action)
  (e : exn) :
  _ensure_conversation s = (t0, Raised e, s1) ->
  run_call c s = (t0, Raised e, s1).
Proof.
  intros He.
  destruct c as [prompt history kw|prompt history kw]; simpl.
  - unfold chat. rewrite !bind_assoc.
    apply bind_run_raised. exact He.
  - unfold chat_stream. apply bind_run_raised. exact He.
Qed.

(** C4.  Take a new instance and any sequence of [chat] and
    [chat_stream] calls made one after the other, each stream consumed
    before the next call.  If the creation of the conversation succeeds
    when the first call asks for it, then the request that creates the
    conversation is sent once, as the first thing the first call does; the
    flag is set when the first call ends and after every later call; and
    no later call sends the request again. *)
Theorem C4_conversation_created_once
  (c : call) (calls : list call) (s s1 : state) (t0 : list action) :
  _conversation_created s = false ->
  _ensure_conversation s = (t0, Normal tt, s1) ->
  exists t r s',
    run_call c s = (t, r, s')
    /\ (exists t',
          t = APost (create_conversation_request (api_url s) (api_key s)
                       (facade_user_id s) (conversation_inputs s)) :: t')
    /\ create_posts (api_url s) t = 1
    /\ _conversation_created s' = true
    /\ Forall (fun run =>
                 create_posts (api_url s) (trace_of run) = 0
                 /\ _conversation_created (state_of run) = true)
         (run_calls calls s').
Proof.
  intros Hnew He.
  pose proof He as He'.
  rewrite (ensure_conversation_new s Hnew) in He'.
  destruct (create_conversation (facade_user_id s) (conversation_inputs s) s)
    as [[t0' r0] s0] eqn:Ecreate.
  destruct (create_conversation_facts _ _ _ _ _ _ Ecreate)
    as ((t' & Ht' & Hposts) & (Hurl & _) & Hflag & _).
  destruct r0 as [body|e|e]; try discriminate.
  injection He' as <- <-.
  assert (Hc1 : _conversation_created (set_conversation_created true s0)
                = true) by reflexivity.
  assert (Hurl1 : api_url (set_conversation_created true s0) = api_url s)
    by exact Hurl.
  rewrite (run_call_after_ensure c _ _ _ He Hc1).
  destruct (run_call c (set_conversation_created true s0))
    as [[t r] s'] eqn:Ecall.
  destruct (run_call_created _ _ _ _ _ Hc1 Ecall) as (Hp & Hc' & Hu & _).
  rewrite Hurl1 in Hp, Hu.
  exists (t0' ++ t), r, s'. split; [reflexivity|].
  split; [|split; [|split]].
  - exists (t' ++ t). rewrite Ht'. reflexivity.
  - rewrite create_posts_app, Hp, Ht', create_posts_create, Hposts.
    reflexivity.
  - exact Hc'.
  - rewrite <- Hu. apply run_calls_created. exact Hc'.
Qed.

(** C9.  When the server answers the request of [create_conversation]
    with a 2xx status and a JSON object that has no ["Conversation"]
    entry, or has [null] there, the method raises [AttributeError].  That
    is not a [requests.RequestException]: the handler of the method does
    not catch it and nothing is logged (the request is all the run did).
    [app_conversation_id] and [user_id] are as they were, unset if they
    were unset. *)
Theorem C9_missing_conversation_raises_attribute_error
  (uid : pystr) (inputs : value) (s : state) (resp : response) (w : world)
  (entries : list (pystr * value)) :
  session_post
    (create_conversation_request (api_url s) (api_key s) uid inputs)
    (outside s) = (Responded resp, w) ->
  (200 <= status_code resp < 300)%N ->
  json_body resp = Some (VDict entries) ->
  dict_lookup entries (lit "Conversation") = None
  \/ dict_lookup entries (lit "Conversation") = Some VNone ->
  create_conversation uid inputs s
  = ([APost (create_conversation_request (api_url s) (api_key s) uid
               inputs)],
     Raised AttributeError, set_outside w s)
  /\ is_RequestException AttributeError = false
  /\ app_conversation_id (set_outside w s) = app_conversation_id s
  /\ user_id (set_outside w s) = user_id s.
Proof.
  intros Hpost Hstatus Hbody Hconv.
  split; [|repeat split].
  rewrite create_conversation_run. cbv zeta. rewrite Hpost.
  assert (Hok : ((400 <=? status_code resp)%N
                 && (status_code resp <? 600)%N) = false).
  { apply andb_false_iff. left. apply N.leb_gt. lia. }
  rewrite Hok, Hbody. unfold field.
  destruct Hconv as [-> | ->]; reflexivity.
Qed.

(** C10.  When [create_conversation] raises during a call on an instance
    whose flag is not set, the call ends with that exception having done
    nothing else; the flag is still not set and the two attributes of the
    client are as they were.  So the next call, whichever it is, starts
    by sending the request that creates the conversation again. *)
Theorem C10_failed_creation_is_retried
  (c next : call) (s s1 : state) (t : list action) (e : exn) :
  _conversation_created s = false ->
  create_conversation (facade_user_id s) (conversation_inputs s) s
  = (t, Raised e, s1) ->
  run_call c s = (t, Raised e, s1)
  /\ _conversation_created s1 = false
  /\ app_conversation_id s1 = app_conversation_id s
  /\ user_id s1 = user_id s
  /\ exists t',
       trace_of (run_call next s1)
       = APost (create_conversation_request (api_url s) (api_key s)
                  (facade_user_id s) (conversation_inputs s)) :: t'.
Proof.
  intros Hnew Hcreate.
  destruct (create_conversation_facts _ _ _ _ _ _ Hcreate)
    as (_ & (Hurl & Hkey & Huid & Hinputs) & Hflag & Hcid & Huser).
  assert (He : _ensure_conversation s = (t, Raised e, s1)).
  { rewrite (ensure_conversation_new s Hnew), Hcreate. reflexivity. }
  rewrite Hnew in Hflag.
  split; [exact (run_call_ensure_raised c _ _ _ _ He)|].
  split; [exact Hflag|]. split; [exact Hcid|]. split; [exact Huser|].
  destruct (run_call_starts_with_ensure next s1) as [t2 ->].
  rewrite (ensure_conversation_new s1 Hflag).
  destruct (create_conversation (facade_user_id s1) (conversation_inputs s1)
              s1) as [[t1 r1] s2] eqn:Eagain.
  destruct (create_conversation_facts _ _ _ _ _ _ Eagain)
    as ((t' & -> & _) & _).
  rewrite Hurl, Hkey, Huid, Hinputs.
  exists (t' ++ t2). destruct r1; reflexivity.
Qed.

(** C6, amended.  [chat] is asked for structured output, the blocking
    call succeeds, and the answer of the response is a text on which
    [json.loads] raises a [json.JSONDecodeError].  Then [chat] returns: the
    content of its result is the answer text, its structured field is
    [None], and no exception leaves the method. *)
Theorem C6_unparsable_answer_gives_text_only
  (prompt : pystr) (history : value) (kw : kwargs) (s s1 : state)
  (t1 : list action) (cid : value) (uid : pystr) (resp : response)
  (w : world) (entries : list (pystr * value)) (text : pystr) (e : exn) :
  _ensure_conversation s = (t1, Normal tt, s1) ->
  app_conversation_id s1 = Some cid ->
  user_id s1 = Some uid ->
  kw_json kw = true ->
  session_post
    (blocking_request (api_url s1) (api_key s1) prompt cid (VStr uid)
       (kw_query_extends kw))
    (outside s1) = (Responded resp, w) ->
  (200 <= status_code resp < 300)%N ->
  json_body resp = Some (VDict entries) ->
  dict_lookup entries (lit "answer") = Some (VStr text) ->
  json_loads text = inr e ->
  is_JSONDecodeError e = true ->
  chat prompt history kw s
  = (t1 ++ [APost (blocking_request (api_url s1) (api_key s1) prompt cid
                     (VStr uid) (kw_query_extends kw))],
     Normal {| output := {| content := VStr text |};
               parsed_response := VNone |},
     set_outside w s1).
Proof.
  intros He Hcid Huid Hjson Hpost Hstatus Hbody Hanswer Hloads Hcaught.
  unfold chat.
  rewrite (bind_run_normal _ _ _ _ _ _ _ _ He). cbv zeta.
  assert (Hq : chat_query_blocking prompt (kw_query_extends kw) s1
               = ([APost (blocking_request (api_url s1) (api_key s1) prompt
                            cid (VStr uid) (kw_query_extends kw))],
                  Normal (VDict entries), set_outside w s1)).
  { rewrite chat_query_blocking_run, Hcid, Huid. cbv zeta. rewrite Hpost.
    assert (Hok : ((400 <=? status_code resp)%N
                   && (status_code resp <? 600)%N) = false).
    { apply andb_false_iff. left. apply N.leb_gt. lia. }
    rewrite Hok, Hbody. reflexivity. }
  rewrite (bind_run_normal _ _ _ _ _ _ _ _ Hq).
  cbv [build_response bind py_get ret try_except loads raise].
  rewrite Hanswer, Hjson, Hloads, Hcaught. cbn. reflexivity.
Qed.

(** ** What a run yields and what else it does *)

Lemma yields_app (t1 t2 : list action) :
  yields (t1 ++ t2) = yields t1 ++ yields t2.
Proof. unfold yields. apply flat_map_app. Qed.

Lemma effects_app (t1 t2 : list action) :
  effects (t1 ++ t2) = effects t1 ++ effects t2.
Proof. unfold effects. apply filter_app. Qed.

Lemma yields_map_yield (l : list value) : yields (map AYield l) = l.
Proof.
  induction l as [|v l IH]; [reflexivity|]. simpl. rewrite IH. reflexivity.
Qed.

Lemma effects_map_yield (l : list value) : effects (map AYield l) = [].
Proof.
  induction l as [|v l IH]; [reflexivity|exact IH].
Qed.



Lemma yields_error_log (message : string) (A : Type) (r : result A) :
  yields (error_log message r) = [].
Proof.
  destruct r as [a|e|e]; try reflexivity.
  simpl. destruct (is_RequestException e); reflexivity.
Qed.

Lemma effects_error_log (message : string) (A : Type) (r : result A) :
  effects (error_log message r) = error_log message r.
Proof.
  destruct r as [a|e|e]; try reflexivity.
  simpl. destruct (is_RequestException e); reflexivity.
Qed.

Lemma ensure_conversation_yields_nothing (s s1 : state) (t : list action)
  (r : result unit) :
  _ensure_conversation s = (t, r, s1) -> yields t = [].
Proof.
  destruct (_conversation_created s) eqn:Hc.
  - rewrite (ensure_conversation_created s Hc).
    intros H; inversion H; reflexivity.
  - rewrite (ensure_conversation_new s Hc), create_conversation_run.
    cbv zeta.
    destruct (session_post _ (outside s)) as [[resp|e] w].
    + destruct ((400 <=? status_code resp)%N
                && (status_code resp <? 600)%N);
        [intros H; inversion H; reflexivity|].
      destruct (json_body resp) as [body|];
        [|intros H; inversion H; reflexivity].
      destruct body; try (intros H; inversion H; reflexivity).
      destruct (field _ _ _); intros H; inversion H; reflexivity.
    + intros H; inversion H.
      destruct (is_RequestException e); reflexivity.
Qed.


Lemma message_fragments_truthy (events : list value) (v : value) :
  In v (message_fragments events) -> truthy v = true.
Proof.
  unfold message_fragments. rewrite in_map_iff.
  intros (event & <- & Hin). apply filter_In in Hin.
  destruct Hin as [_ H]. apply andb_prop in H. apply H.
Qed.

(** C5.  Let the streaming call [chat_stream] makes produce a sequence
    of events, each a JSON object.  Then [chat_stream] yields, in order,
    the answers of those events whose ["event"] field is ["message"] and
    whose answer is not empty, and nothing else: an event of another kind,
    or a message event whose answer is empty or absent, causes no yield.
    It ends as the streaming call ends and does what it does. *)
Theorem C5_chat_stream_yields_nonempty_message_answers
  (prompt : pystr) (history : value) (kw : kwargs) (s s1 s2 : state)
  (t0 t_events : list action) (r_events : result unit) :
  _ensure_conversation s = (t0, Normal tt, s1) ->
  chat_query_streaming observe prompt (kw_query_extends kw) None
    (kw_chunk_size kw) false s1 = (t_events, r_events, s2) ->
  forallb is_object (yields t_events) = true ->
  exists t,
    chat_stream prompt history kw s = (t, r_events, s2)
    /\ yields t = message_fragments (yields t_events)
    /\ effects t = t0 ++ effects t_events
    /\ ~ In (VStr []) (yields t).
Proof.
  intros He Hrun Hobj.
  assert (Hgen :
    exists t,
      for_each
        (fun consumer =>
           chat_query_streaming consumer prompt (kw_query_extends kw) None
             (kw_chunk_size kw) false)
        reyield_answer s1 = (t, r_events, s2)
      /\ yields t = message_fragments (yields t_events)
      /\ effects t = effects t_events).
  { unfold for_each. revert Hrun Hobj.
    rewrite !chat_query_streaming_run.
    destruct (app_conversation_id s1) as [cid|].
    2:{ intros H _; inversion H; subst. exists []. repeat split. }
    destruct (user_id s1) as [uid|].
    2:{ intros H _; inversion H; subst. exists []. repeat split. }
    cbv zeta.
    destruct (session_post _ (outside s1)) as [[resp|e] w].
    - destruct ((400 <=? status_code resp)%N
                && (status_code resp <? 600)%N).
      { intros H _; inversion H; subst. eexists. repeat split. }
      rewrite decode_stream_observe.
      intros H Hobj. injection H as <- <- <-.
      cbn [yields flat_map app] in Hobj. fold (yields) in Hobj.
      change (flat_map _ ?t) with (yields t) in Hobj.
      rewrite yields_app, yields_map_yield, yields_error_log, app_nil_r
        in Hobj.
      rewrite (decode_stream_reyield _ _ _ Hobj).
      destruct (stream_end (iter_content resp (kw_chunk_size kw))
                  (iter_failure resp)) as [e|]; eexists;
        (split; [reflexivity|]); split.
      all: try (cbn [yields flat_map app];
                change (flat_map _ ?t) with (yields t);
                rewrite !yields_app, !yields_map_yield, !yields_error_log,
                  !app_nil_r;
                reflexivity).
      all: cbn [effects filter];
        change (filter _ ?t) with (effects t);
        rewrite !effects_app, !effects_map_yield, !effects_error_log;
        reflexivity.
    - intros H _. injection H as <- <- <-.
      eexists. split; [reflexivity|].
      cbn. destruct (is_RequestException e); split; reflexivity. }
  destruct Hgen as (t & Hg & Hy & Hf).
  exists (t0 ++ t). split; [|split; [|split]].
  - unfold chat_stream.
    rewrite (bind_run_normal _ _ _ _ _ _ _ _ He). cbv zeta.
    rewrite Hg. reflexivity.
  - rewrite yields_app, (ensure_conversation_yields_nothing _ _ _ _ He).
    exact Hy.
  - rewrite effects_app, Hf. f_equal.
    pose proof (ensure_conversation_yields_nothing _ _ _ _ He) as Hn.
    clear -Hn. induction t0 as [|a t0 IH]; [reflexivity|].
    destruct a; simpl in *; try discriminate; rewrite IH; auto.
  - rewrite yields_app, (ensure_conversation_yields_nothing _ _ _ _ He), Hy.
    intros Hin. apply message_fragments_truthy in Hin. discriminate.
Qed.


(** * Further properties *)

(** ** The decoder on arbitrary bytes *)

Section DecoderMore.

Variable consumer : sink.
Variable on_message : option handler.
Variable debug : bool.

(** X1.  What the decoder does depends on the bytes of the body alone,
    not on where the chunks are cut: two sequences of chunks with the
    same concatenation, empty chunks allowed, give the same callback
    invocations, the same yields and the same outcome, whatever the bytes
    are (a character of several bytes cut in two, a broken line) and
    whether or not the iterator ends with an exception. *)
Theorem X1_decoding_depends_on_the_bytes_only
  (chunks1 chunks2 : list bytes) (failure : option exn) (s : state) :
  List.concat chunks1 = List.concat chunks2 ->
  decode_stream consumer on_message debug chunks1 failure s
  = decode_stream consumer on_message debug chunks2 failure s.
Proof.
  intros H.
  rewrite (decode_stream_chunking _ _ _ chunks1).
  rewrite (decode_stream_chunking _ _ _ chunks2).
  rewrite H. reflexivity.
Qed.

Lemma feed_chunks_app (chunks1 chunks2 : list bytes) (buffer : bytes)
  (s : state) :
  feed_chunks consumer on_message debug (chunks1 ++ chunks2) buffer s
  = (buffer' <- feed_chunks consumer on_message debug chunks1 buffer ;;
     feed_chunks consumer on_message debug chunks2 buffer') s.
Proof.
  revert buffer s.
  induction chunks1 as [|chunk chunks1 IH]; intros buffer s.
  - cbn [app feed_chunks]. rewrite bind_ret_l. reflexivity.
  - destruct chunk as [|c chunk].
    + cbn [app feed_chunks]. apply IH.
    + cbn [app feed_chunks]. rewrite bind_assoc.
      apply bind_ext. intros buffer' s'. apply IH.
Qed.

(** X2.  The decoder works as the chunks come: handling the chunks of
    [chunks1 ++ chunks2] is handling those of [chunks1] and going on with
    [chunks2] from the buffer that is left, so what the stream does for
    [chunks1] is done first and does not depend on what follows. *)
Theorem X2_decoding_is_incremental
  (chunks1 chunks2 : list bytes) (failure : option exn) (s : state) :
  feed_chunks consumer on_message debug (chunks1 ++ chunks2) [] s
  = (buffer <- feed_chunks consumer on_message debug chunks1 [] ;;
     feed_chunks consumer on_message debug chunks2 buffer) s
  /\ exists later,
       trace_of (decode_stream consumer on_message debug
                   (chunks1 ++ chunks2) failure s)
       = trace_of (feed_chunks consumer on_message debug chunks1 [] s)
         ++ later.
Proof.
  split; [apply feed_chunks_app|].
  unfold decode_stream.
  destruct (trace_of_bind _ _
              (feed_chunks consumer on_message debug (chunks1 ++ chunks2) [])
              (fun buffer =>
                 iter_end failure ;;
                 process_tail consumer on_message buffer) s) as [t2 ->].
  rewrite feed_chunks_app.
  destruct (trace_of_bind _ _
              (feed_chunks consumer on_message debug chunks1 [])
              (fun buffer' =>
                 feed_chunks consumer on_message debug chunks2 buffer') s)
    as [t3 ->].
  exists (t3 ++ t2). rewrite app_assoc. reflexivity.
Qed.

(** X3.  A complete line that is not valid UTF-8, or that starts with
    [data:] and on whose payload [json.loads] raises a
    [json.JSONDecodeError], is dropped: nothing is yielded, the callback
    is not called, no exception leaves the loop, and the decoder goes on
    with the bytes after the line; with [debug] on this asks that [print]
    can write the payload.  When [json.loads] raises another exception on
    the payload (a [RecursionError], a [ValueError]), no handler of the
    loop catches it: it leaves the loop, nothing is yielded and the bytes
    after the line are not handled. *)
Theorem X3_undecodable_lines_are_skipped
  (line_bytes rest : bytes) (s : state) :
  split_newline line_bytes = None ->
  (utf8_decode line_bytes = None
   \/ (exists text e,
         utf8_decode line_bytes = Some text
         /\ json_loads (strip (skipn 5 (strip text))) = inr e
         /\ is_JSONDecodeError e = true
         /\ (debug = false
             \/ stdout_encodes
                  [VStr (firstn 100 (strip (skipn 5 (strip text))))]
                = true)) ->
   process_line consumer on_message debug line_bytes s = ([], Normal tt, s)
   /\ drain_lines consumer on_message debug (line_bytes ++ newline :: rest) s
      = drain_lines consumer on_message debug rest s)
  /\ (forall text e,
        utf8_decode line_bytes = Some text ->
        startswith data_prefix (strip text) = true ->
        json_loads (strip (skipn 5 (strip text))) = inr e ->
        is_JSONDecodeError e = false ->
        process_line consumer on_message debug line_bytes s
        = ([], Raised e, s)
        /\ drain_lines consumer on_message debug
             (line_bytes ++ newline :: rest) s
           = ([], Raised e, s)).
Proof.
  intros Hline.
  assert (Hs : split_newline (line_bytes ++ newline :: rest)
               = Some (line_bytes, rest)).
  { rewrite (split_newline_none_app _ _ Hline). simpl.
    rewrite app_nil_r. reflexivity. }
  split.
  - intros Hbad.
    assert (Hp : process_line consumer on_message debug line_bytes s
                 = ret tt s).
    { unfold process_line.
      destruct Hbad as [->|(text & e & -> & Hjson & Hcaught & Hprint)];
        [reflexivity|].
      cbv zeta. destruct (strip text) as [|c line] eqn:E; [reflexivity|].
      destruct (startswith data_prefix (c :: line)); [|reflexivity].
      cbv [try_except bind loads raise debug_print].
      rewrite Hjson, Hcaught.
      destruct Hprint as [Hd | Hd]; rewrite Hd; [reflexivity|].
      destruct debug; reflexivity. }
    split; [exact Hp|].
    rewrite (drain_lines_some _ _ _ _ _ _ s Hs).
    rewrite (bind_cong_l _ _ _ _ _ s Hp).
    rewrite bind_ret_l. reflexivity.
  - intros text e Hdec Hstart Hjson Hcaught.
    assert (Hp : process_line consumer on_message debug line_bytes s
                 = ([], Raised e, s)).
    { unfold process_line. rewrite Hdec. cbv zeta.
      destruct (strip text) as [|c line] eqn:E; [discriminate|].
      rewrite Hstart.
      cbv [try_except bind loads raise].
      rewrite Hjson, Hcaught. reflexivity. }
    split; [exact Hp|].
    rewrite (drain_lines_some _ _ _ _ _ _ s Hs).
    apply bind_run_raised. exact Hp.
Qed.

End DecoderMore.

Lemma option_map_cons_snoc (c x : N) (o : option pystr) :
  option_map (cons c) (option_map (fun t => t ++ [x]) o)
  = option_map (fun t => t ++ [x]) (option_map (cons c) o).
Proof. destruct o; reflexivity. Qed.

Lemma utf8_decode_carriage_return (n : nat) (a : bytes) :
  List.length a <= n ->
  utf8_decode (a ++ [carriage_return])
  = option_map (fun t => t ++ [13%N]) (utf8_decode a).
Proof.
  revert a. induction n as [|n IH]; intros a Hn.
  - destruct a; [reflexivity|simpl in Hn; lia].
  - destruct a as [|b0 t0]; [reflexivity|].
    cbn [app utf8_decode]. cbv zeta.
    destruct (Byte.to_N b0 <? 128)%N.
    { rewrite IH by (simpl in Hn; lia). apply option_map_cons_snoc. }
    destruct ((194 <=? Byte.to_N b0) && (Byte.to_N b0 <=? 223))%N.
    { destruct t0 as [|b1 t1]; [reflexivity|].
      cbn [app]. destruct (is_cont (Byte.to_N b1)); [|reflexivity].
      rewrite IH by (simpl in Hn; lia). apply option_map_cons_snoc. }
    destruct ((224 <=? Byte.to_N b0) && (Byte.to_N b0 <=? 239))%N.
    { destruct t0 as [|b1 [|b2 t2]]; [reflexivity| |].
      - cbn [app]. 
        replace (is_cont (Byte.to_N carriage_return)) with false
          by reflexivity.
        rewrite andb_false_r. reflexivity.
      - cbn [app].
        match goal with |- (if ?c then _ else _) = _ => destruct c end;
          [|reflexivity].
        rewrite IH by (simpl in Hn; lia). apply option_map_cons_snoc. }
    destruct ((240 <=? Byte.to_N b0) && (Byte.to_N b0 <=? 244))%N;
      [|reflexivity].
    destruct t0 as [|b1 [|b2 [|b3 t3]]]; [reflexivity| | |].
    + reflexivity.
    + cbn [app].
      replace (is_cont (Byte.to_N carriage_return)) with false
        by reflexivity.
      rewrite andb_false_r. reflexivity.
    + cbn [app].
      match goal with |- (if ?c then _ else _) = _ => destruct c end;
        [|reflexivity].
      rewrite IH by (simpl in Hn; lia). apply option_map_cons_snoc.
Qed.

Lemma lstrip_snoc_space (t : pystr) (c : N) :
  isspace c = true ->
  lstrip (t ++ [c]) = match lstrip t with [] => [] | _ => lstrip t ++ [c] end.
Proof.
  intros Hc. induction t as [|x t IH].
  - simpl. rewrite Hc. reflexivity.
  - simpl. destruct (isspace x); [exact IH|reflexivity].
Qed.

Lemma rstrip_snoc_space (t : pystr) (c : N) :
  isspace c = true -> rstrip (t ++ [c]) = rstrip t.
Proof.
  intros Hc. unfold rstrip. rewrite rev_app_distr. simpl.
  rewrite Hc. reflexivity.
Qed.

Lemma strip_snoc_space (t : pystr) (c : N) :
  isspace c = true -> strip (t ++ [c]) = strip t.
Proof.
  intros Hc. unfold strip. rewrite (lstrip_snoc_space _ _ Hc).
  destruct (lstrip t) as [|x l] eqn:E; [reflexivity|].
  apply rstrip_snoc_space. exact Hc.
Qed.

(** X4.  A line may end with a carriage return and a newline: the
    carriage return is trimmed with the rest of the white space, so the
    line is handled as the line without it, event or not. *)
Theorem X4_carriage_return_before_newline_is_ignored
  (consumer : sink) (on_message : option handler) (debug : bool)
  (line_bytes rest : bytes) (s : state) :
  split_newline line_bytes = None ->
  process_line consumer on_message debug (line_bytes ++ [carriage_return]) s
  = process_line consumer on_message debug line_bytes s
  /\ drain_lines consumer on_message debug
       (line_bytes ++ carriage_return :: newline :: rest) s
     = drain_lines consumer on_message debug
         (line_bytes ++ newline :: rest) s.
Proof.
  intros Hline.
  assert (Hp : forall s',
             process_line consumer on_message debug
               (line_bytes ++ [carriage_return]) s'
             = process_line consumer on_message debug line_bytes s').
  { intros s'. unfold process_line.
    rewrite (utf8_decode_carriage_return _ _ (le_n _)).
    destruct (utf8_decode line_bytes) as [text|]; [|reflexivity].
    cbn [option_map]. cbv zeta.
    rewrite (strip_snoc_space text 13 eq_refl). reflexivity. }
  split; [apply Hp|].
  assert (H1 : split_newline (line_bytes ++ newline :: rest)
               = Some (line_bytes, rest)).
  { rewrite (split_newline_none_app _ _ Hline). simpl.
    rewrite app_nil_r. reflexivity. }
  assert (H2 : split_newline
                 ((line_bytes ++ [carriage_return]) ++ newline :: rest)
               = Some (line_bytes ++ [carriage_return], rest)).
  { assert (Hcr : split_newline (line_bytes ++ [carriage_return]) = None).
    { rewrite (split_newline_none_app _ _ Hline). reflexivity. }
    rewrite (split_newline_none_app _ _ Hcr). simpl.
    rewrite app_nil_r. reflexivity. }
  rewrite <- app_assoc in H2. cbn [app] in H2.
  rewrite (drain_lines_some _ _ _ _ _ _ s H1).
  rewrite (drain_lines_some _ _ _ _ _ _ s H2).
  apply bind_cong_l. apply Hp.
Qed.

(** ** The other methods of the client, step by step *)

Lemma post_for_json_run (message : string) (r : request) (s : state) :
  post_for_json message r s
  = let '(h, w) := session_post r (outside s) in
    match h with
    | Failed e =>
        (APost r :: error_log message (Raised (A:=unit) e),
         Raised e, set_outside w s)
    | Responded resp =>
        if ((400 <=? status_code resp) && (status_code resp <? 600))%N
        then
          ([APost r; ALog (lit message) (HTTPError (status_code resp))],
           Raised (HTTPError (status_code resp)), set_outside w s)
        else
          match json_body resp with
          | Some body => ([APost r], Normal body, set_outside w s)
          | None =>
              ([APost r; ALog (lit message) RequestsJSONDecodeError],
               Raised RequestsJSONDecodeError, set_outside w s)
          end
    end.
Proof.
  cbv [post_for_json logged try_except bind post raise_for_status
       response_json error_log ret raise log_error emit].
  destruct (session_post r (outside s)) as [[resp|e] w].
  - destruct ((400 <=? status_code resp)%N && (status_code resp <? 600)%N);
      [reflexivity|].
    destruct (json_body resp); reflexivity.
  - destruct (is_RequestException e); reflexivity.
Qed.

(** A run of [post_for_json]: one request, a log record exactly when it
    ends with a [requests.RequestException], and only the world
    changes. *)
Lemma post_for_json_facts (message : string) (r : request) (s s' : state)
  (t : list action) (res : result value) :
  post_for_json message r s = (t, res, s') ->
  posts t = 1
  /\ logs t = match res with
              | Raised e => if is_RequestException e then 1 else 0
              | _ => 0
              end
  /\ (forall e, res <> Abandoned e)
  /\ s' = set_outside (outside s') s.
Proof.
  rewrite post_for_json_run.
  destruct (session_post r (outside s)) as [[resp|e] w].
  - destruct ((400 <=? status_code resp)%N && (status_code resp <? 600)%N).
    { intros H. injection H as <- <- <-.
      repeat split; try reflexivity; discriminate. }
    destruct (json_body resp) as [body|];
      intros H; injection H as <- <- <-;
      repeat split; try reflexivity; discriminate.
  - intros H. injection H as <- <- <-. cbn [error_log].
    destruct (is_RequestException e);
      repeat split; try reflexivity; discriminate.
Qed.

Lemma set_outside_same (s : state) : s = set_outside (outside s) s.
Proof. destruct s; reflexivity. Qed.

Ltac attribute_unset :=
  intros H; injection H as <- <- <-;
  repeat split; try reflexivity; try discriminate;
  try (intros _; apply set_outside_same).

Lemma run_client_call_facts (c : client_call) (s s' : state)
  (t : list action) (res : result value) :
  run_client_call c s = (t, res, s') ->
  posts t <= 1
  /\ logs t = match res with
              | Raised e => if is_RequestException e then 1 else 0
              | _ => 0
              end
  /\ (forall v, res = Normal v -> posts t = 1)
  /\ (forall e, res <> Abandoned e)
  /\ (is_create c = false \/ (exists e, res = Raised e) ->
      s' = set_outside (outside s') s).
Proof.
  assert (Hgen : forall message r s0,
            post_for_json message r s0 = (t, res, s') ->
            s0 = s ->
            posts t <= 1
            /\ logs t = match res with
                        | Raised e => if is_RequestException e then 1 else 0
                        | _ => 0
                        end
            /\ (forall v, res = Normal v -> posts t = 1)
            /\ (forall e, res <> Abandoned e)
            /\ (is_create c = false \/ (exists e, res = Raised e) ->
                s' = set_outside (outside s') s)).
  { intros message r s0 H ->.
    destruct (post_for_json_facts _ _ _ _ _ _ H) as (Hp & Hl & Ha & Hs).
    rewrite Hp. repeat split; auto. }
  destruct c as [uid inputs|query qe|limit|message_id|input app_id
                 |input app_id]; cbn [run_client_call is_create].
  - rewrite create_conversation_run. cbv zeta.
    destruct (session_post _ (outside s)) as [[resp|e] w].
    + destruct ((400 <=? status_code resp)%N
                && (status_code resp <? 600)%N).
      { intros H; injection H as <- <- <-.
        repeat split; try reflexivity; try discriminate; auto. }
      destruct (json_body resp) as [body|].
      2:{ intros H; injection H as <- <- <-.
          repeat split; try reflexivity; try discriminate; auto. }
      destruct body as [| | | | |items|entries];
        try (intros H; injection H as <- <- <-;
             repeat split; try reflexivity; try discriminate; auto; fail).
      destruct (field (VDict entries) (lit "Conversation") VNone);
        intros H; injection H as <- <- <-;
        repeat split; try reflexivity; try discriminate; auto;
        intros [Hc|(e & He)]; discriminate.
    + intros H; injection H as <- <- <-. cbn [error_log].
      destruct (is_RequestException e);
        repeat split; try reflexivity; try discriminate; auto.
  - rewrite chat_query_blocking_run.
    destruct (app_conversation_id s) as [cid|]; [|attribute_unset; auto].
    destruct (user_id s) as [uid|]; [|attribute_unset; auto].
    cbv zeta. rewrite <- post_for_json_run.
    intros H. exact (Hgen _ _ _ H eq_refl).
  - cbv [get_conversation_messages read_user_id read_app_conversation_id].
    cbv [bind get ret raise].
    destruct (user_id s) as [uid|]; [|attribute_unset; auto].
    destruct (app_conversation_id s) as [cid|]; [|attribute_unset; auto].
    destruct (post_for_json _ _ s) as [[t2 r2] s2] eqn:E.
    intros H. injection H as <- <- <-. exact (Hgen _ _ _ E eq_refl).
  - cbv [get_message_info read_user_id bind get ret raise].
    destruct (user_id s) as [uid|]; [|attribute_unset; auto].
    destruct (post_for_json _ _ s) as [[t2 r2] s2] eqn:E.
    intros H. injection H as <- <- <-. exact (Hgen _ _ _ E eq_refl).
  - cbv [run_app_workflow read_user_id bind get ret raise].
    destruct (user_id s) as [uid|]; [|attribute_unset; auto].
    destruct (post_for_json _ _ s) as [[t2 r2] s2] eqn:E.
    intros H. injection H as <- <- <-. exact (Hgen _ _ _ E eq_refl).
  - cbv [query_run_app_process read_user_id bind get ret raise].
    destruct (user_id s) as [uid|]; [|attribute_unset; auto].
    destruct (post_for_json _ _ s) as [[t2 r2] s2] eqn:E.
    intros H. injection H as <- <- <-. exact (Hgen _ _ _ E eq_refl).
Qed.

(** X8.  No method of the client retries or swallows: every call sends at
    most one request, exactly one when it returns; it leaves one log
    record when it ends with a [requests.RequestException], which it
    raises again, and none otherwise. *)
Theorem X8_one_request_and_one_log_record (c : client_call) (s : state) :
  posts (trace_of (run_client_call c s)) <= 1
  /\ (forall v, result_of (run_client_call c s) = Normal v ->
      posts (trace_of (run_client_call c s)) = 1)
  /\ logs (trace_of (run_client_call c s))
     = match result_of (run_client_call c s) with
       | Raised e => if is_RequestException e then 1 else 0
       | _ => 0
       end.
Proof.
  destruct (run_client_call c s) as [[t res] s'] eqn:E.
  destruct (run_client_call_facts _ _ _ _ _ E) as (Hp & Hl & Hn & _).
  cbn [trace_of result_of fst snd]. auto.
Qed.

(** X9.  A method that reads an attribute [create_conversation] has not
    set yet raises [AttributeError] while it builds its payload: nothing
    is sent and nothing is logged.  Every method but [create_conversation]
    reads [user_id]; [chat_query_blocking] and
    [get_conversation_messages] read [app_conversation_id] too. *)
Theorem X9_methods_need_a_conversation (c : client_call) (s : state) :
  (is_create c = false /\ user_id s = None)
  \/ (reads_conversation c = true /\ app_conversation_id s = None) ->
  run_client_call c s = ([], Raised AttributeError, s).
Proof.
  intros H.
  destruct c as [uid inputs|query qe|limit|message_id|input app_id
                 |input app_id];
    cbn [run_client_call is_create reads_conversation] in *;
    try (destruct H as [[H _]|[H _]]; discriminate).
  - rewrite chat_query_blocking_run.
    destruct H as [[_ H]|[_ H]]; rewrite H;
      [destruct (app_conversation_id s)|]; reflexivity.
  - cbv [get_conversation_messages read_user_id read_app_conversation_id
         bind get ret raise].
    destruct H as [[_ H]|[_ H]].
    + rewrite H. reflexivity.
    + destruct (user_id s); [rewrite H|]; reflexivity.
  - destruct H as [[_ H]|[H _]]; [|discriminate].
    cbv [get_message_info read_user_id bind get ret raise].
    rewrite H. reflexivity.
  - destruct H as [[_ H]|[H _]]; [|discriminate].
    cbv [run_app_workflow read_user_id bind get ret raise].
    rewrite H. reflexivity.
  - destruct H as [[_ H]|[H _]]; [|discriminate].
    cbv [query_run_app_process read_user_id bind get ret raise].
    rewrite H. reflexivity.
Qed.

(** X10.  The streaming call on a client without a conversation: the
    generator raises [AttributeError] when it is started, whatever the
    consumer, the callback and the debug flag; no request is sent and the
    callback is not called. *)
Theorem X10_streaming_needs_a_conversation
  (consumer : sink) (query : pystr) (query_extends : value)
  (on_message : option handler) (chunk_size : N) (debug : bool)
  (s : state) :
  app_conversation_id s = None \/ user_id s = None ->
  chat_query_streaming consumer query query_extends on_message chunk_size
    debug s
  = ([], Raised AttributeError, s).
Proof.
  intros H. rewrite chat_query_streaming_run.
  destruct H as [H|H]; rewrite H;
    [|destruct (app_conversation_id s)]; reflexivity.
Qed.

(** X11.  Only [create_conversation] changes the client, and only when
    it returns: after any other call, and after one that raised, the
    attributes of the client are what they were; the world outside is all
    that moved. *)
Theorem X11_only_a_created_conversation_changes_the_client
  (c : client_call) (s : state) :
  is_create c = false
  \/ (exists e, result_of (run_client_call c s) = Raised e) ->
  state_of (run_client_call c s)
  = set_outside (outside (state_of (run_client_call c s))) s.
Proof.
  destruct (run_client_call c s) as [[t res] s'] eqn:E.
  destruct (run_client_call_facts _ _ _ _ _ E) as (_ & _ & _ & _ & Hs).
  cbn [state_of result_of fst snd]. exact Hs.
Qed.

(** ** The debug flag *)

Lemma parse_line_some (line_bytes : bytes) (data : value) :
  parse_line line_bytes = Some data ->
  exists text c line,
    utf8_decode line_bytes = Some text
    /\ strip text = c :: line
    /\ startswith data_prefix (c :: line) = true
    /\ json_loads (strip (skipn 5 (c :: line))) = inl data.
Proof.
  unfold parse_line.
  destruct (utf8_decode line_bytes) as [text|]; [|discriminate].
  cbv zeta. destruct (strip text) as [|c line] eqn:Hs; [discriminate|].
  destruct (startswith data_prefix (c :: line)) eqn:Hp; [|discriminate].
  destruct (json_loads (strip (skipn 5 (c :: line)))) as [v|e] eqn:Hj;
    [|discriminate].
  intros H. injection H as ->. exists text, c, line.
  split; [reflexivity|]. split; [exact Hs|].
  split; [exact Hp|exact Hj].
Qed.

(** X5.  With [debug] on, the block that prints an event reads
    [data.get] and [len(answer)] before the callback is called and the
    event yielded.  A line whose payload is JSON but not an object then
    raises [AttributeError], and one whose answer has no length (a number,
    [null], a boolean) raises [TypeError]: neither is caught, nothing is
    yielded for the line, the callback is not called and the lines after
    it are not handled.  With [debug] off and no callback the same line
    yields its event. *)
Theorem X5_debug_raises_on_events_it_cannot_print
  (consumer : sink) (on_message : option handler)
  (line_bytes rest : bytes) (data : value) (s : state) :
  split_newline line_bytes = None ->
  parse_line line_bytes = Some data ->
  is_object data = false \/ has_len (answer_of data) = false ->
  let e := if is_object data then TypeError else AttributeError in
  process_line consumer on_message true line_bytes s = ([], Raised e, s)
  /\ drain_lines consumer on_message true (line_bytes ++ newline :: rest) s
     = ([], Raised e, s)
  /\ process_line observe None false line_bytes s
     = ([AYield data], Normal tt, s).
Proof.
  intros Hline Hparse Hbad e.
  assert (Hp : process_line consumer on_message true line_bytes s
               = ([], Raised e, s)).
  { destruct (parse_line_some _ _ Hparse)
      as (text & c & line & Hdec & Hstrip & Hpre & Hjson).
    unfold process_line. rewrite Hdec. cbv zeta. rewrite Hstrip, Hpre.
    cbv [try_except bind loads ret raise]. rewrite Hjson.
    subst e. unfold debug_event.
    destruct data as [| | | | |items|entries];
      try reflexivity.
    destruct Hbad as [Hbad|Hbad]; [discriminate|].
    cbv [bind py_get ret answer_of field] in *.
    destruct (match dict_lookup entries (lit "answer") with
              | Some v => v
              | None => VStr []
              end); try discriminate; reflexivity. }
  split; [exact Hp|]. split.
  - assert (Hs : split_newline (line_bytes ++ newline :: rest)
                 = Some (line_bytes, rest)).
    { rewrite (split_newline_none_app _ _ Hline). simpl.
      rewrite app_nil_r. reflexivity. }
    rewrite (drain_lines_some _ _ _ _ _ _ s Hs).
    apply bind_run_raised. exact Hp.
  - rewrite process_line_pure, Hparse, (event_no_line_error _ _ Hparse).
    reflexivity.
Qed.

(** ** How many events a body can hold *)

Lemma newlines_app (b1 b2 : bytes) :
  newlines (b1 ++ b2) = newlines b1 + newlines b2.
Proof.
  unfold newlines. rewrite filter_app, length_app. reflexivity.
Qed.

Lemma option_list_length (A : Type) (o : option A) :
  List.length (option_list o) <= 1.
Proof. destruct o; simpl; lia. Qed.

Lemma drain_events_count (fuel : nat) (buffer : bytes) :
  List.length (fst (drain_events fuel buffer))
  + match snd (drain_events fuel buffer) with
    | inl rest => newlines rest
    | inr _ => 0
    end
  <= newlines buffer.
Proof.
  revert buffer. induction fuel as [|fuel IH]; intros buffer.
  - simpl. lia.
  - cbn [drain_events].
    destruct (split_newline buffer) as [[line rest]|] eqn:E.
    + destruct (line_error line) as [e|]; [simpl; lia|].
      specialize (IH rest).
      destruct (drain_events fuel rest) as [events stop].
      cbn [fst snd] in *.
      destruct (split_newline_join _ _ _ E) as [-> _].
      rewrite length_app, newlines_app.
      pose proof (option_list_length _ (parse_line line)) as Ho.
      change (newline :: rest) with ([newline] ++ rest).
      rewrite newlines_app.
      assert (newlines [newline] = 1) by reflexivity.
      lia.
    + simpl. lia.
Qed.

Lemma feed_events_count (chunks : list bytes) (buffer : bytes) :
  List.length (fst (feed_events chunks buffer))
  + match snd (feed_events chunks buffer) with
    | inl rest => newlines rest
    | inr _ => 0
    end
  <= newlines buffer + newlines (List.concat chunks).
Proof.
  revert buffer. induction chunks as [|chunk chunks IH]; intros buffer.
  - simpl. lia.
  - destruct chunk as [|c chunk].
    + cbn [feed_events List.concat app]. apply IH.
    + cbn [feed_events].
      pose proof (drain_events_count
                    (List.length (buffer ++ c :: chunk))
                    (buffer ++ c :: chunk)) as Hd.
      destruct (drain_events _ (buffer ++ c :: chunk))
        as [events [buffer'|e]].
      * specialize (IH buffer').
        destruct (feed_events chunks buffer') as [events' stop'].
        cbn [fst snd] in *.
        cbn [List.concat]. rewrite length_app.
        rewrite newlines_app in Hd. rewrite newlines_app.
        lia.
      * cbn [fst snd] in *. cbn [List.concat].
        rewrite newlines_app in Hd. rewrite newlines_app. lia.
Qed.

(** X6.  A stream yields at most one event for every newline byte of its
    body, and one more for what follows the last newline. *)
Theorem X6_at_most_one_event_per_line
  (chunks : list bytes) (failure : option exn) (s : state) :
  List.length
    (yields (trace_of (decode_stream observe None false chunks failure s)))
  <= newlines (List.concat chunks) + 1.
Proof.
  rewrite decode_stream_observe. cbn [trace_of fst].
  rewrite yields_map_yield. unfold stream_events.
  pose proof (feed_events_count chunks []) as H.
  destruct (feed_events chunks []) as [events [buffer|e]];
    cbn [fst snd] in H; change (newlines []) with 0 in H.
  - destruct failure as [e|].
    + lia.
    + rewrite length_app.
      pose proof (option_list_length _ (parse_tail buffer)). lia.
  - lia.
Qed.

(** ** A stream that breaks *)

Lemma status_ok (resp : response) :
  (status_code resp < 400 \/ 600 <= status_code resp)%N ->
  ((400 <=? status_code resp)%N && (status_code resp <? 600)%N) = false.
Proof.
  intros [H|H]; apply andb_false_iff.
  - left. apply N.leb_gt. exact H.
  - right. apply N.ltb_ge. exact H.
Qed.

(** X7.  The chunk iterator raises part-way (the connection breaks).  The
    events of the lines that were complete have been yielded, in order;
    then the exception leaves the generator, logged when it is a
    [requests.RequestException].  What the buffer held is not looked at:
    compared with the same stream read to its end, at most the event
    after the last newline is missing.  (When [json.loads] has raised on
    a line an exception that no handler catches, the stream has ended
    there, with that exception and the events of the lines before.) *)
Theorem X7_broken_stream_keeps_the_complete_lines
  (query : pystr) (query_extends : value) (chunk_size : N) (s : state)
  (cid : value) (uid : pystr) (resp : response) (w : world) (e : exn) :
  app_conversation_id s = Some cid ->
  user_id s = Some uid ->
  session_post
    (streaming_request (api_url s) (api_key s) query cid (VStr uid)
       query_extends)
    (outside s) = (Responded resp, w) ->
  (status_code resp < 400 \/ 600 <= status_code resp)%N ->
  iter_failure resp = Some e ->
  let e' := match snd (feed_events (iter_content resp chunk_size) []) with
            | inl _ => e
            | inr e_line => e_line
            end in
  chat_query_streaming observe query query_extends None chunk_size false s
  = (APost (streaming_request (api_url s) (api_key s) query cid (VStr uid)
              query_extends)
       :: map AYield (fst (feed_events (iter_content resp chunk_size) []))
       ++ error_log "Error during streaming chat query"
            (Raised (A:=unit) e'),
     Raised e', set_outside w s)
  /\ exists last,
       stream_events (iter_content resp chunk_size) None
       = fst (feed_events (iter_content resp chunk_size) []) ++ last
       /\ List.length last <= 1.
Proof.
  intros Hcid Huid Hpost Hstatus Hfail e'.
  split.
  - rewrite chat_query_streaming_run, Hcid, Huid. cbv zeta.
    rewrite Hpost, (status_ok _ Hstatus), decode_stream_observe, Hfail.
    unfold stream_events, stream_end. subst e'.
    destruct (feed_events (iter_content resp chunk_size) [])
      as [events [buffer|e_line]]; reflexivity.
  - unfold stream_events.
    destruct (feed_events (iter_content resp chunk_size) [])
      as [events [buffer|e_line]]; cbn [fst].
    + exists (option_list (parse_tail buffer)).
      split; [reflexivity|apply option_list_length].
    + exists []. split; [rewrite app_nil_r; reflexivity|simpl; lia].
Qed.

(** ** The facade once the conversation exists *)

Lemma chat_created_run (prompt : pystr) (history : value) (kw : kwargs)
  (s : state) (cid : value) (uid : pystr) :
  _conversation_created s = true ->
  app_conversation_id s = Some cid ->
  user_id s = Some uid ->
  exists t' r w,
    chat prompt history kw s
    = (APost (blocking_request (api_url s) (api_key s) prompt cid (VStr uid)
                (kw_query_extends kw)) :: t',
       r, set_outside w s).
Proof.
  intros Hc Hcid Huid. unfold chat.
  rewrite (bind_run_normal _ _ _ _ _ _ _ _ (ensure_conversation_created s Hc)).
  cbv zeta. unfold bind at 1.
  rewrite chat_query_blocking_run, Hcid, Huid. cbv zeta.
  destruct (session_post _ (outside s)) as [[resp|e] w].
  - destruct ((400 <=? status_code resp)%N && (status_code resp <? 600)%N).
    { do 3 eexists. reflexivity. }
    destruct (json_body resp) as [body|].
    2:{ do 3 eexists. reflexivity. }
    destruct (build_response_pure kw body (set_outside w s)) as [r ->].
    do 3 eexists. reflexivity.
  - do 3 eexists. reflexivity.
Qed.

Lemma chat_stream_created_run (prompt : pystr) (history : value)
  (kw : kwargs) (s : state) (cid : value) (uid : pystr) :
  _conversation_created s = true ->
  app_conversation_id s = Some cid ->
  user_id s = Some uid ->
  exists t' r w,
    chat_stream prompt history kw s
    = (APost (streaming_request (api_url s) (api_key s) prompt cid
                (VStr uid) (kw_query_extends kw)) :: t',
       r, set_outside w s).
Proof.
  intros Hc Hcid Huid. unfold chat_stream.
  rewrite (bind_run_normal _ _ _ _ _ _ _ _ (ensure_conversation_created s Hc)).
  cbv zeta. unfold for_each.
  rewrite chat_query_streaming_run, Hcid, Huid. cbv zeta.
  destruct (session_post _ (outside s)) as [[resp|e] w].
  - destruct ((400 <=? status_code resp)%N && (status_code resp <? 600)%N).
    { do 3 eexists. reflexivity. }
    destruct (decode_stream_reyield_any
                (iter_content resp (kw_chunk_size kw)) (iter_failure resp)
                (set_outside w s)) as (fragments & r & ->).
    destruct r as [[]|e|e]; do 3 eexists; reflexivity.
  - do 3 eexists. reflexivity.
Qed.

Lemma run_call_created_run (c : call) (s : state) (cid : value)
  (uid : pystr) :
  _conversation_created s = true ->
  app_conversation_id s = Some cid ->
  user_id s = Some uid ->
  (exists t',
     trace_of (run_call c s)
     = APost (query_request c (api_url s) (api_key s) cid (VStr uid)) :: t')
  /\ state_of (run_call c s)
     = set_outside (outside (state_of (run_call c s))) s.
Proof.
  intros Hc Hcid Huid.
  destruct c as [prompt history kw|prompt history kw];
    cbn [run_call query_request].
  - destruct (chat_created_run prompt history kw s cid uid Hc Hcid Huid)
      as (t' & r & w & E).
    unfold bind. rewrite E.
    destruct r; split; try (eexists; reflexivity); reflexivity.
  - destruct (chat_stream_created_run prompt history kw s cid uid Hc Hcid
                Huid) as (t' & r & w & E).
    rewrite E. split; [eexists|]; reflexivity.
Qed.

(** X13.  Once the conversation exists, every call of [chat] and
    [chat_stream], whatever it returns or raises, starts by sending its
    own query with the conversation id and the user id the client holds,
    and leaves the client and the facade as they were: the same ids, the
    same configuration, the flag set.  So all the calls of an instance
    talk to one conversation. *)
Theorem X13_later_calls_use_the_same_conversation
  (calls : list call) (s : state) (cid : value) (uid : pystr) :
  _conversation_created s = true ->
  app_conversation_id s = Some cid ->
  user_id s = Some uid ->
  Forall2
    (fun c run =>
       (exists t',
          trace_of run
          = APost (query_request c (api_url s) (api_key s) cid (VStr uid))
              :: t')
       /\ state_of run = set_outside (outside (state_of run)) s)
    calls (run_calls calls s).
Proof.
  revert s. induction calls as [|c calls IH]; intros s Hc Hcid Huid.
  - constructor.
  - cbn [run_calls].
    destruct (run_call_created_run c s cid uid Hc Hcid Huid) as [Ht Hs].
    destruct (run_call c s) as [[t r] s'].
    cbn [trace_of state_of fst snd] in Ht, Hs.
    constructor.
    + split; assumption.
    + assert (Hc' : _conversation_created s' = true)
        by (rewrite Hs; exact Hc).
      assert (Hcid' : app_conversation_id s' = Some cid)
        by (rewrite Hs; exact Hcid).
      assert (Huid' : user_id s' = Some uid)
        by (rewrite Hs; exact Huid).
      specialize (IH s' Hc' Hcid' Huid').
      assert (Hurl : api_url s' = api_url s) by (rewrite Hs; reflexivity).
      assert (Hkey : api_key s' = api_key s) by (rewrite Hs; reflexivity).
      rewrite Hurl, Hkey in IH.
      eapply Forall2_impl; [|exact IH].
      intros c0 run [Ht0 Hs0]. split; [exact Ht0|].
      rewrite Hs0 at 1. rewrite Hs. reflexivity.
Qed.

(** X12.  The first call of an instance, when the server answers the
    creation with an object that holds a [Conversation] object: the call
    sends the request that creates the conversation and then its own
    query, which carries the [AppConversationID] of the answer ([None]
    when the answer has none), the user id of the facade and the key.
    When the call ends the client holds that id and that user, and the
    flag is set. *)
Theorem X12_first_call_uses_the_new_conversation
  (c : call) (s : state) (resp : response) (w : world)
  (entries conversation : list (pystr * value)) :
  _conversation_created s = false ->
  session_post
    (create_conversation_request (api_url s) (api_key s) (facade_user_id s)
       (conversation_inputs s))
    (outside s) = (Responded resp, w) ->
  (status_code resp < 400 \/ 600 <= status_code resp)%N ->
  json_body resp = Some (VDict entries) ->
  dict_lookup entries (lit "Conversation") = Some (VDict conversation) ->
  let cid := field (VDict conversation) (lit "AppConversationID") VNone in
  (exists t',
     trace_of (run_call c s)
     = APost (create_conversation_request (api_url s) (api_key s)
                (facade_user_id s) (conversation_inputs s))
         :: APost (query_request c (api_url s) (api_key s) cid
                     (VStr (facade_user_id s)))
         :: t')
  /\ app_conversation_id (state_of (run_call c s)) = Some cid
  /\ user_id (state_of (run_call c s)) = Some (facade_user_id s)
  /\ _conversation_created (state_of (run_call c s)) = true.
Proof.
  intros Hnew Hpost Hstatus Hbody Hconv cid.
  set (s1 := set_conversation_created true
               (set_user_id (facade_user_id s)
                  (set_app_conversation_id cid (set_outside w s)))).
  assert (He : _ensure_conversation s
               = ([APost (create_conversation_request (api_url s)
                            (api_key s) (facade_user_id s)
                            (conversation_inputs s))],
                  Normal tt, s1)).
  { rewrite (ensure_conversation_new s Hnew), create_conversation_run.
    cbv zeta. rewrite Hpost, (status_ok _ Hstatus), Hbody.
    unfold field at 1. rewrite Hconv. reflexivity. }
  assert (Hc1 : _conversation_created s1 = true) by reflexivity.
  rewrite (run_call_after_ensure c _ _ _ He Hc1).
  destruct (run_call_created_run c s1 cid (facade_user_id s) Hc1
              eq_refl eq_refl) as [[t' Ht] Hs].
  destruct (run_call c s1) as [[t r] s'].
  cbn [trace_of state_of fst snd] in *.
  split; [|rewrite Hs; repeat split].
  exists t'. rewrite Ht. reflexivity.
Qed.

(** ** The result of [chat] *)

Lemma chat_run (prompt : pystr) (history : value) (kw : kwargs)
  (s s1 : state) (t1 : list action) (cid : value) (uid : pystr)
  (resp : response) (w : world) (body : value) :
  _ensure_conversation s = (t1, Normal tt, s1) ->
  app_conversation_id s1 = Some cid ->
  user_id s1 = Some uid ->
  session_post
    (blocking_request (api_url s1) (api_key s1) prompt cid (VStr uid)
       (kw_query_extends kw))
    (outside s1) = (Responded resp, w) ->
  (status_code resp < 400 \/ 600 <= status_code resp)%N ->
  json_body resp = Some body ->
  chat prompt history kw s
  = let '(t, r, s') := build_response kw body (set_outside w s1) in
    (t1 ++ APost (blocking_request (api_url s1) (api_key s1) prompt cid
                    (VStr uid) (kw_query_extends kw)) :: t,
     r, s').
Proof.
  intros He Hcid Huid Hpost Hstatus Hbody.
  unfold chat.
  rewrite (bind_run_normal _ _ _ _ _ _ _ _ He). cbv zeta.
  assert (Hq : chat_query_blocking prompt (kw_query_extends kw) s1
               = ([APost (blocking_request (api_url s1) (api_key s1) prompt
                            cid (VStr uid) (kw_query_extends kw))],
                  Normal body, set_outside w s1)).
  { rewrite chat_query_blocking_run, Hcid, Huid. cbv zeta.
    rewrite Hpost, (status_ok _ Hstatus), Hbody. reflexivity. }
  rewrite (bind_run_normal _ _ _ _ _ _ _ _ Hq).
  destruct (build_response kw body (set_outside w s1)) as [[t r] s'].
  reflexivity.
Qed.

(** X14.  [chat] without [json=True], on an answered query whose body
    is an object with a text as answer, or with no answer, which counts
    as the empty text: it returns a result whose content is that text and
    whose structured field is [None]; [json.loads] is not called.  One
    request was sent after those of the conversation, and nothing was
    logged. *)
Theorem X14_chat_result
  (prompt : pystr) (history : value) (kw : kwargs) (s s1 : state)
  (t1 : list action) (cid : value) (uid : pystr) (resp : response)
  (w : world) (body : value) (text : pystr) :
  _ensure_conversation s = (t1, Normal tt, s1) ->
  app_conversation_id s1 = Some cid ->
  user_id s1 = Some uid ->
  session_post
    (blocking_request (api_url s1) (api_key s1) prompt cid (VStr uid)
       (kw_query_extends kw))
    (outside s1) = (Responded resp, w) ->
  (status_code resp < 400 \/ 600 <= status_code resp)%N ->
  json_body resp = Some body ->
  is_object body = true ->
  answer_of body = VStr text ->
  kw_json kw = false ->
  chat prompt history kw s
  = (t1 ++ [APost (blocking_request (api_url s1) (api_key s1) prompt cid
                     (VStr uid) (kw_query_extends kw))],
     Normal {| output := {| content := VStr text |};
               parsed_response := VNone |},
     set_outside w s1).
Proof.
  intros He Hcid Huid Hpost Hstatus Hbody Hobj Hanswer Hjson.
  rewrite (chat_run _ _ _ _ _ _ _ _ _ _ _ He Hcid Huid Hpost Hstatus Hbody).
  destruct body as [| | | | |items|entries]; try discriminate.
  cbv [build_response bind py_get ret answer_of field] in *.
  rewrite Hanswer, Hjson. reflexivity.
Qed.

(** X15.  [chat] raises after its query was sent and answered when the
    body is JSON but not an object ([AttributeError], from [.get]), and,
    with [json=True], when the answer of the body is not a text
    ([TypeError], from [json.loads], which the handler for
    [json.JSONDecodeError] does not catch).  Nothing is logged. *)
Theorem X15_chat_raises_on_a_body_it_cannot_read
  (prompt : pystr) (history : value) (kw : kwargs) (s s1 : state)
  (t1 : list action) (cid : value) (uid : pystr) (resp : response)
  (w : world) (body : value) :
  _ensure_conversation s = (t1, Normal tt, s1) ->
  app_conversation_id s1 = Some cid ->
  user_id s1 = Some uid ->
  session_post
    (blocking_request (api_url s1) (api_key s1) prompt cid (VStr uid)
       (kw_query_extends kw))
    (outside s1) = (Responded resp, w) ->
  (status_code resp < 400 \/ 600 <= status_code resp)%N ->
  json_body resp = Some body ->
  is_object body = false
  \/ (kw_json kw = true /\ is_text (answer_of body) = false) ->
  chat prompt history kw s
  = (t1 ++ [APost (blocking_request (api_url s1) (api_key s1) prompt cid
                     (VStr uid) (kw_query_extends kw))],
     Raised (if is_object body then TypeError else AttributeError),
     set_outside w s1).
Proof.
  intros He Hcid Huid Hpost Hstatus Hbody Hbad.
  rewrite (chat_run _ _ _ _ _ _ _ _ _ _ _ He Hcid Huid Hpost Hstatus Hbody).
  destruct body as [| | | | |items|entries]; try reflexivity.
  destruct Hbad as [Hbad|[Hjson Hbad]]; [discriminate|].
  cbv [build_response bind py_get ret try_except loads raise answer_of field]
    in *.
  rewrite Hjson.
  destruct (match dict_lookup entries (lit "answer") with
            | Some v => v
            | None => VStr []
            end); try discriminate; reflexivity.
Qed.

(** ** An event that is not an object *)

Lemma deliver_reyield_stops (before after : list value) (event : value)
  (s : state) :
  forallb is_object before = true ->
  is_object event = false ->
  deliver reyield_answer (before ++ event :: after) s
  = (map AYield (message_fragments before), Abandoned AttributeError, s).
Proof.
  intros Hb He.
  rewrite deliver_app.
  rewrite (bind_run_normal _ _ _ _ _ _ _ _ (deliver_reyield before s Hb)).
  unfold deliver. cbn [for_list].
  rewrite (bind_run_abandoned _ _ _ _ _ _ _ _
             (yield_raised _ _ _ _ _ _ (reyield_answer_other event s He))).
  rewrite app_nil_r. reflexivity.
Qed.

(** X16.  [chat_stream] reads every event with [.get].  When the stream
    carries an event that is JSON but not an object, the fragments of the
    events before it have been yielded; then [AttributeError] leaves
    [chat_stream], the events after it are not read, and the exception is
    not logged, even when the stream was to break later. *)
Theorem X16_chat_stream_stops_at_an_event_that_is_no_object
  (prompt : pystr) (history : value) (kw : kwargs) (s s1 s2 : state)
  (t0 t_events : list action) (r_events : result unit)
  (before after : list value) (event : value) :
  _ensure_conversation s = (t0, Normal tt, s1) ->
  chat_query_streaming observe prompt (kw_query_extends kw) None
    (kw_chunk_size kw) false s1 = (t_events, r_events, s2) ->
  yields t_events = before ++ event :: after ->
  forallb is_object before = true ->
  is_object event = false ->
  exists t,
    chat_stream prompt history kw s = (t, Raised AttributeError, s2)
    /\ yields t = message_fragments before
    /\ logs t = logs t0.
Proof.
  intros He Hrun Hy Hb Hev.
  unfold chat_stream.
  rewrite (bind_run_normal _ _ _ _ _ _ _ _ He). cbv zeta.
  unfold for_each. revert Hrun.
  rewrite !chat_query_streaming_run.
  destruct (app_conversation_id s1) as [cid|].
  2:{ intros H. injection H as <- <- <-.
      destruct before; discriminate. }
  destruct (user_id s1) as [uid|].
  2:{ intros H. injection H as <- <- <-.
      destruct before; discriminate. }
  cbv zeta.
  destruct (session_post _ (outside s1)) as [[resp|e] w].
  - destruct ((400 <=? status_code resp)%N && (status_code resp <? 600)%N).
    { intros H. injection H as <- <- <-. destruct before; discriminate. }
    rewrite decode_stream_observe, decode_stream_pure.
    intros H. injection H as <- <- <-.
    cbn [yields flat_map app] in Hy.
    change (flat_map _ ?t) with (yields t) in Hy.
    rewrite yields_app, yields_map_yield, yields_error_log, app_nil_r in Hy.
    rewrite Hy.
    rewrite (bind_run_abandoned _ _ _ _ _ _ _ _
               (deliver_reyield_stops before after event _ Hb Hev)).
    cbn [error_log]. rewrite app_nil_r.
    eexists. split; [reflexivity|]. split.
    + rewrite yields_app, (ensure_conversation_yields_nothing _ _ _ _ He).
      cbn [yields flat_map app]. change (flat_map _ ?t) with (yields t).
      apply yields_map_yield.
    + unfold logs. rewrite filter_app, length_app.
      cbn [filter]. 
      assert (Hn : forall l, filter (fun a => match a with
                                              | ALog _ _ => true
                                              | _ => false
                                              end) (map AYield l) = []).
      { induction l; [reflexivity|exact IHl]. }
      unfold logs. rewrite Hn. simpl. lia.
  - intros H. injection H as <- <- <-.
    cbn [error_log] in Hy.
    destruct (is_RequestException e); destruct before; discriminate.
Qed.

(** ** The streaming call as a whole *)

Lemma posts_app (t1 t2 : list action) : posts (t1 ++ t2) = posts t1 + posts t2.
Proof. unfold posts. rewrite filter_app, length_app. reflexivity. Qed.

Lemma logs_app (t1 t2 : list action) : logs (t1 ++ t2) = logs t1 + logs t2.
Proof. unfold logs. rewrite filter_app, length_app. reflexivity. Qed.

Lemma quiet_ret (A : Type) (a : A) : quiet (ret a).
Proof.
  intros s t r s' H. injection H as <- <- <-.
  repeat split; try discriminate. apply set_outside_same.
Qed.

Lemma quiet_raise (A : Type) (e : exn) : quiet (raise (A:=A) e).
Proof.
  intros s t r s' H. injection H as <- <- <-.
  repeat split; try discriminate. apply set_outside_same.
Qed.

Lemma quiet_bind (A B : Type) (m : M A) (k : A -> M B) :
  quiet m -> (forall a, quiet (k a)) -> quiet (bind m k).
Proof.
  intros Hm Hk s t r s'. unfold bind.
  destruct (m s) as [[t1 r1] s1] eqn:E1.
  destruct (Hm _ _ _ _ E1) as (Hp1 & Hl1 & Ha1 & Hs1).
  destruct r1 as [a|e|e].
  - destruct (k a s1) as [[t2 r2] s2] eqn:E2.
    destruct (Hk a _ _ _ _ E2) as (Hp2 & Hl2 & Ha2 & Hs2).
    intros H. injection H as <- <- <-.
    rewrite posts_app, logs_app, Hp1, Hl1, Hp2, Hl2.
    repeat split; try exact Ha2.
    rewrite Hs2 at 1. rewrite Hs1. reflexivity.
  - intros H. injection H as <- <- <-.
    split; [assumption|split; [assumption|split; [|assumption]]].
    intros e0; discriminate.
  - exfalso. exact (Ha1 e eq_refl).
Qed.

Lemma quiet_try (A : Type) (m : M A) (catches : exn -> bool)
  (handler : exn -> M A) :
  quiet m -> (forall e, quiet (handler e)) ->
  quiet (try_except m catches handler).
Proof.
  intros Hm Hh s t r s'. unfold try_except.
  destruct (m s) as [[t1 r1] s1] eqn:E1.
  destruct (Hm _ _ _ _ E1) as (Hp1 & Hl1 & Ha1 & Hs1).
  destruct r1 as [a|e|e].
  - intros H. injection H as <- <- <-.
    split; [assumption|split; [assumption|split; [|assumption]]].
    intros e0; discriminate.
  - destruct (catches e).
    + destruct (handler e s1) as [[t2 r2] s2] eqn:E2.
      destruct (Hh e _ _ _ _ E2) as (Hp2 & Hl2 & Ha2 & Hs2).
      intros H. injection H as <- <- <-.
      rewrite posts_app, logs_app, Hp1, Hl1, Hp2, Hl2.
      repeat split; try exact Ha2.
      rewrite Hs2 at 1. rewrite Hs1. reflexivity.
    + intros H. injection H as <- <- <-.
      split; [assumption|split; [assumption|split; [|assumption]]].
    intros e0; discriminate.
  - exfalso. exact (Ha1 e eq_refl).
Qed.

Lemma quiet_py_get (obj : value) (key : pystr) (default : value) :
  quiet (py_get obj key default).
Proof. destruct obj; try apply quiet_raise. apply quiet_ret. Qed.

Lemma quiet_py_len (obj : value) : quiet (py_len obj).
Proof. destruct obj; try apply quiet_raise; apply quiet_ret. Qed.

Lemma quiet_loads (x : value) : quiet (loads x).
Proof.
  destruct x as [| | | |text| |]; try apply quiet_raise. unfold loads.
  destruct (json_loads text); [apply quiet_ret|apply quiet_raise].
Qed.

Lemma quiet_call_on_message (on_message : option handler) (data : value) :
  quiet (call_on_message on_message data).
Proof.
  unfold call_on_message.
  destruct (enabled on_message) as [cb|]; [|apply quiet_ret].
  intros s t r s'.
  destruct (cb data (outside s)) as [o w].
  intros H. injection H as <- <- <-.
  repeat split. destruct o; discriminate.
Qed.

Lemma quiet_debug_print (vs : list value) : quiet (debug_print vs).
Proof.
  unfold debug_print.
  destruct (stdout_encodes vs); [apply quiet_ret|apply quiet_raise].
Qed.

Lemma quiet_yield_observe (v : value) : quiet (yield_ observe v).
Proof.
  intros s t r s' H.
  rewrite (yield_normal observe v s s [AYield v] eq_refl) in H.
  injection H as <- <- <-.
  repeat split; try discriminate. apply set_outside_same.
Qed.

Lemma quiet_debug_event (debug : bool) (data : value) :
  quiet (debug_event debug data).
Proof.
  unfold debug_event. destruct debug; [|apply quiet_ret].
  apply quiet_bind; [apply quiet_py_get|]. intros answer.
  apply quiet_bind; [apply quiet_py_get|]. intros event.
  apply quiet_bind; [apply quiet_py_len|]. intros _.
  apply quiet_debug_print.
Qed.

Lemma quiet_event (on_message : option handler) (debug : bool)
  (data_str : pystr) :
  quiet (data <- loads (VStr data_str) ;;
         debug_event debug data ;;
         data' <- call_on_message on_message data ;;
         yield_ observe data').
Proof.
  apply quiet_bind; [apply quiet_loads|]. intros data.
  apply quiet_bind; [apply quiet_debug_event|]. intros _.
  apply quiet_bind; [apply quiet_call_on_message|]. intros data'.
  apply quiet_yield_observe.
Qed.

Lemma quiet_process_line (on_message : option handler) (debug : bool)
  (line_bytes : bytes) :
  quiet (process_line observe on_message debug line_bytes).
Proof.
  unfold process_line.
  destruct (utf8_decode line_bytes) as [text|]; [|apply quiet_ret].
  cbv zeta. destruct (strip text) as [|c line]; [apply quiet_ret|].
  destruct (startswith data_prefix (c :: line)); [|apply quiet_ret].
  apply quiet_try; [apply quiet_event|]. intros e.
  destruct debug; [apply quiet_debug_print|apply quiet_ret].
Qed.

Lemma quiet_drain (on_message : option handler) (debug : bool)
  (fuel : nat) (buffer : bytes) :
  quiet (drain fuel observe on_message debug buffer).
Proof.
  revert buffer. induction fuel as [|fuel IH]; intros buffer.
  - apply quiet_ret.
  - cbn [drain].
    destruct (split_newline buffer) as [[line rest]|]; [|apply quiet_ret].
    apply quiet_bind; [apply quiet_process_line|]. intros _. apply IH.
Qed.

Lemma quiet_feed_chunks (on_message : option handler) (debug : bool)
  (chunks : list bytes) (buffer : bytes) :
  quiet (feed_chunks observe on_message debug chunks buffer).
Proof.
  revert buffer. induction chunks as [|chunk chunks IH]; intros buffer.
  - apply quiet_ret.
  - destruct chunk as [|c chunk]; cbn [feed_chunks]; [apply IH|].
    apply quiet_bind; [apply quiet_drain|]. intros buffer'. apply IH.
Qed.

Lemma quiet_process_tail (on_message : option handler) (buffer : bytes) :
  quiet (process_tail observe on_message buffer).
Proof.
  unfold process_tail. destruct buffer as [|c buffer]; [apply quiet_ret|].
  apply quiet_try; [|intros e; apply quiet_ret].
  destruct (utf8_decode (c :: buffer)) as [text|]; [|apply quiet_raise].
  cbv zeta.
  destruct (startswith data_prefix (strip text)); [|apply quiet_ret].
  apply quiet_bind; [apply quiet_loads|]. intros data.
  apply quiet_bind; [apply quiet_call_on_message|]. intros data'.
  apply quiet_yield_observe.
Qed.

Lemma quiet_decode_stream (on_message : option handler) (debug : bool)
  (chunks : list bytes) (failure : option exn) :
  quiet (decode_stream observe on_message debug chunks failure).
Proof.
  unfold decode_stream.
  apply quiet_bind; [apply quiet_feed_chunks|]. intros buffer.
  apply quiet_bind.
  - destruct failure; [apply quiet_raise|apply quiet_ret].
  - intros _. apply quiet_process_tail.
Qed.

Lemma logs_error_log (message : string) (A : Type) (r : result A) :
  posts (error_log message r) = 0
  /\ logs (error_log message r)
     = match r with
       | Raised e => if is_RequestException e then 1 else 0
       | _ => 0
       end.
Proof.
  destruct r as [a|e|e]; try (split; reflexivity).
  cbn [error_log]. destruct (is_RequestException e); split; reflexivity.
Qed.

(** X17.  The streaming call consumed to its end, with or without a
    callback and with [debug] on or off: it sends at most one request and
    never a second one, whatever the stream holds; it writes one log
    record when it ends with a [requests.RequestException] and none
    otherwise, so an exception of that class raised by the callback is
    logged as a streaming error like one of the connection; and it
    leaves the attributes of the client as they were. *)
Theorem X17_streaming_sends_one_request
  (query : pystr) (query_extends : value) (on_message : option handler)
  (chunk_size : N) (debug : bool) (s : state) :
  posts (trace_of (chat_query_streaming observe query query_extends
                     on_message chunk_size debug s)) <= 1
  /\ logs (trace_of (chat_query_streaming observe query query_extends
                       on_message chunk_size debug s))
     = match result_of (chat_query_streaming observe query query_extends
                          on_message chunk_size debug s) with
       | Raised e => if is_RequestException e then 1 else 0
       | _ => 0
       end
  /\ state_of (chat_query_streaming observe query query_extends on_message
                 chunk_size debug s)
     = set_outside
         (outside (state_of (chat_query_streaming observe query
                               query_extends on_message chunk_size debug s)))
         s.
Proof.
  rewrite chat_query_streaming_run.
  destruct (app_conversation_id s) as [cid|].
  2:{ split; [unfold posts, trace_of; simpl; lia|split; [reflexivity|apply set_outside_same]]. }
  destruct (user_id s) as [uid|].
  2:{ split; [unfold posts, trace_of; simpl; lia|split; [reflexivity|apply set_outside_same]]. }
  cbv zeta.
  destruct (session_post _ (outside s)) as [[resp|e] w].
  - destruct ((400 <=? status_code resp)%N && (status_code resp <? 600)%N).
    { split; [unfold posts, trace_of; simpl; lia|split; reflexivity]. }
    destruct (decode_stream observe on_message debug _ _ _)
      as [[t res] s'] eqn:E.
    destruct (quiet_decode_stream _ _ _ _ _ _ _ _ E)
      as (Hp & Hl & Ha & Hs).
    destruct (logs_error_log "Error during streaming chat query" _ res)
      as [Hpe Hle].
    cbn [trace_of result_of state_of fst snd].
    change (APost ?r :: ?t) with ([APost r] ++ t).
    rewrite !posts_app, !logs_app, Hp, Hl, Hpe, Hle.
    split; [unfold posts, trace_of; simpl; lia|split; [reflexivity|]].
    rewrite Hs at 1. reflexivity.
  - cbn [trace_of result_of state_of fst snd error_log].
    destruct (is_RequestException e);
      (split; [unfold posts, trace_of; simpl; lia|split; reflexivity]).
Qed.

(** ** The space after the prefix *)

Lemma lstrip_app_visible (l r : pystr) (c : N) :
  isspace c = false -> lstrip (l ++ c :: r) = lstrip l ++ c :: r.
Proof.
  intros Hc. induction l as [|x l IH].
  - simpl. rewrite Hc. reflexivity.
  - simpl. destruct (isspace x); [exact IH|reflexivity].
Qed.

Lemma rstrip_cons_visible (c : N) (t : pystr) :
  isspace c = false -> rstrip (c :: t) = c :: rstrip t.
Proof.
  intros Hc. unfold rstrip. cbn [rev].
  rewrite (lstrip_app_visible _ [] _ Hc), rev_app_distr. reflexivity.
Qed.

Lemma rstrip_cons_space (c : N) (t : pystr) :
  isspace c = true ->
  rstrip (c :: t) = match rstrip t with [] => [] | _ => c :: rstrip t end.
Proof.
  intros Hc. unfold rstrip. cbn [rev].
  rewrite (lstrip_snoc_space _ _ Hc).
  destruct (lstrip (rev t)) as [|x l] eqn:E; [reflexivity|].
  rewrite rev_app_distr. cbn [rev app].
  destruct (rev l ++ [x]) eqn:E'; [|reflexivity].
  destruct (rev l); discriminate.
Qed.

Lemma strip_prefixed (text : pystr) :
  strip (lit "data:" ++ text) = lit "data:" ++ rstrip text.
Proof.
  unfold strip.
  change (lit "data:") with [100; 97; 116; 97; 58]%N.
  cbn [app].
  change (lstrip (?c :: ?t)) with (c :: t).
  rewrite !rstrip_cons_visible by reflexivity. reflexivity.
Qed.

Lemma utf8_decode_ascii (b0 : byte) (t0 : bytes) :
  (Byte.to_N b0 <? 128)%N = true ->
  utf8_decode (b0 :: t0) = option_map (cons (Byte.to_N b0)) (utf8_decode t0).
Proof.
  intros H. cbn [utf8_decode]. cbv zeta. rewrite H. reflexivity.
Qed.

Lemma utf8_decode_prefixed (payload : bytes) :
  utf8_decode (list_byte_of_string "data:" ++ payload)
  = option_map (app (lit "data:")) (utf8_decode payload).
Proof.
  change (list_byte_of_string "data:" ++ payload)
    with (x64 :: x61 :: x74 :: x61 :: x3a :: payload).
  rewrite !utf8_decode_ascii by reflexivity.
  destruct (utf8_decode payload); reflexivity.
Qed.

(** X18.  The space after [data:] is optional: a line [data:<json>] is
    handled as the line [data: <json>], with the same payload handed to
    [json.loads]. *)
Theorem X18_space_after_the_prefix_is_optional
  (consumer : sink) (on_message : option handler) (debug : bool)
  (payload : bytes) (s : state) :
  process_line consumer on_message debug
    (list_byte_of_string "data:" ++ payload) s
  = process_line consumer on_message debug (data_frame payload) s.
Proof.
  unfold data_frame.
  change (list_byte_of_string "data: " ++ payload)
    with (list_byte_of_string "data:" ++ x20 :: payload).
  unfold process_line. rewrite !utf8_decode_prefixed.
  rewrite (utf8_decode_ascii x20 payload eq_refl).
  destruct (utf8_decode payload) as [text|]; [|reflexivity].
  cbn [option_map]. cbv zeta.
  rewrite !strip_prefixed.
  change (lit "data:") with [100; 97; 116; 97; 58]%N.
  cbn [app].
  change (startswith data_prefix (?a :: ?b :: ?c :: ?d :: ?e :: ?t))
    with (startswith data_prefix [a; b; c; d; e]).
  assert (Hs : strip (rstrip (32%N :: text)) = strip (rstrip text)).
  { rewrite (rstrip_cons_space 32 text eq_refl).
    destruct (rstrip text) as [|x l]; reflexivity. }
  cbn [skipn]. change (Byte.to_N x20) with 32%N. rewrite Hs. reflexivity.
Qed.

(** ** When the debug flag is harmless *)

Lemma try_except_ext (A : Type) (m1 m2 : M A) (catches : exn -> bool)
  (h1 h2 : exn -> M A) (s : state) :
  m1 s = m2 s ->
  (forall e s', h1 e s' = h2 e s') ->
  try_except m1 catches h1 s = try_except m2 catches h2 s.
Proof.
  intros Hm Hh. unfold try_except. rewrite Hm.
  destruct (m2 s) as [[t [a|e|e]] s1]; try reflexivity.
  destruct (catches e); [|reflexivity]. rewrite Hh. reflexivity.
Qed.

Lemma debug_event_printable (data : value) (s : state) :
  is_object data && has_len (answer_of data)
  && stdout_encodes [field data (lit "event") VNone; answer_of data] = true ->
  debug_event true data s = ret tt s.
Proof.
  intros H. apply andb_prop in H. destruct H as [H Hprint].
  apply andb_prop in H. destruct H as [Ho Hl].
  destruct data as [| | | | |items|entries]; try discriminate.
  cbv [debug_event bind py_get ret answer_of field debug_print] in *.
  destruct (match dict_lookup entries (lit "answer") with
            | Some v => v
            | None => VStr []
            end); try discriminate; cbv [py_len ret]; rewrite Hprint;
    reflexivity.
Qed.

Lemma process_line_debug (consumer : sink) (on_message : option handler)
  (line_bytes : bytes) (s : state) :
  debug_safe line_bytes = true ->
  process_line consumer on_message true line_bytes s
  = process_line consumer on_message false line_bytes s.
Proof.
  unfold process_line, debug_safe.
  destruct (utf8_decode line_bytes) as [text|]; [|reflexivity].
  cbv zeta. destruct (strip text) as [|c line]; [reflexivity|].
  destruct (startswith data_prefix (c :: line)); [|reflexivity].
  intros H. apply andb_prop in H. destruct H as [Hprint H].
  apply try_except_ext.
  - unfold loads.
    destruct (json_loads (strip (skipn 5 (c :: line)))) as [data|e];
      [|reflexivity].
    rewrite !bind_ret_l.
    apply bind_cong_l. rewrite (debug_event_printable _ _ H). reflexivity.
  - intros e s'. unfold debug_print. rewrite Hprint. reflexivity.
Qed.

Lemma drain_debug (consumer : sink) (on_message : option handler)
  (fuel : nat) (buffer : bytes) (s : state) :
  forallb debug_safe (lines_of fuel buffer) = true ->
  drain fuel consumer on_message true buffer s
  = drain fuel consumer on_message false buffer s.
Proof.
  revert buffer s. induction fuel as [|fuel IH]; intros buffer s H.
  - reflexivity.
  - cbn [drain lines_of] in *.
    destruct (split_newline buffer) as [[line rest]|]; [|reflexivity].
    cbn [forallb] in H. apply andb_prop in H. destruct H as [H1 H2].
    rewrite (bind_cong_l _ _ _ _ _ s (process_line_debug _ _ _ s H1)).
    apply bind_ext. intros [] s'. apply IH. exact H2.
Qed.

(** X19.  Apart from what it prints, the debug flag changes nothing of
    what the stream does when every complete line of the body is safe for
    the two blocks that print it: [print] can write the payload of a
    line that starts with [data:], and the event of a line, if it has
    one, is an object whose answer has a length (a text, a list, an
    object, or no answer at all) and whose tag and answer [print] can
    write.  Then the stream makes the same callback invocations and the
    same yields, with the same outcome.  The event of the trailing
    fragment is never printed, so nothing is asked of it. *)
Theorem X19_debug_is_harmless_on_printable_events
  (consumer : sink) (on_message : option handler) (chunks : list bytes)
  (failure : option exn) (s : state) :
  forallb debug_safe (complete_lines (List.concat chunks)) = true ->
  decode_stream consumer on_message true chunks failure s
  = decode_stream consumer on_message false chunks failure s.
Proof.
  intros H. unfold decode_stream.
  apply bind_cong_l. rewrite !feed_chunks_whole.
  apply drain_debug. exact H.
Qed.

(** ** The callback of the streaming call *)


End Proofs.

(** ** Worked examples *)

Section Examples.

Import Example.

(** C1 on the two events [data: {"event": "message", "answer": "hi"}] and
    [data: 7], delivered byte by byte. *)
Lemma C1_witness :
  let payloads := [b "{'event': 'message', 'answer': 'hi'}"; b "7"] in
  let chunks := one_byte_chunks (framed payloads) in
  let s := fresh [] in
  (payloads <> []
   /\ Forall (fun p => split_newline p = None) payloads
   /\ Forall (fun c => c <> []) chunks
   /\ List.concat chunks = framed payloads)
  /\ (decode_stream observe None false chunks None s
      = decode_stream observe None false [framed payloads] None s
      /\ decode_stream observe None false [framed payloads] None s
         = for_list payloads
             (fun p => process_line observe None false (data_frame p)) s).
Proof.
  intros payloads chunks s.
  assert (H1 : payloads <> []) by discriminate.
  assert (H2 : Forall (fun p => split_newline p = None) payloads)
    by (repeat constructor).
  assert (H3 : Forall (fun c => c <> []) chunks)
    by (repeat constructor; discriminate).
  assert (H4 : List.concat chunks = framed payloads) by reflexivity.
  split.
  - repeat split; assumption.
  - exact (C1_chunking_does_not_matter observe None false payloads chunks s
             H1 H2 H3 H4).
Defined.

(** The example of the specification: an event cut in two chunks is one
    event, and the fragment [chat_stream] takes from it is ["hi"]. *)
Example split_event_is_one_event :
  let chunks := [b "data: {'event': 'mess"; ln "age', 'answer': 'hi'}"] in
  let event := VDict [(u "event", VStr (u "message"));
                      (u "answer", VStr (u "hi"))] in
  decode_stream observe None false chunks None (fresh [])
  = ([AYield event], Normal tt, fresh [])
  /\ message_fragments [event] = [VStr (u "hi")].
Proof.
  split; reflexivity.
Qed.

(** C7 on the comment line [: keep-alive] followed by an event. *)
Lemma C7_witness :
  let line := b ": keep-alive" in
  let rest := ln "data: 1" in
  let s := fresh [] in
  (split_newline line = None
   /\ utf8_decode line = Some (u ": keep-alive")
   /\ (strip (u ": keep-alive") = []
       \/ startswith data_prefix (strip (u ": keep-alive")) = false))
  /\ (process_line observe None false line s = ([], Normal tt, s)
      /\ drain_lines observe None false (line ++ newline :: rest) s
         = drain_lines observe None false rest s).
Proof.
  intros line rest s.
  assert (H1 : split_newline line = None) by reflexivity.
  assert (H2 : utf8_decode line = Some (u ": keep-alive")) by reflexivity.
  assert (H3 : strip (u ": keep-alive") = []
               \/ startswith data_prefix (strip (u ": keep-alive")) = false)
    by (right; reflexivity).
  split.
  - repeat split; assumption.
  - exact (C7_lines_without_data_prefix_produce_nothing observe None false
             line rest (u ": keep-alive") s H1 H2 H3).
Defined.

(** The amended C2 on a stream whose last event, [data: 2], has no
    newline after it. *)
Lemma C2_witness :
  let chunks := [ln "data: 1" ++ b "data: 2"] in
  let s := fresh [] in
  (feed_chunks observe None false chunks [] s
   = ([AYield (VInt 1)], Normal (b "data: 2"), s)
   /\ b "data: 2" <> [])
  /\ decode_stream observe None false chunks None s
     = ([AYield (VInt 1); AYield (VInt 2)], Normal tt, s).
Proof.
  intros chunks s.
  assert (H1 : feed_chunks observe None false chunks [] s
               = ([AYield (VInt 1)], Normal (b "data: 2"), s))
    by reflexivity.
  assert (H2 : b "data: 2" <> []) by discriminate.
  split.
  - split; assumption.
  - destruct (C2_trailing_fragment None false chunks s s
                [AYield (VInt 1)] (b "data: 2") H1 H2) as (_ & Hyes & _).
    destruct (Hyes (u "data: 2") (VInt 2) eq_refl eq_refl eq_refl)
      as [Hnone _].
    exact (Hnone eq_refl).
Defined.

(** What the streams of C2's counterexample do.  On a trailing fragment
    whose payload opens two thousand arrays, [json.loads] raises
    [RecursionError], which the handler of line 176 does not name: it
    leaves the generator.  On a well-formed trailing fragment, a callback
    that raises leaves no event to yield. *)
Example trailing_fragment_runs :
  decode_stream observe None false [deep_fragment] None (fresh [])
  = ([], Raised RecursionError, fresh [])
  /\ decode_stream observe (Some (function failing_callback)) false
       [b "data: 2"] None (fresh [])
     = ([ACall (VInt 2) (inr (OtherError 7))], Raised (OtherError 7),
        fresh []).
Proof.
  split; vm_compute; reflexivity.
Qed.

(** C2 as worded fails, on those two streams: an error is raised on a
    fragment that is not well formed, and a well-formed fragment adds no
    event. *)
Lemma C2_counterexample :
  ~ trailing_fragment_as_worded None false [deep_fragment] (fresh [])
  /\ ~ trailing_fragment_as_worded (Some (function failing_callback)) false
        [b "data: 2"] (fresh []).
Proof.
  split.
  - intros H.
    assert (Hfeed : feed_chunks observe None false [deep_fragment] []
                      (fresh [])
                    = ([], Normal deep_fragment, fresh []))
      by (vm_compute; reflexivity).
    assert (Hne : deep_fragment <> []) by discriminate.
    destruct (H _ _ _ Hfeed Hne) as (t2 & r & s2 & Hrun & _ & Hr).
    assert (Htail : parse_tail deep_fragment = None)
      by (vm_compute; reflexivity).
    rewrite (Hr Htail) in Hrun.
    rewrite (proj1 trailing_fragment_runs) in Hrun. discriminate.
  - intros H.
    assert (Hfeed : feed_chunks observe (Some (function failing_callback))
                      false [b "data: 2"] [] (fresh [])
                    = ([], Normal (b "data: 2"), fresh []))
      by reflexivity.
    assert (Hne : b "data: 2" <> []) by discriminate.
    destruct (H _ _ _ Hfeed Hne) as (t2 & r & s2 & Hrun & Hy & _).
    rewrite (proj2 trailing_fragment_runs) in Hrun.
    injection Hrun as Ht _ _. cbn [app] in Ht. subst t2.
    vm_compute in Hy. discriminate.
Qed.

(** What the streams of C3's counterexample do.  A callback that raises
    [json.JSONDecodeError] on the first of two events is called twice and
    the stream ends normally, having yielded the second event only.  A
    callback that raises [UnicodeDecodeError] ends the stream when the
    event is on a complete line, and is silenced when the event is the
    trailing fragment.  An object that is false is never called. *)
Example callbacks_silenced :
  (let run := chat_query_streaming observe (lit "hi") VNone
                (Some (function parsing_callback)) 1 false
                (connected [Responded
                              (stream_response (ln "data: 1" ++ ln "data: 2")
                                 None)]) in
   skipn 1 (trace_of run)
   = [ACall (VInt 1) (inr JSONDecodeError);
      ACall (VInt 2) (inl (VInt 2)); AYield (VInt 2)]
   /\ result_of run = Normal tt)
  /\ (let run := chat_query_streaming observe (lit "hi") VNone
                   (Some (function decoding_callback)) 1 false
                   (connected [Responded
                                 (stream_response (ln "data: 1") None)]) in
      skipn 1 (trace_of run) = [ACall (VInt 1) (inr UnicodeDecodeError)]
      /\ result_of run = Raised UnicodeDecodeError)
  /\ (let run := chat_query_streaming observe (lit "hi") VNone
                   (Some (function decoding_callback)) 1 false
                   (connected [Responded
                                 (stream_response (b "data: 1") None)]) in
      skipn 1 (trace_of run) = [ACall (VInt 1) (inr UnicodeDecodeError)]
      /\ result_of run = Normal tt)
  /\ (let run := chat_query_streaming observe (lit "hi") VNone
                   (Some empty_callable) 1 false
                   (connected [Responded
                                 (stream_response (ln "data: 1") None)]) in
      skipn 1 (trace_of run) = [AYield (VInt 1)]
      /\ result_of run = Normal tt).
Proof.
  repeat split; reflexivity.
Qed.



(** C4 on a [chat], a [chat_stream] and a [chat] that finds the
    connection refused. *)
Lemma C4_witness :
  let s := fresh [created; answered "hello";
                  Responded (stream_response four_events None)] in
  let c := Chat (lit "hi") VNone no_kwargs in
  let calls := [ChatStream (lit "more") VNone no_kwargs;
                Chat (lit "again") VNone no_kwargs] in
  (_conversation_created s = false
   /\ _ensure_conversation s
      = (trace_of (_ensure_conversation s), Normal tt,
         state_of (_ensure_conversation s)))
  /\ exists t r s',
       run_call c s = (t, r, s')
       /\ (exists t',
             t = APost (create_conversation_request (api_url s) (api_key s)
                          (facade_user_id s) (conversation_inputs s)) :: t')
       /\ create_posts (api_url s) t = 1
       /\ _conversation_created s' = true
       /\ Forall (fun run =>
                    create_posts (api_url s) (trace_of run) = 0
                    /\ _conversation_created (state_of run) = true)
            (run_calls calls s').
Proof.
  intros s c calls.
  assert (H1 : _conversation_created s = false) by reflexivity.
  assert (H2 : _ensure_conversation s
               = (trace_of (_ensure_conversation s), Normal tt,
                  state_of (_ensure_conversation s))) by reflexivity.
  split.
  - split; assumption.
  - exact (C4_conversation_created_once c calls s _ _ H1 H2).
Defined.

(** C5 on the stream of four events: the fragments are ["hi"] and
    [" there"]. *)
Lemma C5_witness :
  let s := fresh [created; Responded (stream_response four_events None)] in
  let s1 := state_of (_ensure_conversation s) in
  let events :=
    chat_query_streaming observe (lit "hi") VNone None 1 false s1 in
  (_ensure_conversation s
   = (trace_of (_ensure_conversation s), Normal tt, s1)
   /\ chat_query_streaming observe (lit "hi") (kw_query_extends no_kwargs)
        None (kw_chunk_size no_kwargs) false s1
      = (trace_of events, result_of events, state_of events)
   /\ forallb is_object (yields (trace_of events)) = true)
  /\ exists t,
       chat_stream (lit "hi") VNone no_kwargs s
       = (t, result_of events, state_of events)
       /\ yields t = [VStr (u "hi"); VStr (u " there")].
Proof.
  intros s s1 events.
  assert (H1 : _ensure_conversation s
               = (trace_of (_ensure_conversation s), Normal tt, s1))
    by reflexivity.
  assert (H2 : chat_query_streaming observe (lit "hi")
                 (kw_query_extends no_kwargs) None
                 (kw_chunk_size no_kwargs) false s1
               = (trace_of events, result_of events, state_of events))
    by reflexivity.
  assert (H3 : forallb is_object (yields (trace_of events)) = true)
    by reflexivity.
  split.
  - repeat split; assumption.
  - destruct (C5_chat_stream_yields_nonempty_message_answers
                (lit "hi") VNone no_kwargs s s1 _ _ _ _ H1 H2 H3)
      as (t & Hrun & Hyields & _).
    exists t. split; [exact Hrun|]. rewrite Hyields. reflexivity.
Defined.

(** The amended C6 on an answer that is plain prose. *)
Lemma C6_witness :
  let s := fresh [created; answered "not json"] in
  let s1 := state_of (_ensure_conversation s) in
  let r := blocking_request (api_url s1) (api_key s1) (lit "hi")
             (VStr (u "c-1")) (VStr (lit "graphrag_user")) VNone in
  (_ensure_conversation s = (trace_of (_ensure_conversation s), Normal tt, s1)
   /\ app_conversation_id s1 = Some (VStr (u "c-1"))
   /\ user_id s1 = Some (lit "graphrag_user")
   /\ kw_json json_kwargs = true
   /\ session_post r (outside s1)
      = (Responded
           (json_response 200 (VDict [(u "answer", VStr (u "not json"))])),
         [])
   /\ (200 <= 200 < 300)%N
   /\ dict_lookup [(u "answer", VStr (u "not json"))] (lit "answer")
      = Some (VStr (u "not json"))
   /\ json_loads (u "not json") = inr JSONDecodeError
   /\ is_JSONDecodeError JSONDecodeError = true)
  /\ chat (lit "hi") VNone json_kwargs s
     = (trace_of (_ensure_conversation s) ++ [APost r],
        Normal {| output := {| content := VStr (u "not json") |};
                  parsed_response := VNone |},
        set_outside [] s1).
Proof.
  intros s s1 r.
  assert (H1 : _ensure_conversation s
               = (trace_of (_ensure_conversation s), Normal tt, s1))
    by reflexivity.
  assert (H2 : app_conversation_id s1 = Some (VStr (u "c-1")))
    by reflexivity.
  assert (H3 : user_id s1 = Some (lit "graphrag_user")) by reflexivity.
  assert (H4 : kw_json json_kwargs = true) by reflexivity.
  assert (H5 : session_post r (outside s1)
               = (Responded
                    (json_response 200
                       (VDict [(u "answer", VStr (u "not json"))])),
                  [])) by reflexivity.
  assert (H6 : (200 <= 200 < 300)%N) by lia.
  assert (H7 : dict_lookup [(u "answer", VStr (u "not json"))] (lit "answer")
               = Some (VStr (u "not json"))) by reflexivity.
  assert (H8 : json_loads (u "not json") = inr JSONDecodeError)
    by reflexivity.
  assert (H9 : is_JSONDecodeError JSONDecodeError = true) by reflexivity.
  split.
  - exact (conj H1 (conj H2 (conj H3 (conj H4 (conj H5 (conj H6
             (conj H7 (conj H8 H9)))))))).
  - exact (C6_unparsable_answer_gives_text_only (lit "hi") VNone
             json_kwargs s s1 _ _ _ _ [] _ _ _ H1 H2 H3 H4 H5 H6 eq_refl H7
             H8 H9).
Defined.

(** What [chat] does on the answer of C6's counterexample, a text that
    opens two thousand arrays and closes none: [json.loads] raises
    [RecursionError], which is not a [json.JSONDecodeError], and the
    exception leaves [chat]. *)
Example deep_answer_raises :
  json_loads deep_text = inr RecursionError
  /\ result_of
       (chat (lit "hi") VNone json_kwargs
          (fresh [created;
                  Responded
                    (json_response 200
                       (VDict [(u "answer", VStr deep_text)]))]))
     = Raised RecursionError.
Proof.
  split; vm_compute; reflexivity.
Qed.

(** C6 as worded fails on that answer, which is not valid JSON: [chat]
    does not return. *)
Lemma C6_counterexample :
  ~ unparsable_answer_as_worded (lit "hi") VNone json_kwargs
      (fresh [created;
              Responded
                (json_response 200 (VDict [(u "answer", VStr deep_text)]))]).
Proof.
  set (resp := json_response 200 (VDict [(u "answer", VStr deep_text)])).
  set (s := fresh [created; Responded resp]).
  intros H.
  assert (Hloads : forall v, json_loads deep_text <> inl v).
  { intros v Hv. rewrite (proj1 deep_answer_raises) in Hv. discriminate. }
  destruct (H (trace_of (_ensure_conversation s))
              (state_of (_ensure_conversation s))
              (VStr (u "c-1")) (lit "graphrag_user") resp []
              [(u "answer", VStr deep_text)] deep_text
              eq_refl eq_refl eq_refl eq_refl eq_refl
              (conj (N.le_refl 200) eq_refl) eq_refl eq_refl Hloads)
    as (t & s' & Hrun).
  pose proof (proj2 deep_answer_raises) as Hr.
  fold resp in Hr. fold s in Hr. rewrite Hrun in Hr. discriminate.
Qed.



(** C9 on an answer that reports an error in a 200 response. *)
Lemma C9_witness :
  let body := [(u "error", VStr (u "quota exceeded"))] in
  let s := fresh [Responded (json_response 200 (VDict body))] in
  let r := create_conversation_request (api_url s) (api_key s)
             (lit "graphrag_user") (VDict []) in
  (session_post r (outside s)
   = (Responded (json_response 200 (VDict body)), [])
   /\ (200 <= 200 < 300)%N
   /\ (dict_lookup body (lit "Conversation") = None
       \/ dict_lookup body (lit "Conversation") = Some VNone))
  /\ (create_conversation (lit "graphrag_user") (VDict []) s
      = ([APost r], Raised AttributeError, set_outside [] s)
      /\ is_RequestException AttributeError = false
      /\ app_conversation_id (set_outside [] s) = None
      /\ user_id (set_outside [] s) = None).
Proof.
  intros body s r.
  assert (H1 : session_post r (outside s)
               = (Responded (json_response 200 (VDict body)), []))
    by reflexivity.
  assert (H2 : (200 <= 200 < 300)%N) by lia.
  assert (H3 : dict_lookup body (lit "Conversation") = None
               \/ dict_lookup body (lit "Conversation") = Some VNone)
    by (left; reflexivity).
  split.
  - exact (conj H1 (conj H2 H3)).
  - exact (C9_missing_conversation_raises_attribute_error
             (lit "graphrag_user") (VDict []) s _ [] body H1 H2 eq_refl H3).
Defined.

(** C10 on a server that answers the first request with a 500 status
    and the second with the conversation. *)
Lemma C10_witness :
  let s := fresh [Responded (json_response 500 VNone); created;
                  answered "hello"] in
  let failed :=
    create_conversation (facade_user_id s) (conversation_inputs s) s in
  let c := Chat (lit "hi") VNone no_kwargs in
  let next := ChatStream (lit "hi") VNone no_kwargs in
  (_conversation_created s = false
   /\ create_conversation (facade_user_id s) (conversation_inputs s) s
      = (trace_of failed, Raised (HTTPError 500), state_of failed))
  /\ (run_call c s
      = (trace_of failed, Raised (HTTPError 500), state_of failed)
      /\ _conversation_created (state_of failed) = false
      /\ app_conversation_id (state_of failed) = None
      /\ user_id (state_of failed) = None
      /\ exists t',
           trace_of (run_call next (state_of failed))
           = APost (create_conversation_request (api_url s) (api_key s)
                      (facade_user_id s) (conversation_inputs s)) :: t').
Proof.
  intros s failed c next.
  assert (H1 : _conversation_created s = false) by reflexivity.
  assert (H2 : create_conversation (facade_user_id s)
                 (conversation_inputs s) s
               = (trace_of failed, Raised (HTTPError 500), state_of failed))
    by reflexivity.
  split.
  - split; assumption.
  - exact (C10_failed_creation_is_retried c next s _ _ _ H1 H2).
Defined.

(** X1 on a body whose first line holds a character of two bytes, cut
    between the two, with an empty chunk in between, and whose last event
    has no newline. *)
Lemma X1_witness :
  let chunks1 := [b "data: '" ++ [xc3]; []; [xa9] ++ ln "'" ++ b "data: 2"] in
  let chunks2 := [b "data: '" ++ [xc3; xa9] ++ ln "'"; b "data: 2"] in
  let s := fresh [] in
  List.concat chunks1 = List.concat chunks2
  /\ decode_stream observe None false chunks1 None s
     = decode_stream observe None false chunks2 None s.
Proof.
  intros chunks1 chunks2 s.
  assert (H1 : List.concat chunks1 = List.concat chunks2) by reflexivity.
  split.
  - exact H1.
  - exact (X1_decoding_depends_on_the_bytes_only observe None false chunks1
             chunks2 None s H1).
Defined.

(** X3 on a line that is not UTF-8 and on a line whose payload is an
    integer of 4301 digits, each followed by an event. *)
Lemma X3_witness :
  let line := b "data: " ++ [xff] in
  let long := b "data: " ++ long_integer in
  let rest := ln "data: 1" in
  let s := fresh [] in
  (split_newline line = None
   /\ (utf8_decode line = None
       \/ (exists text e,
             utf8_decode line = Some text
             /\ json_loads (strip (skipn 5 (strip text))) = inr e
             /\ is_JSONDecodeError e = true
             /\ (false = false
                 \/ stdout_encodes
                      [VStr (firstn 100 (strip (skipn 5 (strip text))))]
                    = true)))
   /\ split_newline long = None
   /\ utf8_decode long = Some (map Byte.to_N long)
   /\ startswith data_prefix (strip (map Byte.to_N long)) = true
   /\ json_loads (strip (skipn 5 (strip (map Byte.to_N long))))
      = inr ValueError
   /\ is_JSONDecodeError ValueError = false)
  /\ (drain_lines observe None false (line ++ newline :: rest) s
      = drain_lines observe None false rest s
      /\ drain_lines observe None false (long ++ newline :: rest) s
         = ([], Raised ValueError, s)).
Proof.
  intros line long rest s.
  assert (H1 : split_newline line = None) by reflexivity.
  assert (H2 : utf8_decode line = None
               \/ (exists text e,
                     utf8_decode line = Some text
                     /\ json_loads (strip (skipn 5 (strip text))) = inr e
                     /\ is_JSONDecodeError e = true
                     /\ (false = false
                         \/ stdout_encodes
                              [VStr (firstn 100
                                       (strip (skipn 5 (strip text))))]
                            = true)))
    by (left; reflexivity).
  assert (H3 : split_newline long = None) by (vm_compute; reflexivity).
  assert (H4 : utf8_decode long = Some (map Byte.to_N long))
    by (vm_compute; reflexivity).
  assert (H5 : startswith data_prefix (strip (map Byte.to_N long)) = true)
    by (vm_compute; reflexivity).
  assert (H6 : json_loads (strip (skipn 5 (strip (map Byte.to_N long))))
               = inr ValueError) by (vm_compute; reflexivity).
  assert (H7 : is_JSONDecodeError ValueError = false) by reflexivity.
  split.
  - exact (conj H1 (conj H2 (conj H3 (conj H4 (conj H5 (conj H6 H7)))))).
  - split.
    + exact (proj2 (proj1 (X3_undecodable_lines_are_skipped observe None
                             false line rest s H1) H2)).
    + exact (proj2 (proj2 (X3_undecodable_lines_are_skipped observe None
                             false long rest s H3) _ _ H4 H5 H6 H7)).
Defined.

(** X4 on the event [data: 1] ended by a carriage return and a
    newline. *)
Lemma X4_witness :
  let line := b "data: 1" in
  let s := fresh [] in
  split_newline line = None
  /\ (process_line observe None false (line ++ [carriage_return]) s
      = process_line observe None false line s
      /\ drain_lines observe None false
           (line ++ carriage_return :: newline :: []) s
         = drain_lines observe None false (line ++ newline :: []) s).
Proof.
  intros line s.
  assert (H1 : split_newline line = None) by reflexivity.
  split.
  - exact H1.
  - exact (X4_carriage_return_before_newline_is_ignored observe None false
             line [] s H1).
Defined.

(** X5 on a message whose answer is [null], followed by another
    event. *)
Lemma X5_witness :
  let line := b "data: {'event': 'message', 'answer': null}" in
  let data := VDict [(u "event", VStr (u "message")); (u "answer", VNone)] in
  let rest := ln "data: 1" in
  let s := fresh [] in
  (split_newline line = None
   /\ parse_line line = Some data
   /\ (is_object data = false \/ has_len (answer_of data) = false))
  /\ (process_line observe None true line s = ([], Raised TypeError, s)
      /\ drain_lines observe None true (line ++ newline :: rest) s
         = ([], Raised TypeError, s)
      /\ process_line observe None false line s
         = ([AYield data], Normal tt, s)).
Proof.
  intros line data rest s.
  assert (H1 : split_newline line = None) by reflexivity.
  assert (H2 : parse_line line = Some data) by reflexivity.
  assert (H3 : is_object data = false \/ has_len (answer_of data) = false)
    by (right; reflexivity).
  split.
  - exact (conj H1 (conj H2 H3)).
  - exact (X5_debug_raises_on_events_it_cannot_print observe None line rest
             data s H1 H2 H3).
Defined.

(** X7 on a stream that breaks after the bytes of two events, the second
    without its newline. *)
Lemma X7_witness :
  let resp := stream_response (ln "data: 1" ++ b "data: 2")
                (Some connection_broken) in
  let s := connected [Responded resp] in
  let cid := VStr (u "c-1") in
  let uid := lit "graphrag_user" in
  let r := streaming_request (api_url s) (api_key s) (lit "hi") cid
             (VStr uid) VNone in
  (app_conversation_id s = Some cid
   /\ user_id s = Some uid
   /\ session_post r (outside s) = (Responded resp, [])
   /\ (status_code resp < 400 \/ 600 <= status_code resp)%N
   /\ iter_failure resp = Some connection_broken)
  /\ chat_query_streaming observe (lit "hi") VNone None 1 false s
     = ([APost r; AYield (VInt 1);
         ALog (lit "Error during streaming chat query") connection_broken],
        Raised connection_broken, set_outside [] s).
Proof.
  intros resp s cid uid r.
  assert (H1 : app_conversation_id s = Some cid) by reflexivity.
  assert (H2 : user_id s = Some uid) by reflexivity.
  assert (H3 : session_post r (outside s) = (Responded resp, []))
    by reflexivity.
  assert (H4 : (status_code resp < 400 \/ 600 <= status_code resp)%N)
    by (left; reflexivity).
  assert (H5 : iter_failure resp = Some connection_broken) by reflexivity.
  split.
  - exact (conj H1 (conj H2 (conj H3 (conj H4 H5)))).
  - exact (proj1 (X7_broken_stream_keeps_the_complete_lines (lit "hi") VNone
                    1 s cid uid resp [] connection_broken H1 H2 H3 H4 H5)).
Defined.

(** X9 on a new client asked for a message. *)
Lemma X9_witness :
  let c := GetMessageInfo (lit "m-1") in
  let s := fresh [] in
  ((is_create c = false /\ user_id s = None)
   \/ (reads_conversation c = true /\ app_conversation_id s = None))
  /\ run_client_call c s = ([], Raised AttributeError, s).
Proof.
  intros c s.
  assert (H1 : (is_create c = false /\ user_id s = None)
               \/ (reads_conversation c = true
                   /\ app_conversation_id s = None))
    by (left; split; reflexivity).
  split.
  - exact H1.
  - exact (X9_methods_need_a_conversation c s H1).
Defined.

(** X10 on a new client. *)
Lemma X10_witness :
  let s := fresh [] in
  (app_conversation_id s = None \/ user_id s = None)
  /\ chat_query_streaming observe (lit "hi") VNone None 1 false s
     = ([], Raised AttributeError, s).
Proof.
  intros s.
  assert (H1 : app_conversation_id s = None \/ user_id s = None)
    by (left; reflexivity).
  split.
  - exact H1.
  - exact (X10_streaming_needs_a_conversation observe (lit "hi") VNone None
             1 false s H1).
Defined.

(** X11 on a blocking query that is answered. *)
Lemma X11_witness :
  let c := ChatQueryBlocking (lit "hi") VNone in
  let s := connected [answered "ok"] in
  (is_create c = false
   \/ (exists e, result_of (run_client_call c s) = Raised e))
  /\ state_of (run_client_call c s)
     = set_outside (outside (state_of (run_client_call c s))) s.
Proof.
  intros c s.
  assert (H1 : is_create c = false
               \/ (exists e, result_of (run_client_call c s) = Raised e))
    by (left; reflexivity).
  split.
  - exact H1.
  - exact (X11_only_a_created_conversation_changes_the_client c s H1).
Defined.

(** X12 on the first [chat] of a new instance. *)
Lemma X12_witness :
  let c := Chat (lit "hi") VNone no_kwargs in
  let s := fresh [created; answered "ok"] in
  let resp := json_response 200 conversation_body in
  let conversation := [(u "AppConversationID", VStr (u "c-1"))] in
  (_conversation_created s = false
   /\ session_post
        (create_conversation_request (api_url s) (api_key s)
           (facade_user_id s) (conversation_inputs s))
        (outside s) = (Responded resp, [answered "ok"])
   /\ (status_code resp < 400 \/ 600 <= status_code resp)%N
   /\ json_body resp = Some (VDict [(u "Conversation", VDict conversation)])
   /\ dict_lookup [(u "Conversation", VDict conversation)]
        (lit "Conversation") = Some (VDict conversation))
  /\ app_conversation_id (state_of (run_call c s)) = Some (VStr (u "c-1")).
Proof.
  intros c s resp conversation.
  assert (H1 : _conversation_created s = false) by reflexivity.
  assert (H2 : session_post
                 (create_conversation_request (api_url s) (api_key s)
                    (facade_user_id s) (conversation_inputs s))
                 (outside s) = (Responded resp, [answered "ok"]))
    by reflexivity.
  assert (H3 : (status_code resp < 400 \/ 600 <= status_code resp)%N)
    by (left; reflexivity).
  assert (H4 : json_body resp
               = Some (VDict [(u "Conversation", VDict conversation)]))
    by reflexivity.
  assert (H5 : dict_lookup [(u "Conversation", VDict conversation)]
                 (lit "Conversation") = Some (VDict conversation))
    by reflexivity.
  split.
  - exact (conj H1 (conj H2 (conj H3 (conj H4 H5)))).
  - exact (proj1 (proj2 (X12_first_call_uses_the_new_conversation c s resp
                           [answered "ok"] _ conversation H1 H2 H3 H4 H5))).
Defined.

(** X13 on a [chat] followed by a [chat_stream]. *)
Lemma X13_witness :
  let calls := [Chat (lit "hi") VNone no_kwargs;
                ChatStream (lit "more") VNone no_kwargs] in
  let s := connected [answered "ok";
                      Responded (stream_response four_events None)] in
  let cid := VStr (u "c-1") in
  let uid := lit "graphrag_user" in
  (_conversation_created s = true
   /\ app_conversation_id s = Some cid
   /\ user_id s = Some uid)
  /\ Forall2
       (fun c run =>
          (exists t',
             trace_of run
             = APost (query_request c (api_url s) (api_key s) cid (VStr uid))
                 :: t')
          /\ state_of run = set_outside (outside (state_of run)) s)
       calls (run_calls calls s).
Proof.
  intros calls s cid uid.
  assert (H1 : _conversation_created s = true) by reflexivity.
  assert (H2 : app_conversation_id s = Some cid) by reflexivity.
  assert (H3 : user_id s = Some uid) by reflexivity.
  split.
  - exact (conj H1 (conj H2 H3)).
  - exact (X13_later_calls_use_the_same_conversation calls s cid uid H1 H2
             H3).
Defined.

(** X14 on a plain answer. *)
Lemma X14_witness :
  let s := fresh [created; answered "hello"] in
  let s1 := state_of (_ensure_conversation s) in
  let cid := VStr (u "c-1") in
  let uid := lit "graphrag_user" in
  let r := blocking_request (api_url s1) (api_key s1) (lit "hi") cid
             (VStr uid) VNone in
  let body := VDict [(u "answer", VStr (u "hello"))] in
  let resp := json_response 200 body in
  (_ensure_conversation s = (trace_of (_ensure_conversation s), Normal tt, s1)
   /\ app_conversation_id s1 = Some cid
   /\ user_id s1 = Some uid
   /\ session_post r (outside s1) = (Responded resp, [])
   /\ (status_code resp < 400 \/ 600 <= status_code resp)%N
   /\ json_body resp = Some body
   /\ is_object body = true
   /\ answer_of body = VStr (u "hello")
   /\ kw_json no_kwargs = false)
  /\ chat (lit "hi") VNone no_kwargs s
     = (trace_of (_ensure_conversation s) ++ [APost r],
        Normal {| output := {| content := VStr (u "hello") |};
                  parsed_response := VNone |},
        set_outside [] s1).
Proof.
  intros s s1 cid uid r body resp.
  assert (H1 : _ensure_conversation s
               = (trace_of (_ensure_conversation s), Normal tt, s1))
    by reflexivity.
  assert (H2 : app_conversation_id s1 = Some cid) by reflexivity.
  assert (H3 : user_id s1 = Some uid) by reflexivity.
  assert (H4 : session_post r (outside s1) = (Responded resp, []))
    by reflexivity.
  assert (H5 : (status_code resp < 400 \/ 600 <= status_code resp)%N)
    by (left; reflexivity).
  assert (H6 : json_body resp = Some body) by reflexivity.
  assert (H7 : is_object body = true) by reflexivity.
  assert (H8 : answer_of body = VStr (u "hello")) by reflexivity.
  assert (H9 : kw_json no_kwargs = false) by reflexivity.
  split.
  - exact (conj H1 (conj H2 (conj H3 (conj H4 (conj H5 (conj H6
             (conj H7 (conj H8 H9)))))))).
  - exact (X14_chat_result (lit "hi") VNone no_kwargs s s1 _ cid uid resp
             [] body _ H1 H2 H3 H4 H5 H6 H7 H8 H9).
Defined.

(** X15 on a body whose answer is [null], with [json=True]. *)
Lemma X15_witness :
  let body := VDict [(u "answer", VNone)] in
  let resp := json_response 200 body in
  let s := fresh [created; Responded resp] in
  let s1 := state_of (_ensure_conversation s) in
  let cid := VStr (u "c-1") in
  let uid := lit "graphrag_user" in
  let r := blocking_request (api_url s1) (api_key s1) (lit "hi") cid
             (VStr uid) VNone in
  (_ensure_conversation s = (trace_of (_ensure_conversation s), Normal tt, s1)
   /\ app_conversation_id s1 = Some cid
   /\ user_id s1 = Some uid
   /\ session_post r (outside s1) = (Responded resp, [])
   /\ (status_code resp < 400 \/ 600 <= status_code resp)%N
   /\ json_body resp = Some body
   /\ (is_object body = false
       \/ (kw_json json_kwargs = true /\ is_text (answer_of body) = false)))
  /\ chat (lit "hi") VNone json_kwargs s
     = (trace_of (_ensure_conversation s) ++ [APost r],
        Raised TypeError, set_outside [] s1).
Proof.
  intros body resp s s1 cid uid r.
  assert (H1 : _ensure_conversation s
               = (trace_of (_ensure_conversation s), Normal tt, s1))
    by reflexivity.
  assert (H2 : app_conversation_id s1 = Some cid) by reflexivity.
  assert (H3 : user_id s1 = Some uid) by reflexivity.
  assert (H4 : session_post r (outside s1) = (Responded resp, []))
    by reflexivity.
  assert (H5 : (status_code resp < 400 \/ 600 <= status_code resp)%N)
    by (left; reflexivity).
  assert (H6 : json_body resp = Some body) by reflexivity.
  assert (H7 : is_object body = false
               \/ (kw_json json_kwargs = true
                   /\ is_text (answer_of body) = false))
    by (right; split; reflexivity).
  split.
  - exact (conj H1 (conj H2 (conj H3 (conj H4 (conj H5 (conj H6 H7)))))).
  - exact (X15_chat_raises_on_a_body_it_cannot_read (lit "hi") VNone
             json_kwargs s s1 _ cid uid resp [] body H1 H2 H3 H4 H5 H6 H7).
Defined.

(** X16 on a stream whose second event is a list. *)
Lemma X16_witness :
  let body := ln "data: {'event': 'message', 'answer': 'hi'}"
              ++ ln "data: [1]"
              ++ ln "data: {'event': 'message', 'answer': 'lost'}" in
  let s := fresh [created; Responded (stream_response body None)] in
  let s1 := state_of (_ensure_conversation s) in
  let events :=
    chat_query_streaming observe (lit "hi") VNone None 1 false s1 in
  let first := VDict [(u "event", VStr (u "message"));
                      (u "answer", VStr (u "hi"))] in
  let third := VDict [(u "event", VStr (u "message"));
                      (u "answer", VStr (u "lost"))] in
  (_ensure_conversation s
   = (trace_of (_ensure_conversation s), Normal tt, s1)
   /\ chat_query_streaming observe (lit "hi") (kw_query_extends no_kwargs)
        None (kw_chunk_size no_kwargs) false s1
      = (trace_of events, result_of events, state_of events)
   /\ yields (trace_of events) = [first] ++ VList [VInt 1] :: [third]
   /\ forallb is_object [first] = true
   /\ is_object (VList [VInt 1]) = false)
  /\ exists t,
       chat_stream (lit "hi") VNone no_kwargs s
       = (t, Raised AttributeError, state_of events)
       /\ yields t = [VStr (u "hi")].
Proof.
  intros body s s1 events first third.
  assert (H1 : _ensure_conversation s
               = (trace_of (_ensure_conversation s), Normal tt, s1))
    by reflexivity.
  assert (H2 : chat_query_streaming observe (lit "hi")
                 (kw_query_extends no_kwargs) None
                 (kw_chunk_size no_kwargs) false s1
               = (trace_of events, result_of events, state_of events))
    by reflexivity.
  assert (H3 : yields (trace_of events)
               = [first] ++ VList [VInt 1] :: [third]) by reflexivity.
  assert (H4 : forallb is_object [first] = true) by reflexivity.
  assert (H5 : is_object (VList [VInt 1]) = false) by reflexivity.
  split.
  - exact (conj H1 (conj H2 (conj H3 (conj H4 H5)))).
  - destruct (X16_chat_stream_stops_at_an_event_that_is_no_object
                (lit "hi") VNone no_kwargs s s1 _ _ _ _ _ _ _ H1 H2 H3 H4
                H5) as (t & Hrun & Hyields & _).
    exists t. split; [exact Hrun|]. rewrite Hyields. reflexivity.
Defined.

(** X19 on the stream of four events followed by a fragment that holds
    a number. *)
Lemma X19_witness :
  let chunks := one_byte_chunks (four_events ++ b "data: 5") in
  let s := fresh [] in
  forallb debug_safe (complete_lines (List.concat chunks)) = true
  /\ decode_stream observe None true chunks None s
     = decode_stream observe None false chunks None s.
Proof.
  intros chunks s.
  assert (H1 : forallb debug_safe (complete_lines (List.concat chunks))
               = true) by (vm_compute; reflexivity).
  split.
  - exact H1.
  - exact (X19_debug_is_harmless_on_printable_events observe None chunks
             None s H1).
Defined.

End Examples.
